(** * Agentic RAG core: tool registry and orchestration loop

    A shallow embedding of [server/agents/tools/tool_registry.py] and
    [server/agents/core/agent_orchestrator.py], with the domain checker
    [server/agents/core/domain_checker.py] and the translation cache of
    [server/agents/core/language_processor.py] that the orchestrator
    consults.

    Modelling conventions.
    - Python [float] values (latencies, confidences, metric means) are
      exact rationals [Q]; equalities between computed numbers are stated
      with [==] ([Qeq]).  The scores by which the performance and the
      hybrid strategy rank the tools are computed in IEEE 754 double
      precision ([float]), as the code does, because rounding decides
      ties there; a stored rational is read as the double it is.
      The relevance ratio of two word counts stays exact: rounding
      quotients of counts below 2^26 does not change how they compare.
    - A Python [str] is a [string] whose characters stand for the code
      points 0 to 255; the texts of the translation cache, which are in
      any language, are lists of code points.
    - The [execute] attribute of a tool object is a coroutine function,
      as [BaseTool] declares it, or a plain function; the registry awaits
      the call, a worker of the thread pool does not.
    - The [query_type] of a context holds a member of the orchestrator's
      [QueryType] or of the [QueryType] of [domain_checker.py].
    - Python [dict] objects whose iteration order is observable
      ([ToolRegistry.tools], the executor's result map, the hybrid score
      table) are insertion-ordered association lists ([odict]); the two
      dictionaries that are only ever looked up by key
      ([tool_categories], [tool_performance]) are [gmap]s.
    - Counters that start at zero and are only incremented are [nat];
      [max_tools] is a Python [int], hence [Z], and list slicing follows
      Python for negative bounds.
    - A call that may raise returns an [Outcome]; the clock is passed in
      as explicit readings.
    - Mutable objects that are shared (the tool objects held by the
      registry, the [QueryContext] handed to the loop) are threaded as
      state. *)

From Stdlib Require Import QArith Qminmax Lia Lqa Ascii String Sorted Permutation.
From Stdlib Require Import Floats.
From stdpp Require Import gmap strings list pretty.

(** The decimal literals of the source ([0.3], [0.2], ...) denote the
    nearest double, here as in Python. *)
Set Warnings "-inexact-float".

Open Scope Q_scope.
Open Scope Z_scope.
Open Scope nat_scope.
Open Scope string_scope.
Open Scope list_scope.

(** ** Python runtime helpers *)

(** The result of a call that may raise: the description is [str(e)]. *)
Inductive Outcome (A : Type) : Type :=
| Returned (a : A)
| Raised (description : string).
Arguments Returned {A} a.
Arguments Raised {A} description.

(** Conversion of a Python [int] counter to a float. *)
Definition float_of_nat (n : nat) : Q := inject_Z (Z.of_nat n).

(** *** Double-precision arithmetic

    The ranking scores are computed with the arithmetic of the machine:
    [float] is IEEE 754 binary64, with the operations of the processor.
    A stored rational is read as the double it is, and a double is
    compared through its exact value. *)

(** [float(n)] for an [int]: the nearest double. *)
Definition float_of_Z (n : Z) : float :=
  SF2Prim (binary_normalize prec emax n 0 false).

(** The double nearest to a rational; a rational that is a double (its
    reduced denominator is a power of two, its numerator has at most 53
    bits) is read exactly. *)
Definition float_of_Q (q : Q) : float :=
  let q := Qred q in
  let k := Z.log2 (Zpos (Qden q)) in
  if (Zpos (Qden q) =? 2 ^ k)%Z
  then SF2Prim (binary_normalize prec emax (Qnum q) (- k) false)
  else (float_of_Z (Qnum q) / float_of_Z (Zpos (Qden q)))%float.

(** The exact value of a finite double.  The infinities lie beyond every
    finite double; a NaN does not arise from the operations used here. *)
Definition Q_of_float (x : float) : Q :=
  match Prim2SF x with
  | S754_zero _ => 0%Q
  | S754_finite s m e =>
      let v := (inject_Z (Zpos m) * 2 ^ e)%Q in
      if s then (- v)%Q else v
  | S754_infinity s => if s then (- 2 ^ 1024)%Q else (2 ^ 1024)%Q
  | S754_nan => 0%Q
  end.

(** [min(a, b)] for two floats: [b] if [b < a], else [a]. *)
Definition float_min (a b : float) : float :=
  if (b <? a)%float then b else a.

(** [l[:k]] for a Python [int] [k]: a negative bound counts from the end. *)
Definition py_slice_to {A : Type} (k : Z) (l : list A) : list A :=
  if (0 <=? k)%Z then firstn (Z.to_nat k) l
  else firstn (length l - Z.to_nat (- k)) l.

(** [l[-k:]] for a positive constant [k]. *)
Definition py_last {A : Type} (k : nat) (l : list A) : list A :=
  skipn (length l - k) l.

(** [l.remove(x)]: drops the first occurrence. *)
Fixpoint list_remove_first (x : string) (l : list string) : list string :=
  match l with
  | [] => []
  | y :: l' => if String.eqb x y then l' else y :: list_remove_first x l'
  end.

(** [x in l] for a list of strings. *)
Definition list_mem (x : string) (l : list string) : bool :=
  existsb (String.eqb x) l.

(** *** Insertion-ordered dictionaries with string keys *)

Definition odict (V : Type) : Type := list (string * V).

Fixpoint od_get {V : Type} (k : string) (d : odict V) : option V :=
  match d with
  | [] => None
  | (k', v) :: d' => if String.eqb k k' then Some v else od_get k d'
  end.

(** [d[k] = v]: an existing key keeps its position, a new key goes last. *)
Fixpoint od_set {V : Type} (k : string) (v : V) (d : odict V) : odict V :=
  match d with
  | [] => [(k, v)]
  | (k', v') :: d' =>
      if String.eqb k k' then (k, v) :: d' else (k', v') :: od_set k v d'
  end.

(** [del d[k]] *)
Fixpoint od_del {V : Type} (k : string) (d : odict V) : odict V :=
  match d with
  | [] => []
  | (k', v') :: d' =>
      if String.eqb k k' then d' else (k', v') :: od_del k d'
  end.

Definition od_keys {V : Type} (d : odict V) : list string := map fst d.

(** *** [list.sort(key=..., reverse=True)]

    Python's sort is stable, also under [reverse=True]: of two entries
    with equal keys the one that came first stays first. *)

Section StableSort.
Context {A : Type} (key : A -> Q).

Fixpoint insert_desc (x : A) (l : list A) : list A :=
  match l with
  | [] => [x]
  | y :: l' =>
      if Qlt_le_dec (key x) (key y) then y :: insert_desc x l'
      else x :: y :: l'
  end.

Fixpoint sort_desc (l : list A) : list A :=
  match l with
  | [] => []
  | x :: l' => insert_desc x (sort_desc l')
  end.
End StableSort.

(** *** Strings

    The characters of a [string] stand for the code points 0 to 255. *)

(** [str.lower] on one character: below code point 256 the upper-case
    letters are [A] to [Z] and the code points 192 to 222 other than the
    multiplication sign (215); each is 32 below its lower-case form. *)
Definition lower_char (c : ascii) : ascii :=
  let n := nat_of_ascii c in
  if (((65 <=? n) && (n <=? 90))
      || ((192 <=? n) && (n <=? 222) && negb (n =? 215)))%nat
  then ascii_of_nat (n + 32) else c.

(** [str.lower] *)
Fixpoint py_lower (s : string) : string :=
  match s with
  | EmptyString => EmptyString
  | String c s' => String (lower_char c) (py_lower s')
  end.

(** [str.isspace] on one character, the test [str.split()] and
    [str.strip()] use: tab to carriage return, the four separators 28 to
    31, the space, next line (133) and the no-break space (160). *)
Definition is_space (c : ascii) : bool :=
  let n := nat_of_ascii c in
  ((n =? 32) || ((9 <=? n) && (n <=? 13)) || ((28 <=? n) && (n <=? 31))
   || (n =? 133) || (n =? 160))%nat.

Fixpoint split_words (s : string) (current : string) : list string :=
  match s with
  | EmptyString =>
      match current with EmptyString => [] | _ => [current] end
  | String c s' =>
      if is_space c then
        match current with
        | EmptyString => split_words s' EmptyString
        | _ => current :: split_words s' EmptyString
        end
      else split_words s' (current +:+ String c EmptyString)
  end.

(** [s.split()] *)
Definition py_split (s : string) : list string := split_words s EmptyString.

(** ** domain_checker.py *)

(** Python's [sub in s] for strings: [sub] occurs in [s] at some offset. *)
Fixpoint py_contains (sub s : string) : bool :=
  String.prefix sub s
  || match s with
     | EmptyString => false
     | String _ s' => py_contains sub s'
     end.

(** [max(items, key=...)] on a non-empty sequence: the first of the
    maximal items. *)
Fixpoint py_max_from {A : Type} (key : A -> nat) (best : A) (l : list A)
    : A :=
  match l with
  | [] => best
  | x :: l' => py_max_from key (if (key best <? key x)%nat then x else best) l'
  end.

(** The comparisons [x < y] and [x <= y] of two floats. *)
Definition float_lt (x y : Q) : bool :=
  if Qlt_le_dec x y then true else false.

Definition float_le (x y : Q) : bool :=
  if Qlt_le_dec y x then false else true.

Module DomainRelevanceChecker.

(** The [QueryType] enumeration of [domain_checker.py], which has three
    members more than the one of the orchestrator. *)
Inductive QueryType : Type :=
| TROUBLESHOOTING
| COMPARISON
| GENERAL_INQUIRY
| CONFIGURATION
| PERFORMANCE
| PRICING
| SECURITY
| MIGRATION.

(** [QueryType.value] *)
Definition query_type_value (t : QueryType) : string :=
  match t with
  | TROUBLESHOOTING => "troubleshooting"
  | COMPARISON => "comparison"
  | GENERAL_INQUIRY => "general_inquiry"
  | CONFIGURATION => "configuration"
  | PERFORMANCE => "performance"
  | PRICING => "pricing"
  | SECURITY => "security"
  | MIGRATION => "migration"
  end.

Record DomainAnalysis : Type := {
  relevance_score : Q;
  confidence : Q;
  query_type : QueryType;
  detected_services : list string;
  detected_providers : list string;
  key_concepts : list string;
  clarification_needed : bool;
  suggested_clarifications : list string
}.

(** The tables built by [DomainRelevanceChecker.__init__], in the order of
    the dictionary literals. *)
Definition cloud_providers : list (string * list string) :=
  [("aws",
    ["aws"; "amazon web services"; "amazon"; "ec2"; "s3"; "lambda"; "rds";
     "cloudfront"]);
   ("azure",
    ["azure"; "microsoft azure"; "microsoft"; "vm"; "blob storage";
     "functions"; "sql database"]);
   ("gcp",
    ["gcp"; "google cloud"; "google"; "compute engine"; "cloud storage";
     "cloud functions"]);
   ("alibaba",
    ["alibaba cloud"; "aliyun"; "ecs"; "oss"]);
   ("oracle",
    ["oracle cloud"; "oci"; "oracle"]);
   ("ibm",
    ["ibm cloud"; "watson"; "bluemix"])].

Definition service_categories : list (string * list string) :=
  [("compute",
    ["ec2"; "virtual machine"; "vm"; "instance"; "server";
     "compute engine"; "container"; "kubernetes"; "docker"; "ecs"; "aks";
     "gke"; "fargate"]);
   ("storage",
    ["s3"; "blob storage"; "cloud storage"; "bucket"; "object storage";
     "file storage"; "block storage"; "disk"; "volume"; "backup"]);
   ("database",
    ["rds"; "sql database"; "nosql"; "dynamodb"; "cosmos db"; "firestore";
     "mysql"; "postgresql"; "mongodb"; "redis"; "database"]);
   ("networking",
    ["vpc"; "vnet"; "subnet"; "load balancer"; "cdn"; "cloudfront";
     "firewall"; "security group"; "route"; "gateway"; "dns"]);
   ("security",
    ["iam"; "active directory"; "authentication"; "authorization";
     "encryption"; "ssl"; "certificate"; "key vault"; "secrets"]);
   ("monitoring",
    ["cloudwatch"; "azure monitor"; "stackdriver"; "logging"; "metrics";
     "alerts"; "monitoring"; "observability"]);
   ("serverless",
    ["lambda"; "azure functions"; "cloud functions"; "serverless";
     "api gateway"; "event"; "trigger"])].

Definition query_type_patterns : list (QueryType * list string) :=
  [(TROUBLESHOOTING,
    ["error"; "issue"; "problem"; "not working"; "failed"; "broken";
     "troubleshoot"; "debug"; "fix"; "resolve"; "help"; "stuck"]);
   (COMPARISON,
    ["vs"; "versus"; "compare"; "comparison"; "difference"; "better";
     "which"; "choose"; "select"; "recommend"; "best"]);
   (CONFIGURATION,
    ["configure"; "setup"; "install"; "deploy"; "create"; "build";
     "how to"; "step by step"; "guide"; "tutorial"]);
   (PERFORMANCE,
    ["performance"; "slow"; "fast"; "optimize"; "speed"; "latency";
     "throughput"; "bottleneck"; "scale"; "scaling"]);
   (PRICING,
    ["cost"; "price"; "pricing"; "billing"; "charge"; "expensive"; "cheap";
     "budget"; "estimate"; "calculator"]);
   (SECURITY,
    ["security"; "secure"; "vulnerability"; "compliance"; "audit";
     "permission"; "access"; "policy"; "encryption"]);
   (MIGRATION,
    ["migrate"; "migration"; "move"; "transfer"; "import"; "export";
     "backup"; "restore"; "sync"; "replicate"])].

Definition non_cloud_indicators : list string :=
  ["local"; "on-premise"; "desktop"; "mobile app"; "game"; "recipe";
   "weather"; "news"; "sports"; "entertainment"; "personal"].

Definition cloud_keywords : list string :=
  ["cloud"; "saas"; "paas"; "iaas"; "devops"; "api"; "microservice"].

Definition technical_terms : list string :=
  ["api"; "rest"; "json"; "xml"; "http"; "https"; "ssl"; "tls"; "docker";
   "kubernetes"; "container"; "microservice"; "serverless"; "devops";
   "ci/cd"; "pipeline"; "deployment"; "scaling"; "load balancing";
   "database"; "sql"; "nosql"; "cache"; "cdn"; "storage"; "backup";
   "monitoring"; "logging"; "metrics"; "alerts"; "security"; "encryption"].

Definition specific_services : list string :=
  ["ec2"; "s3"; "lambda"; "rds"; "azure vm"; "blob storage"].

Definition vague_indicators : list string :=
  ["help"; "question"; "general"; "basic"; "simple"].

(** The counting loops of [_calculate_relevance_score]: one increment per
    term of the table that occurs in the query. *)
Definition count_terms (terms : list string) (query : string) (n : nat)
    : nat :=
  fold_left (fun n term => if py_contains term query then S n else n)
    terms n.

Definition count_table (table : list (string * list string))
    (query : string) : nat :=
  fold_left (fun n entry => count_terms (snd entry) query n) table 0%nat.

(** [sum(1 for x in xs if x in query)] *)
Definition count_present (xs : list string) (query : string) : nat :=
  length (List.filter (fun x => py_contains x query) xs).

(** [DomainRelevanceChecker._calculate_relevance_score] *)
Definition _calculate_relevance_score (query : string) : Q :=
  let score := 0%Q in
  let total_weight := 0%Q in
  let provider_weight := 0.3%Q in
  let provider_matches := count_table cloud_providers query in
  let score :=
    if (0 <? provider_matches)%nat
    then (score + provider_weight
                  * Qmin 1 (float_of_nat provider_matches / 3))%Q
    else score in
  let total_weight := (total_weight + provider_weight)%Q in
  let service_weight := 0.4%Q in
  let service_matches := count_table service_categories query in
  let score :=
    if (0 <? service_matches)%nat
    then (score + service_weight
                  * Qmin 1 (float_of_nat service_matches / 5))%Q
    else score in
  let total_weight := (total_weight + service_weight)%Q in
  let keyword_weight := 0.2%Q in
  let keyword_matches := count_present cloud_keywords query in
  let score :=
    if (0 <? keyword_matches)%nat
    then (score + keyword_weight
                  * Qmin 1 (float_of_nat keyword_matches / 3))%Q
    else score in
  let total_weight := (total_weight + keyword_weight)%Q in
  let penalty_weight := 0.1%Q in
  let penalty_matches := count_present non_cloud_indicators query in
  let score :=
    if (0 <? penalty_matches)%nat
    then (score - penalty_weight
                  * Qmin 1 (float_of_nat penalty_matches / 2))%Q
    else score in
  let total_weight := (total_weight + penalty_weight)%Q in
  if Qlt_le_dec 0 total_weight then Qmax 0 (Qmin 1 score) else score.

(** The [type_scores] dictionary of [_classify_query_type]: the types with
    a positive score, in the order of the pattern table. *)
Definition type_scores (query : string) : list (QueryType * nat) :=
  fold_left
    (fun scores entry =>
       let score := count_terms (snd entry) query 0%nat in
       if (0 <? score)%nat then scores ++ [(fst entry, score)] else scores)
    query_type_patterns [].

(** [DomainRelevanceChecker._classify_query_type] *)
Definition _classify_query_type (query : string) : QueryType :=
  match type_scores query with
  | [] => GENERAL_INQUIRY
  | first :: others => fst (py_max_from snd first others)
  end.

(** [DomainRelevanceChecker._detect_services] *)
Definition _detect_services (query : string) : list string :=
  fold_left
    (fun detected entry =>
       fold_left
         (fun detected term =>
            if py_contains term query
            then detected ++ [fst entry +:+ ":" +:+ term]
            else detected)
         (snd entry) detected)
    service_categories [].

(** The inner loop of [_detect_providers], which stops at the first term
    that occurs in the query. *)
Fixpoint detect_provider (provider : string) (terms : list string)
    (query : string) (detected : list string) : list string :=
  match terms with
  | [] => detected
  | term :: terms' =>
      if py_contains term query then detected ++ [provider]
      else detect_provider provider terms' query detected
  end.

(** [DomainRelevanceChecker._detect_providers] *)
Definition _detect_providers (query : string) : list string :=
  fold_left
    (fun detected entry =>
       detect_provider (fst entry) (snd entry) query detected)
    cloud_providers [].

(** [DomainRelevanceChecker._extract_key_concepts] *)
Definition _extract_key_concepts (query : string) : list string :=
  fold_left
    (fun concepts term =>
       if py_contains term query then concepts ++ [term] else concepts)
    technical_terms [].

(** [DomainRelevanceChecker._calculate_confidence] *)
Definition _calculate_confidence (query : string) (relevance_score : Q)
    : Q :=
  let confidence := relevance_score in
  let confidence :=
    fold_left
      (fun confidence service =>
         if py_contains service query then (confidence + 0.1)%Q
         else confidence)
      specific_services confidence in
  let confidence :=
    fold_left
      (fun confidence indicator =>
         if py_contains indicator query then (confidence - 0.1)%Q
         else confidence)
      vague_indicators confidence in
  Qmax 0 (Qmin 1 confidence).

(** [DomainRelevanceChecker._assess_clarification_needs] *)
Definition _assess_clarification_needs (query : string)
    (relevance_score : Q) (detected_services detected_providers : list string)
    : bool * list string :=
  let clarifications := [] in
  let clarifications :=
    if Qlt_le_dec relevance_score 0.5
    then clarifications
         ++ ["Are you asking about cloud services (AWS, Azure, Google Cloud)?"]
    else clarifications in
  let clarifications :=
    if (length detected_providers =? 0)%nat
       && float_lt 0.3 relevance_score
    then clarifications
         ++ ["Which cloud provider are you using (AWS, Azure, Google Cloud)?"]
    else clarifications in
  let clarifications :=
    if (length detected_services =? 0)%nat
       && float_lt 0.3 relevance_score
    then clarifications
         ++ ["Which specific cloud service are you asking about?"]
    else clarifications in
  let clarifications :=
    if py_contains "error" query && py_contains "not working" query
       && (length (py_split query) <? 5)%nat
    then clarifications ++ ["What specific error message are you seeing?"]
    else clarifications in
  let clarifications :=
    if (1 <? length detected_providers)%nat
    then clarifications
         ++ ["Are you comparing "
             +:+ String.concat " and " detected_providers
             +:+ " or asking about a specific one?"]
    else clarifications in
  let needs_clarification := (0 <? length clarifications)%nat in
  (needs_clarification, clarifications).

(** [DomainRelevanceChecker.analyze_domain_relevance] *)
Definition analyze_domain_relevance (query : string) : DomainAnalysis :=
  let query_lower := py_lower query in
  let relevance_score := _calculate_relevance_score query_lower in
  let query_type := _classify_query_type query_lower in
  let detected_services := _detect_services query_lower in
  let detected_providers := _detect_providers query_lower in
  let key_concepts := _extract_key_concepts query_lower in
  let confidence := _calculate_confidence query_lower relevance_score in
  let '(clarification_needed, suggested_clarifications) :=
    _assess_clarification_needs query_lower relevance_score
      detected_services detected_providers in
  {| relevance_score := relevance_score;
     confidence := confidence;
     query_type := query_type;
     detected_services := detected_services;
     detected_providers := detected_providers;
     key_concepts := key_concepts;
     clarification_needed := clarification_needed;
     suggested_clarifications := suggested_clarifications |}.

(** [DomainRelevanceChecker.calculate_relevance_score] *)
Definition calculate_relevance_score (query : string) : Q :=
  relevance_score (analyze_domain_relevance query).

(** [DomainRelevanceChecker.classify_query_type] *)
Definition classify_query_type (query : string) : QueryType :=
  query_type (analyze_domain_relevance query).

(** [DomainRelevanceChecker.calculate_confidence] *)
Definition calculate_confidence (query : string) : Q :=
  confidence (analyze_domain_relevance query).

(** The dictionary returned by [validate_query_scope]. *)
Record QueryScope : Type := {
  in_scope : bool;
  scope_confidence : Q;
  scope_query_type : string;
  scope_detected_services : list string;
  scope_detected_providers : list string;
  needs_clarification : bool;
  clarification_questions : list string
}.

(** [DomainRelevanceChecker.validate_query_scope] *)
Definition validate_query_scope (query : string) : QueryScope :=
  let analysis := analyze_domain_relevance query in
  {| in_scope := float_le 0.3 (relevance_score analysis);
     scope_confidence := confidence analysis;
     scope_query_type := query_type_value (query_type analysis);
     scope_detected_services := detected_services analysis;
     scope_detected_providers := detected_providers analysis;
     needs_clarification := clarification_needed analysis;
     clarification_questions := suggested_clarifications analysis |}.

End DomainRelevanceChecker.


(** ** Data model *)

Inductive QueryType : Type :=
| TROUBLESHOOTING
| COMPARISON
| GENERAL_INQUIRY
| CONFIGURATION
| PERFORMANCE.

(** [QueryType.value] *)
Definition query_type_value (t : QueryType) : string :=
  match t with
  | TROUBLESHOOTING => "troubleshooting"
  | COMPARISON => "comparison"
  | GENERAL_INQUIRY => "general_inquiry"
  | CONFIGURATION => "configuration"
  | PERFORMANCE => "performance"
  end.

(** A value found in the [query_type] attribute of a context.  The
    attribute is annotated with the [QueryType] of the orchestrator, but
    nothing checks it at run time, and [_build_query_context] stores what
    the classifier of the domain checker returns, a member of the
    [QueryType] of [domain_checker.py].  The two enumerations are
    different classes: a member of one is never equal to a member of the
    other, whatever their names and values. *)
Inductive QueryTypeMember : Type :=
| OrchestratorQueryType (t : QueryType)
| CheckerQueryType (t : DomainRelevanceChecker.QueryType).

(** [query_type.value] *)
Definition member_value (m : QueryTypeMember) : string :=
  match m with
  | OrchestratorQueryType t => query_type_value t
  | CheckerQueryType t => DomainRelevanceChecker.query_type_value t
  end.

Record QueryContext : Type := {
  user_id : string;
  thread_id : string;
  query : string;
  language : string;
  query_type : QueryTypeMember;
  confidence_score : Q;
  domain_relevance : Q;
  session_history : list string;
  user_preferences : gmap string bool
}.

(** One entry of a tool's result list (a Python dict read with [.get]). *)
Record ResultRecord : Type := {
  rr_content : option string;
  rr_url : option string;
  rr_title : option string;
  rr_service : option string
}.

Record ToolMetadata : Type := {
  md_name : string;
  md_description : string;
  md_category : string;
  md_version : string;
  md_author : string;
  md_created_at : Q;
  md_last_used : option Q;
  md_usage_count : nat;
  md_success_rate : Q;
  md_average_response_time : Q
}.

Record ToolResult : Type := {
  tr_tool_name : string;
  tr_success : bool;
  tr_results : list ResultRecord;
  tr_sources : list string;
  tr_confidence : Q;
  tr_response_time : Q;
  tr_error_message : option string
}.

(** A dict handed back by a tool, as far as its reader looks at it: the
    values under the keys ["success"], ["results"] and ["sources"], each
    of which may be missing. *)
Record ResultDict : Type := {
  rd_success : option bool;
  rd_results : option (list ResultRecord);
  rd_sources : option (list string)
}.

(** What a plain function can return for a tool: a dict, as the [Tool]
    protocol announces, or an instance of the dataclass [ToolResult]. *)
Inductive PlainValue : Type :=
| DictValue (d : ResultDict)
| ToolResultValue (r : ToolResult).

(** [type(v).__name__] *)
Definition type_name (v : PlainValue) : string :=
  match v with
  | DictValue _ => "dict"
  | ToolResultValue _ => "ToolResult"
  end.

(** The [execute] attribute of a tool object.  [BaseTool] and the [Tool]
    protocol declare it [async def], and so do the tools of this
    repository: calling it only creates a coroutine, and the body runs
    when the coroutine is awaited.  The registry takes any object, so
    [execute] may also be a plain function, which runs, and blocks, in
    the call itself. *)
Inductive ExecuteMethod : Type :=
| AsyncDef (body : string -> QueryContext -> Outcome ToolResult)
| Def (body : string -> QueryContext -> Outcome PlainValue).

(** A tool object: its attributes and its two methods. *)
Record BaseTool : Type := {
  name : string;
  description : string;
  category : string;
  metadata : ToolMetadata;
  validate_input : string -> QueryContext -> bool;
  execute_method : ExecuteMethod
}.

(** [await tool.execute(query, context)], the way the registry runs a
    tool: the body of a coroutine function runs to its end; what a plain
    function returns is not awaitable, and [await] raises [TypeError]. *)
Definition execute (t : BaseTool) (q : string) (ctx : QueryContext)
    : Outcome ToolResult :=
  match execute_method t with
  | AsyncDef body => body q ctx
  | Def body =>
      match body q ctx with
      | Returned v =>
          Raised ("object " +:+ type_name v
                  +:+ " can't be used in 'await' expression")
      | Raised e => Raised e
      end
  end.

(** What [tool.execute(query, context)] gives to a caller that does not
    await it, as a worker of the thread pool: a coroutine, or what the
    plain function returns. *)
Inductive CallResult : Type :=
| Coroutine
| Value (v : PlainValue).

Definition call_execute (t : BaseTool) (q : string) (ctx : QueryContext)
    : Outcome CallResult :=
  match execute_method t with
  | AsyncDef _ => Returned Coroutine
  | Def body =>
      match body q ctx with
      | Returned v => Returned (Value v)
      | Raised e => Raised e
      end
  end.

(** [BaseTool.__init__] builds the metadata from the three attributes. *)
Definition initial_metadata (n d c : string) (now : Q) : ToolMetadata :=
  {| md_name := n; md_description := d; md_category := c;
     md_version := "1.0.0"; md_author := "System"; md_created_at := now;
     md_last_used := None; md_usage_count := 0;
     md_success_rate := 0; md_average_response_time := 0 |}.

Record ErrorPattern : Type := {
  ep_error : string;
  ep_timestamp : Q
}.

(** One value of [ToolRegistry.tool_performance]. *)
Record Performance : Type := {
  total_calls : nat;
  successful_calls : nat;
  failed_calls : nat;
  average_response_time : Q;
  last_used : option Q;
  error_patterns : list ErrorPattern
}.

Record ToolRegistry : Type := {
  tools : odict BaseTool;
  tool_categories : gmap string (list string);
  tool_performance : gmap string Performance
}.

(** [ToolRegistry.__init__] *)
Definition empty_registry : ToolRegistry :=
  {| tools := []; tool_categories := ∅; tool_performance := ∅ |}.

Definition zero_performance : Performance :=
  {| total_calls := 0; successful_calls := 0; failed_calls := 0;
     average_response_time := 0; last_used := None; error_patterns := [] |}.

(** ** tool_registry.py *)

Definition set_metadata (t : BaseTool) (m : ToolMetadata) : BaseTool :=
  {| name := name t; description := description t; category := category t;
     metadata := m; validate_input := validate_input t;
     execute_method := execute_method t |}.

(** [BaseTool.update_metrics] *)
Definition update_metrics (success : bool) (response_time now : Q)
    (t : BaseTool) : BaseTool :=
  let m := metadata t in
  let usage := S (md_usage_count m) in
  let rate :=
    if Nat.eqb usage 1 then (if success then 1 else 0)%Q
    else
      let current_successes :=
        (md_success_rate m * float_of_nat (usage - 1))%Q in
      let current_successes :=
        if success then (current_successes + 1)%Q else current_successes in
      (current_successes / float_of_nat usage)%Q in
  let avg :=
    if Nat.eqb usage 1 then response_time
    else
      let total_time :=
        (md_average_response_time m * float_of_nat (usage - 1))%Q in
      ((total_time + response_time) / float_of_nat usage)%Q in
  set_metadata t
    {| md_name := md_name m; md_description := md_description m;
       md_category := md_category m; md_version := md_version m;
       md_author := md_author m; md_created_at := md_created_at m;
       md_last_used := Some now; md_usage_count := usage;
       md_success_rate := rate; md_average_response_time := avg |}.

(** [ToolRegistry.register_tool] *)
Definition register_tool (tool : BaseTool) (reg : ToolRegistry)
    : ToolRegistry * bool :=
  let tools' := od_set (name tool) tool (tools reg) in
  let cats1 :=
    match tool_categories reg !! category tool with
    | None => <[category tool := []]> (tool_categories reg)
    | Some _ => tool_categories reg
    end in
  let bucket := default [] (cats1 !! category tool) in
  let cats2 :=
    if list_mem (name tool) bucket then cats1
    else <[category tool := bucket ++ [name tool]]> cats1 in
  ({| tools := tools'; tool_categories := cats2;
      tool_performance :=
        <[name tool := zero_performance]> (tool_performance reg) |},
   true).

(** [ToolRegistry.unregister_tool] *)
Definition unregister_tool (tool_name : string) (reg : ToolRegistry)
    : ToolRegistry * bool :=
  match od_get tool_name (tools reg) with
  | None => (reg, false)
  | Some tool =>
      let tools' := od_del tool_name (tools reg) in
      let cats' :=
        match tool_categories reg !! category tool with
        | Some bucket =>
            let bucket' :=
              if list_mem tool_name bucket
              then list_remove_first tool_name bucket else bucket in
            match bucket' with
            | [] => delete (category tool) (tool_categories reg)
            | _ :: _ => <[category tool := bucket']> (tool_categories reg)
            end
        | None => tool_categories reg
        end in
      ({| tools := tools'; tool_categories := cats';
          tool_performance := delete tool_name (tool_performance reg) |},
       true)
  end.

(** [ToolRegistry.get_tool] *)
Definition get_tool (tool_name : string) (reg : ToolRegistry)
    : option BaseTool :=
  od_get tool_name (tools reg).

(** [ToolRegistry.get_tools_by_category] *)
Definition get_tools_by_category (cat : string) (reg : ToolRegistry)
    : list BaseTool :=
  let tool_names := default [] (tool_categories reg !! cat) in
  omap (fun n => od_get n (tools reg)) tool_names.

(** [ToolRegistry.list_all_tools] *)
Definition list_all_tools (reg : ToolRegistry) : list string :=
  od_keys (tools reg).

(** *** Selection strategies *)

(** The score computed inside [_select_by_performance], in the double
    arithmetic of the code. *)
Definition performance_score_float (t : BaseTool) : float :=
  let success_rate := float_of_Q (md_success_rate (metadata t)) in
  let response_time :=
    float_of_Q (md_average_response_time (metadata t)) in
  let usage_count := Z.of_nat (md_usage_count (metadata t)) in
  let time_score :=
    if (0 <? response_time)%float then (1 / (1 + response_time))%float
    else 1%float in
  let usage_weight := float_min 1 (float_of_Z usage_count / 10) in
  (success_rate * 0.5 + time_score * 0.3 + usage_weight * 0.2)%float.

(** The value the sort compares. *)
Definition performance_score (t : BaseTool) : Q :=
  Q_of_float (performance_score_float t).

(** [ToolRegistry._select_by_performance] *)
Definition _select_by_performance (reg : ToolRegistry) (q : string)
    (ctx : QueryContext) (max_tools : Z) : list string :=
  let tool_scores :=
    map (fun '(tool_name, tool) => (tool_name, performance_score tool))
      (List.filter (fun '(_, tool) => validate_input tool q ctx)
         (tools reg)) in
  map fst (py_slice_to max_tools (sort_desc snd tool_scores)).

(** The fixed table of [_select_by_category]. *)
Definition category_mapping (query_type_name : string)
    : option (list string) :=
  if String.eqb query_type_name "troubleshooting"
  then Some ["search"; "analysis"; "diagnostic"]
  else if String.eqb query_type_name "comparison"
  then Some ["search"; "analysis"; "comparison"]
  else if String.eqb query_type_name "configuration"
  then Some ["search"; "documentation"; "tutorial"]
  else if String.eqb query_type_name "performance"
  then Some ["search"; "analysis"; "monitoring"]
  else if String.eqb query_type_name "general_inquiry"
  then Some ["search"; "general"]
  else None.

(** The inner [for tool in category_tools] loop, with its [break]. *)
Fixpoint category_scan (q : string) (ctx : QueryContext) (max_tools : Z)
    (category_tools : list BaseTool) (selected_tools : list string)
    : list string :=
  match category_tools with
  | [] => selected_tools
  | tool :: rest =>
      if (max_tools <=? Z.of_nat (length selected_tools))%Z
      then selected_tools
      else category_scan q ctx max_tools rest
             (if validate_input tool q ctx
              then selected_tools ++ [name tool] else selected_tools)
  end.

(** [ToolRegistry._select_by_category] *)
Definition _select_by_category (reg : ToolRegistry) (q : string)
    (ctx : QueryContext) (max_tools : Z) : list string :=
  let relevant_categories :=
    default ["search"; "general"]
      (category_mapping (member_value (query_type ctx))) in
  let selected_tools :=
    fold_left
      (fun selected cat =>
         category_scan q ctx max_tools (get_tools_by_category cat reg)
           selected)
      relevant_categories [] in
  py_slice_to max_tools selected_tools.

(** [set(words)] as a duplicate-free list. *)
Definition word_set (words : list string) : list string :=
  remove_dups words.

(** The relevance computed inside [_select_by_relevance]. *)
Definition relevance_score (query_lower : string) (t : BaseTool) : Q :=
  let description_lower := py_lower (description t) in
  let query_words := word_set (py_split query_lower) in
  let description_words := word_set (py_split description_lower) in
  let common_words :=
    List.filter (fun w => list_mem w description_words) query_words in
  match query_words with
  | [] => 0%Q
  | _ :: _ =>
      (float_of_nat (length common_words)
       / float_of_nat (length query_words))%Q
  end.

(** [ToolRegistry._select_by_relevance] *)
Definition _select_by_relevance (reg : ToolRegistry) (q : string)
    (ctx : QueryContext) (max_tools : Z) : list string :=
  let query_lower := py_lower q in
  let relevance_scores :=
    map (fun '(tool_name, tool) =>
           (tool_name, relevance_score query_lower tool))
      (List.filter (fun '(_, tool) => validate_input tool q ctx)
         (tools reg)) in
  map fst (py_slice_to max_tools (sort_desc snd relevance_scores)).

(** One of the three [for i, tool_name in enumerate(...)] loops of
    [_select_hybrid], started at index [i]. *)
Fixpoint add_positional (weight : float) (max_tools : Z) (i : nat)
    (names : list string) (tool_scores : odict float) : odict float :=
  match names with
  | [] => tool_scores
  | tool_name :: rest =>
      let score :=
        (weight * float_of_Z (max_tools - Z.of_nat i)
         / float_of_Z max_tools)%float in
      add_positional weight max_tools (S i) rest
        (od_set tool_name
           (default 0%float (od_get tool_name tool_scores) + score)%float
           tool_scores)
  end.

(** [ToolRegistry._select_hybrid] *)
Definition _select_hybrid (reg : ToolRegistry) (q : string)
    (ctx : QueryContext) (max_tools : Z) : list string :=
  let performance_tools := _select_by_performance reg q ctx max_tools in
  let category_tools := _select_by_category reg q ctx max_tools in
  let relevance_tools := _select_by_relevance reg q ctx max_tools in
  let tool_scores :=
    add_positional 0.4%float max_tools 0 performance_tools [] in
  let tool_scores :=
    add_positional 0.4%float max_tools 0 category_tools tool_scores in
  let tool_scores :=
    add_positional 0.2%float max_tools 0 relevance_tools tool_scores in
  map fst
    (py_slice_to max_tools
       (sort_desc (fun entry => Q_of_float (snd entry)) tool_scores)).

(** [ToolRegistry.select_tools]: an unknown strategy name falls back to
    the hybrid strategy. *)
Definition select_tools (reg : ToolRegistry) (q : string)
    (ctx : QueryContext) (strategy : string) (max_tools : Z)
    : list string :=
  if String.eqb strategy "performance"
  then _select_by_performance reg q ctx max_tools
  else if String.eqb strategy "category"
  then _select_by_category reg q ctx max_tools
  else if String.eqb strategy "relevance"
  then _select_by_relevance reg q ctx max_tools
  else _select_hybrid reg q ctx max_tools.

(** *** Execution and bookkeeping *)

(** Truthiness of an optional string: [None] and [""] are falsy. *)
Definition truthy (s : option string) : bool :=
  match s with
  | Some (String _ _) => true
  | _ => false
  end.

(** [ToolRegistry._update_performance_tracking] *)
Definition _update_performance_tracking (tool_name : string)
    (success : bool) (response_time now : Q)
    (error_message : option string) (reg : ToolRegistry) : ToolRegistry :=
  match tool_performance reg !! tool_name with
  | None => reg
  | Some perf =>
      let total := S (total_calls perf) in
      let errors :=
        if success then error_patterns perf
        else if truthy error_message then
          py_last 10
            (error_patterns perf
             ++ [{| ep_error := default "" error_message;
                    ep_timestamp := now |}])
        else error_patterns perf in
      let avg :=
        if Nat.eqb total 1 then response_time
        else
          let total_time :=
            (average_response_time perf * float_of_nat (total - 1))%Q in
          ((total_time + response_time) / float_of_nat total)%Q in
      {| tools := tools reg;
         tool_categories := tool_categories reg;
         tool_performance :=
           <[tool_name :=
               {| total_calls := total;
                  successful_calls :=
                    if success then S (successful_calls perf)
                    else successful_calls perf;
                  failed_calls :=
                    if success then failed_calls perf
                    else S (failed_calls perf);
                  average_response_time := avg;
                  last_used := Some now;
                  error_patterns := errors |}]>
             (tool_performance reg) |}
  end.

(** [tool.update_metrics(...)] on the tool object stored under
    [tool_name]. *)
Definition update_tool_metrics (tool_name : string) (tool : BaseTool)
    (success : bool) (response_time now : Q) (reg : ToolRegistry)
    : ToolRegistry :=
  {| tools :=
       od_set tool_name (update_metrics success response_time now tool)
         (tools reg);
     tool_categories := tool_categories reg;
     tool_performance := tool_performance reg |}.

Definition failed_result (tool_name : string) (response_time : Q)
    (message : string) : ToolResult :=
  {| tr_tool_name := tool_name; tr_success := false; tr_results := [];
     tr_sources := []; tr_confidence := 0; tr_response_time := response_time;
     tr_error_message := Some message |}.

(** [ToolRegistry.execute_tool]; [start_time] and [end_time] are the
    clock readings before the call and when it has returned or raised. *)
Definition execute_tool (tool_name q : string) (ctx : QueryContext)
    (start_time end_time : Q) (reg : ToolRegistry)
    : ToolRegistry * ToolResult :=
  match od_get tool_name (tools reg) with
  | None =>
      (reg, failed_result tool_name 0 ("Tool " +:+ tool_name +:+ " not found"))
  | Some tool =>
      if negb (validate_input tool q ctx) then
        (reg, failed_result tool_name 0 "Input validation failed")
      else
        let response_time := (end_time - start_time)%Q in
        match execute tool q ctx with
        | Returned result =>
            let reg1 :=
              update_tool_metrics tool_name tool (tr_success result)
                response_time end_time reg in
            (_update_performance_tracking tool_name (tr_success result)
               response_time end_time None reg1,
             result)
        | Raised e =>
            let reg1 :=
              update_tool_metrics tool_name tool false response_time
                end_time reg in
            (_update_performance_tracking tool_name false response_time
               end_time (Some e) reg1,
             failed_result tool_name response_time e)
        end
  end.

(** ** agent_orchestrator.py *)

(** A value of the executor's result dict: what [future.result()] gave,
    that is, what the un-awaited call of [tool.execute] returned, or the
    placeholder [{"error": str(e), "success": False}] for a call that
    raised. *)
Inductive ToolOutcome : Type :=
| ToolReturned (result : CallResult)
| ToolError (error : string).

(** The dict behind a value of the result map, if the value is a dict. *)
Definition outcome_dict (o : ToolOutcome) : option ResultDict :=
  match o with
  | ToolReturned (Value (DictValue d)) => Some d
  | ToolReturned _ => None
  | ToolError _ =>
      Some {| rd_success := Some false; rd_results := None;
              rd_sources := None |}
  end.

(** [type(result).__name__] for a value of the result map. *)
Definition outcome_type (o : ToolOutcome) : string :=
  match o with
  | ToolReturned Coroutine => "coroutine"
  | ToolReturned (Value v) => type_name v
  | ToolError _ => "dict"
  end.

(** [str(e)] of the [AttributeError] raised by [result.get] on a value
    that is not a dict. *)
Definition no_get_attribute (o : ToolOutcome) : string :=
  "'" +:+ outcome_type o +:+ "' object has no attribute 'get'".

(** The truth value of [result.get("success", False)]. *)
Definition outcome_success (o : ToolOutcome) : Outcome bool :=
  match outcome_dict o with
  | Some d => Returned (default false (rd_success d))
  | None => Raised (no_get_attribute o)
  end.

(** [result.get("results", [])], for a value that is a dict. *)
Definition outcome_results (o : ToolOutcome) : list ResultRecord :=
  match outcome_dict o with
  | Some d => default [] (rd_results d)
  | None => []
  end.

(** [result.get("sources", [])], for a value that is a dict. *)
Definition outcome_sources (o : ToolOutcome) : list string :=
  match outcome_dict o with
  | Some d => default [] (rd_sources d)
  | None => []
  end.

Record AgentResponse : Type := {
  content : string;
  confidence : Q;
  sources : list string;
  tool_results : odict ToolOutcome;
  processing_time : Q;
  response_language : string;
  requires_clarification : bool;
  clarification_questions : option (list string)
}.

(** A unit of work handed to the thread pool: the tool it belongs to, the
    time (seconds after submission of the batch) at which the call
    finishes, and what the call produces. *)
Record Future : Type := {
  fut_tool : string;
  fut_done_at : Q;
  fut_result : Outcome CallResult
}.

(** The line feed character of the response templates. *)
Definition LF : string := String (ascii_of_nat 10) EmptyString.

(** Truthiness of [result.get(field)]. *)
Definition field_text (f : option string) : option string :=
  if truthy f then f else None.

(** The state of the [while] loop of [_iterative_processing_loop]: its
    two local variables and the context object it was handed. *)
Record LoopState : Type := {
  iteration : nat;
  best_response : option AgentResponse;
  context : QueryContext
}.

(** How an iteration, or the whole [while] loop, is left. *)
Inductive LoopExit : Type :=
| Accepted (response : AgentResponse)
| Exhausted
| Faulted (description : string).

(** [context.query = refined_query]: attribute assignment on the object. *)
Definition set_query (ctx : QueryContext) (q : string) : QueryContext :=
  {| user_id := user_id ctx; thread_id := thread_id ctx; query := q;
     language := language ctx; query_type := query_type ctx;
     confidence_score := confidence_score ctx;
     domain_relevance := domain_relevance ctx;
     session_history := session_history ctx;
     user_preferences := user_preferences ctx |}.

Section Orchestrator.

(** Configuration set in [AgentOrchestrator.__init__]. *)
Variable tool_registry : ToolRegistry.
Variable task_timeout : Q.
Variable confidence_threshold : Q.
Variable max_iterations : nat.

(** External collaborators. The quality assessor may be stateful, so
    its answers are indexed by the iteration in which it is called. *)
Variable assess_results : nat -> string -> odict ToolOutcome -> Q.
Variable calculate_confidence :
  nat -> string -> string -> list ResultRecord -> Q.
Variable identify_missing_information :
  nat -> string -> odict ToolOutcome -> list string.
Variable translate_from_english : string -> string -> string.

(** Timing of the environment: when the call submitted for a tool in a
    given iteration finishes (queueing in the pool included). *)
Variable completion_time : nat -> string -> Q.

(** [AgentOrchestrator._select_tools] *)
Definition _select_tools (ctx : QueryContext) : list string :=
  let tool_selection := ["vector_search"] in
  let tool_selection :=
    if default true (user_preferences ctx !! "web_search_enabled")
    then tool_selection ++ ["web_search"] else tool_selection in
  let tool_selection := tool_selection ++ ["rerank"] in
  match query_type ctx with
  | OrchestratorQueryType TROUBLESHOOTING =>
      tool_selection ++ ["error_analyzer"; "solution_finder"]
  | OrchestratorQueryType COMPARISON =>
      tool_selection ++ ["service_comparator"; "feature_analyzer"]
  | OrchestratorQueryType PERFORMANCE =>
      tool_selection ++ ["performance_analyzer"; "optimization_advisor"]
  | _ => tool_selection
  end.

(** The submission loop: only names the registry resolves get a
    future.  The worker calls [tool.execute(context.query, context)] and
    does not await what it gets. *)
Definition submit_all (it : nat) (ctx : QueryContext)
    (tool_names : list string) : list Future :=
  omap
    (fun tool_name =>
       match get_tool tool_name tool_registry with
       | Some tool =>
           Some {| fut_tool := tool_name;
                   fut_done_at := completion_time it tool_name;
                   fut_result := call_execute tool (query ctx) ctx |}
       | None => None
       end)
    tool_names.

Definition done_in_time (f : Future) : bool :=
  Qle_bool (fut_done_at f) task_timeout.

(** What the body of [for future in as_completed(...)] stores for a
    finished call. *)
Definition recorded (o : Outcome CallResult) : ToolOutcome :=
  match o with
  | Returned result => ToolReturned result
  | Raised e => ToolError e
  end.

(** The body of [for future in as_completed(...)]. *)
Definition collect (results : odict ToolOutcome) (f : Future)
    : odict ToolOutcome :=
  od_set (fut_tool f) (recorded (fut_result f)) results.

(** [AgentOrchestrator._execute_tools_parallel].

    [as_completed(fs, timeout)] yields the futures that finish within
    the timeout in the order they finish and then, if any future is
    still pending, raises [TimeoutError] from the iterator, outside the
    [try] of the loop body.  Leaving the [with] block joins the pool:
    control comes back only when every submitted call has finished.
    The first component is that moment. *)
Definition _execute_tools_parallel (it : nat) (ctx : QueryContext)
    (tool_names : list string) : Q * Outcome (odict ToolOutcome) :=
  let futures := submit_all it ctx tool_names in
  let finished :=
    sort_desc (fun f => (- fut_done_at f)%Q)
      (List.filter done_in_time futures) in
  let results := fold_left collect finished [] in
  let pending :=
    List.filter (fun f => negb (done_in_time f)) futures in
  let joined :=
    fold_left (fun t f => Qmax t (fut_done_at f)) futures 0%Q in
  (joined,
   match pending with
   | [] => Returned results
   | _ :: _ =>
       Raised (pretty (length pending) +:+ " (of "
               +:+ pretty (length futures) +:+ ") futures unfinished")
   end).

(** [AgentOrchestrator._generate_no_results_response] *)
Definition _generate_no_results_response (ctx : QueryContext) : string :=
  "I couldn't find specific information about your query in my knowledge base. "
  +:+ "This might be a very specific or new issue. Could you provide more details "
  +:+ "or try rephrasing your question?".

(** The numbered lines of the troubleshooting and configuration
    templates: [enumerate(results[:5], 1)]. *)
Fixpoint numbered_lines (i : nat) (results : list ResultRecord) : string :=
  match results with
  | [] => ""
  | r :: rest =>
      match field_text (rr_content r) with
      | Some c => pretty i +:+ ". " +:+ c +:+ LF
      | None => ""
      end +:+ numbered_lines (S i) rest
  end.

(** [AgentOrchestrator._generate_troubleshooting_response] *)
Definition _generate_troubleshooting_response (ctx : QueryContext)
    (results : list ResultRecord) : string :=
  "# Cloud Services Troubleshooting Guide" +:+ LF
  +:+ "Based on your query: '" +:+ query ctx +:+ "'" +:+ LF +:+ LF
  +:+ "## Troubleshooting Steps:" +:+ LF
  +:+ numbered_lines 1 (firstn 5 results)
  +:+ LF +:+ "## Additional Resources:" +:+ LF
  +:+ String.concat ""
       (map (fun r =>
               match field_text (rr_url r) with
               | Some u =>
                   "- [" +:+ default "Resource" (rr_title r) +:+ "](" +:+ u
                   +:+ ")" +:+ LF
               | None => ""
               end) results).

(** [AgentOrchestrator._generate_comparison_response] *)
Definition _generate_comparison_response (ctx : QueryContext)
    (results : list ResultRecord) : string :=
  "# Cloud Services Comparison" +:+ LF
  +:+ "Comparing services for: '" +:+ query ctx +:+ "'" +:+ LF +:+ LF
  +:+ "## Service Comparison:" +:+ LF
  +:+ String.concat ""
       (map (fun r =>
               match field_text (rr_content r) with
               | Some c =>
                   "### " +:+ default "Service" (rr_service r) +:+ LF
                   +:+ c +:+ LF +:+ LF
               | None => ""
               end) (firstn 3 results)).

(** [AgentOrchestrator._generate_configuration_response] *)
Definition _generate_configuration_response (ctx : QueryContext)
    (results : list ResultRecord) : string :=
  "# Cloud Service Configuration Guide" +:+ LF
  +:+ "Configuration steps for: '" +:+ query ctx +:+ "'" +:+ LF +:+ LF
  +:+ "## Configuration Steps:" +:+ LF
  +:+ numbered_lines 1 (firstn 5 results)
  +:+ LF +:+ "## Best Practices:" +:+ LF
  +:+ "- Always backup your configuration before making changes" +:+ LF
  +:+ "- Test changes in a development environment first" +:+ LF
  +:+ "- Monitor performance after configuration changes" +:+ LF.

(** [AgentOrchestrator._generate_general_response] *)
Definition _generate_general_response (ctx : QueryContext)
    (results : list ResultRecord) : string :=
  "# Cloud Services Information" +:+ LF
  +:+ "Information about: '" +:+ query ctx +:+ "'" +:+ LF +:+ LF
  +:+ String.concat ""
       (map (fun r =>
               match field_text (rr_content r) with
               | Some c => "- " +:+ c +:+ LF
               | None => ""
               end) (firstn 5 results)).

(** [AgentOrchestrator._generate_response_content] *)
Definition _generate_response_content (ctx : QueryContext)
    (results : list ResultRecord) : string :=
  match results with
  | [] => _generate_no_results_response ctx
  | _ :: _ =>
      match query_type ctx with
      | OrchestratorQueryType TROUBLESHOOTING =>
          _generate_troubleshooting_response ctx results
      | OrchestratorQueryType COMPARISON =>
          _generate_comparison_response ctx results
      | OrchestratorQueryType CONFIGURATION =>
          _generate_configuration_response ctx results
      | _ => _generate_general_response ctx results
      end
  end.

(** The first loop of [_synthesize_response]: [result.get] is called on
    every value of the result map in turn, and raises on the first one
    that is not a dict. *)
Fixpoint combine_results (tool_results : odict ToolOutcome)
    (combined_results : list ResultRecord) (sources : list string)
    : Outcome (list ResultRecord * list string) :=
  match tool_results with
  | [] => Returned (combined_results, sources)
  | (_, result) :: rest =>
      match outcome_success result with
      | Raised e => Raised e
      | Returned true =>
          combine_results rest
            (combined_results ++ outcome_results result)
            (sources ++ outcome_sources result)
      | Returned false => combine_results rest combined_results sources
      end
  end.

(** [tool_results["rerank"]["results"]], reached only for a dict; a
    missing key raises [KeyError], whose [str] is the quoted key. *)
Definition reranked_results (o : ToolOutcome)
    : Outcome (list ResultRecord) :=
  match outcome_dict o with
  | Some d =>
      match rd_results d with
      | Some results => Returned results
      | None => Raised "'results'"
      end
  | None => Raised (no_get_attribute o)
  end.

(** [AgentOrchestrator._synthesize_response]; [list(set(sources))] is
    modelled by dropping duplicates. *)
Definition _synthesize_response (it : nat) (ctx : QueryContext)
    (results : odict ToolOutcome) : Outcome AgentResponse :=
  match combine_results results [] [] with
  | Raised e => Raised e
  | Returned (combined_results, all_sources) =>
      let reranked :=
        match od_get "rerank" results with
        | Some o =>
            match outcome_success o with
            | Raised e => Raised e
            | Returned true => reranked_results o
            | Returned false => Returned combined_results
            end
        | None => Returned combined_results
        end in
      match reranked with
      | Raised e => Raised e
      | Returned combined_results =>
          let response_content :=
            _generate_response_content ctx combined_results in
          let conf :=
            calculate_confidence it (query ctx) response_content
              combined_results in
          let response_content :=
            if String.eqb (language ctx) "en" then response_content
            else translate_from_english response_content (language ctx) in
          Returned
            {| content := response_content; confidence := conf;
               sources := remove_dups all_sources; tool_results := results;
               processing_time := 0; response_language := language ctx;
               requires_clarification := false;
               clarification_questions := None |}
      end
  end.

(** [AgentOrchestrator._refine_query] *)
Definition _refine_query (it : nat) (ctx : QueryContext)
    (results : odict ToolOutcome) : string :=
  let missing_aspects :=
    identify_missing_information it (query ctx) results in
  query ctx +:+ " " +:+ String.concat " " missing_aspects.

(** [AgentOrchestrator._create_fallback_response] *)
Definition _create_fallback_response (ctx : QueryContext)
    : AgentResponse :=
  let text :=
    "I'm having difficulty providing a comprehensive answer to your query. "
    +:+ "Could you please provide more specific details about your cloud service issue?" in
  let text :=
    if String.eqb (language ctx) "en" then text
    else translate_from_english text (language ctx) in
  {| content := text; confidence := 0.3; sources := [];
     tool_results := []; processing_time := 0;
     response_language := language ctx;
     requires_clarification := true; clarification_questions := None |}.

(** [AgentOrchestrator._create_error_response] *)
Definition _create_error_response (error_message lang : string)
    : AgentResponse :=
  let text :=
    "I apologize, but I encountered an error while processing your request: "
    +:+ error_message in
  let text :=
    if String.eqb lang "en" then text
    else translate_from_english text lang in
  {| content := text; confidence := 0; sources := [];
     tool_results := []; processing_time := 0;
     response_language := lang;
     requires_clarification := false; clarification_questions := None |}.

(** One pass through the body of the [while] loop.  [None] means the
    body ran to its end and the loop condition is tested again. *)
Definition loop_body (st : LoopState) : LoopState * option LoopExit :=
  let it := S (iteration st) in
  let ctx := context st in
  let selected_tools := _select_tools ctx in
  match snd (_execute_tools_parallel it ctx selected_tools) with
  | Raised e =>
      ({| iteration := it; best_response := best_response st;
          context := ctx |},
       Some (Faulted e))
  | Returned results =>
      let quality_score := assess_results it (query ctx) results in
      match _synthesize_response it ctx results with
      | Raised e =>
          ({| iteration := it; best_response := best_response st;
              context := ctx |},
           Some (Faulted e))
      | Returned response =>
          if Qle_bool confidence_threshold quality_score then
            ({| iteration := it; best_response := best_response st;
                context := ctx |},
             Some (Accepted response))
          else
            let best :=
              match best_response st with
              | None => Some response
              | Some b =>
                  if Qlt_le_dec (confidence b) quality_score
                  then Some response else Some b
              end in
            ({| iteration := it; best_response := best;
                context := set_query ctx (_refine_query it ctx results) |},
             None)
      end
  end.

(** [while iteration < self.max_iterations], by recursion on the number
    of iterations still allowed. *)
Fixpoint while_loop (budget : nat) (st : LoopState)
    : LoopState * LoopExit :=
  match budget with
  | O => (st, Exhausted)
  | S budget' =>
      match loop_body st with
      | (st', Some exit) => (st', exit)
      | (st', None) => while_loop budget' st'
      end
  end.

Definition initial_state (ctx : QueryContext) : LoopState :=
  {| iteration := 0; best_response := None; context := ctx |}.

(** [AgentOrchestrator._iterative_processing_loop]: the state in which
    the loop is left (the context object the caller keeps a reference
    to is part of it) and what the call produces. *)
Definition _iterative_processing_loop (ctx : QueryContext)
    : LoopState * Outcome AgentResponse :=
  let '(st, exit) := while_loop max_iterations (initial_state ctx) in
  (st,
   match exit with
   | Accepted response => Returned response
   | Exhausted =>
       Returned
         (match best_response st with
          | Some b => b
          | None => _create_fallback_response (context st)
          end)
   | Faulted e => Raised e
   end).

(** *** The caller of the loop: [process_query] *)

Variable domain_relevance_threshold : Q.

(** Further collaborators, all taken as total functions.  The classifier
    is the one of the domain checker and answers with a member of the
    checker's enumeration. *)
Variable detect_language : string -> string.
Variable translate_to_english : string -> string -> string.
Variable classify_query_type : string -> DomainRelevanceChecker.QueryType.
Variable calculate_relevance_score : string -> Q.
Variable calculate_query_confidence : string -> Q.
Variable get_session_history : string -> string -> list string.
Variable get_user_preferences : string -> gmap string bool.

(** [AgentOrchestrator._build_query_context] *)
Definition _build_query_context (uid tid q lang : string)
    : QueryContext :=
  let english_query :=
    if String.eqb lang "en" then q else translate_to_english q lang in
  {| user_id := uid; thread_id := tid; query := english_query;
     language := lang;
     query_type := CheckerQueryType (classify_query_type english_query);
     confidence_score := calculate_query_confidence english_query;
     domain_relevance := calculate_relevance_score english_query;
     session_history := get_session_history uid tid;
     user_preferences := get_user_preferences uid |}.

(** [AgentOrchestrator._handle_irrelevant_query] *)
Definition _handle_irrelevant_query (ctx : QueryContext)
    : AgentResponse :=
  let text :=
    "I specialize in AWS and Azure cloud services troubleshooting and advisory. "
    +:+ "Your query doesn't seem to be related to cloud services. "
    +:+ "Could you please clarify your question?" in
  let text :=
    if String.eqb (language ctx) "en" then text
    else translate_from_english text (language ctx) in
  {| content := text; confidence := 0.5; sources := [];
     tool_results := []; processing_time := 0;
     response_language := language ctx;
     requires_clarification := true;
     clarification_questions :=
       Some ["Are you asking about AWS or Azure cloud services?";
             "Is this related to cloud infrastructure or configuration?";
             "Could you specify which cloud service you're having issues with?"] |}.

Definition set_content (r : AgentResponse) (c : string) : AgentResponse :=
  {| content := c; confidence := confidence r; sources := sources r;
     tool_results := tool_results r;
     processing_time := processing_time r;
     response_language := response_language r;
     requires_clarification := requires_clarification r;
     clarification_questions := clarification_questions r |}.

Definition set_processing_time (r : AgentResponse) (t : Q)
    : AgentResponse :=
  {| content := content r; confidence := confidence r;
     sources := sources r; tool_results := tool_results r;
     processing_time := t;
     response_language := response_language r;
     requires_clarification := requires_clarification r;
     clarification_questions := clarification_questions r |}.

(** [AgentOrchestrator._finalize_response] *)
Definition _finalize_response (response : AgentResponse)
    (ctx : QueryContext) : AgentResponse :=
  let response :=
    if default false (user_preferences ctx !! "detailed_responses")
    then set_content response
           (content response +:+ LF +:+ LF
            +:+ "*Detailed explanation provided based on your preferences.*")
    else response in
  if Qlt_le_dec (confidence response) 0.7
  then set_content response
         (content response +:+ LF +:+ LF
          +:+ "*Note: This response has moderate confidence. Please verify the information.*")
  else response.

(** The record [_update_memory] hands to the memory manager. *)
Record Interaction : Type := {
  int_user_id : string;
  int_thread_id : string;
  int_query : string;
  int_response : string;
  int_confidence : Q;
  int_processing_time : Q
}.

(** [AgentOrchestrator._update_memory]: the stored interaction. *)
Definition _update_memory (ctx : QueryContext) (response : AgentResponse)
    : Interaction :=
  {| int_user_id := user_id ctx; int_thread_id := thread_id ctx;
     int_query := query ctx; int_response := content response;
     int_confidence := confidence response;
     int_processing_time := processing_time response |}.

(** [AgentOrchestrator.process_query]: the response handed to the
    caller and, when step 6 is reached, the interaction written to the
    memory store.  [elapsed] is the duration measured by the clock. *)
Definition process_query (uid tid q lang : string) (elapsed : Q)
    : AgentResponse * option Interaction :=
  let detected_language := detect_language q in
  let lang := if String.eqb lang "auto" then detected_language else lang in
  let query_context := _build_query_context uid tid q lang in
  if Qlt_le_dec (domain_relevance query_context) domain_relevance_threshold
  then (_handle_irrelevant_query query_context, None)
  else
    match _iterative_processing_loop query_context with
    | (st, Returned response) =>
        let query_context := context st in
        let final_response := _finalize_response response query_context in
        let stored := _update_memory query_context final_response in
        (set_processing_time final_response elapsed, Some stored)
    | (_, Raised e) => (_create_error_response e lang, None)
    end.

End Orchestrator.


(** ** language_processor.py: the translation cache

    The texts handed to the translator are in any language, so here a
    Python [str] is the list of its code points, and [text[:100]] is its
    first 100 characters.  The cache is the dictionary
    [translation_cache], shared by both directions; it is threaded
    through the calls.  The translations done inside the [try] blocks
    are collaborators that may raise. *)

(** A Python [str] over all of Unicode. *)
Definition Text : Type := list N.

(** The text of a string literal. *)
Definition text_of (s : string) : Text :=
  map N_of_ascii (list_ascii_of_string s).

Module LanguageProcessor.

Section Translation.

(** [_translate_sinhala_to_english], [_translate_english_to_sinhala] and
    [translator.translate(text, src=..., dest=...).text] *)
Variable _translate_sinhala_to_english : Text -> Outcome Text.
Variable _translate_english_to_sinhala : Text -> Outcome Text.
Variable translator_translate : Text -> Text -> Text -> Outcome Text.

(** [LanguageProcessor.translate_to_english] *)
Definition translate_to_english (translation_cache : gmap Text Text)
    (text source_language : Text) : gmap Text Text * Text :=
  if bool_decide (source_language = text_of "en")
  then (translation_cache, text)
  else
    let cache_key := source_language ++ text_of ":" ++ firstn 100 text in
    match translation_cache !! cache_key with
    | Some cached => (translation_cache, cached)
    | None =>
        match (if bool_decide (source_language = text_of "si")
               then _translate_sinhala_to_english text
               else translator_translate text source_language
                      (text_of "en")) with
        | Returned translated =>
            (<[cache_key := translated]> translation_cache, translated)
        | Raised _ => (translation_cache, text)
        end
    end.

(** [LanguageProcessor.translate_from_english] *)
Definition translate_from_english (translation_cache : gmap Text Text)
    (text target_language : Text) : gmap Text Text * Text :=
  if bool_decide (target_language = text_of "en")
  then (translation_cache, text)
  else
    let cache_key :=
      text_of "en:" ++ target_language ++ text_of ":" ++ firstn 100 text in
    match translation_cache !! cache_key with
    | Some cached => (translation_cache, cached)
    | None =>
        match (if bool_decide (target_language = text_of "si")
               then _translate_english_to_sinhala text
               else translator_translate text (text_of "en")
                      target_language) with
        | Returned translated =>
            (<[cache_key := translated]> translation_cache, translated)
        | Raised _ => (translation_cache, text)
        end
    end.

End Translation.

End LanguageProcessor.

(** ** Notions used in the statements *)

(** [n] calls of [execute_tool] in a row, the [i]-th with the clock
    readings [clock i]. *)
Fixpoint execute_tool_repeatedly (n : nat) (tool_name q : string)
    (ctx : QueryContext) (clock : nat -> Q * Q) (reg : ToolRegistry)
    : ToolRegistry :=
  match n with
  | O => reg
  | S n' =>
      let reg' := execute_tool_repeatedly n' tool_name q ctx clock reg in
      fst (execute_tool tool_name q ctx (fst (clock n')) (snd (clock n'))
             reg')
  end.

(** The score of the performance strategy as the specification words it. *)
Definition spec_performance_score (t : BaseTool) : Q :=
  (0.5 * md_success_rate (metadata t)
   + 0.3 * (1 / (1 + md_average_response_time (metadata t)))
   + 0.2 * Qmin 1 (float_of_nat (md_usage_count (metadata t)) / 10))%Q.

(** The tools a selection strategy scores: those accepting the query. *)
Definition validated (q : string) (ctx : QueryContext)
    (entry : string * BaseTool) : bool :=
  validate_input (snd entry) q ctx.

(** The selection of [_select_tools] as a table of the two context
    fields it reads. *)
Definition fixed_selection (web_search_enabled : bool)
    (t : QueryTypeMember) : list string :=
  match web_search_enabled, t with
  | true, OrchestratorQueryType TROUBLESHOOTING =>
      ["vector_search"; "web_search"; "rerank"; "error_analyzer";
       "solution_finder"]
  | true, OrchestratorQueryType COMPARISON =>
      ["vector_search"; "web_search"; "rerank"; "service_comparator";
       "feature_analyzer"]
  | true, OrchestratorQueryType PERFORMANCE =>
      ["vector_search"; "web_search"; "rerank"; "performance_analyzer";
       "optimization_advisor"]
  | true, _ => ["vector_search"; "web_search"; "rerank"]
  | false, OrchestratorQueryType TROUBLESHOOTING =>
      ["vector_search"; "rerank"; "error_analyzer"; "solution_finder"]
  | false, OrchestratorQueryType COMPARISON =>
      ["vector_search"; "rerank"; "service_comparator"; "feature_analyzer"]
  | false, OrchestratorQueryType PERFORMANCE =>
      ["vector_search"; "rerank"; "performance_analyzer";
       "optimization_advisor"]
  | false, _ => ["vector_search"; "rerank"]
  end.

(** Two states of a context object that differ at most in [query]. *)
Definition same_except_query (c1 c2 : QueryContext) : Prop :=
  user_id c1 = user_id c2
  /\ thread_id c1 = thread_id c2
  /\ language c1 = language c2
  /\ query_type c1 = query_type c2
  /\ confidence_score c1 = confidence_score c2
  /\ domain_relevance c1 = domain_relevance c2
  /\ session_history c1 = session_history c2
  /\ user_preferences c1 = user_preferences c2.

(** The tool map of a registry built by [register_tool]: keys are unique
    and every tool is stored under its own name. *)
Definition tool_map_wf (reg : ToolRegistry) : Prop :=
  NoDup (od_keys (tools reg))
  /\ Forall (fun entry => fst entry = name (snd entry)) (tools reg).

(** Mean latencies are means of measured durations: none is negative. *)
Definition latencies_nonneg (reg : ToolRegistry) : Prop :=
  Forall (fun entry =>
            (0 <= md_average_response_time (metadata (snd entry)))%Q)
    (tools reg).

(** A history of completed calls as [update_metrics] sees it: success
    flag, measured latency and clock reading of each call, oldest
    first. *)
Definition record_calls (calls : list (bool * Q * Q)) (t : BaseTool)
    : BaseTool :=
  fold_left
    (fun t call => update_metrics (fst (fst call)) (snd (fst call))
                     (snd call) t)
    calls t.

Definition call_successes (calls : list (bool * Q * Q)) : nat :=
  length (List.filter (fun call => fst (fst call)) calls).

Definition call_latencies (calls : list (bool * Q * Q)) : Q :=
  fold_right (fun call acc => (snd (fst call) + acc)%Q) 0%Q calls.

(** What the counters of a performance record satisfy. *)
Definition performance_consistent (p : Performance) : Prop :=
  total_calls p = successful_calls p + failed_calls p
  /\ length (error_patterns p) <= 10.

Definition performance_table_consistent (reg : ToolRegistry) : Prop :=
  forall tool_name p,
    tool_performance reg !! tool_name = Some p -> performance_consistent p.

(** A tool nobody has called yet, as [BaseTool.__init__] leaves it. *)
Definition unused (t : BaseTool) : Prop :=
  md_usage_count (metadata t) = 0
  /\ md_success_rate (metadata t) = 0%Q
  /\ md_average_response_time (metadata t) = 0%Q.


(** The line [_finalize_response] appends to a response of moderate
    confidence. *)
Definition confidence_note : string :=
  LF +:+ LF
  +:+ "*Note: This response has moderate confidence. Please verify the information.*".

(** The number of patterns of each query type that occur in a query, in
    the order of the pattern table. *)
Definition pattern_hits (query : string)
    : list (DomainRelevanceChecker.QueryType * nat) :=
  map (fun entry =>
         (fst entry, DomainRelevanceChecker.count_present (snd entry) query))
    DomainRelevanceChecker.query_type_patterns.

(** ** Sample tools, registries and environments

    Concrete inputs on which the definitions above are evaluated. *)

(** [BaseTool.validate_input], the default validation:
    [bool(query and query.strip())]. *)
Definition default_validate_input (q : string) (ctx : QueryContext) : bool :=
  existsb (fun c => negb (is_space c)) (list_ascii_of_string q).

(** [BaseTool.__init__] for a subclass with the given methods; its
    [execute] is a coroutine function, as in every subclass of the
    repository. *)
Definition new_tool (n d c : string) (now : Q)
    (validate : string -> QueryContext -> bool)
    (run : string -> QueryContext -> Outcome ToolResult) : BaseTool :=
  {| name := n; description := d; category := c;
     metadata := initial_metadata n d c now;
     validate_input := validate; execute_method := AsyncDef run |}.

(** An object with the attributes of a tool whose [execute] is a plain
    function. *)
Definition plain_tool (n d c : string) (now : Q)
    (validate : string -> QueryContext -> bool)
    (run : string -> QueryContext -> Outcome PlainValue) : BaseTool :=
  {| name := n; description := d; category := c;
     metadata := initial_metadata n d c now;
     validate_input := validate; execute_method := Def run |}.

(** A context as [_build_query_context] builds it: the query type is a
    member of the domain checker's enumeration. *)
Definition sample_context : QueryContext :=
  {| user_id := "u1"; thread_id := "t1"; query := "EC2 instance slow";
     language := "en";
     query_type := CheckerQueryType DomainRelevanceChecker.GENERAL_INQUIRY;
     confidence_score := 0.9; domain_relevance := 0.9;
     session_history := []; user_preferences := ∅ |}.

Definition sample_record : ResultRecord :=
  {| rr_content := Some "Check the instance CPU credits";
     rr_url := Some "https://docs.example/ec2"; rr_title := None;
     rr_service := None |}.

(** A tool that answers. *)
Definition answering_tool (n c : string) : BaseTool :=
  new_tool n "search the knowledge base" c 0 default_validate_input
    (fun _ _ =>
       Returned
         {| tr_tool_name := n; tr_success := true;
            tr_results := [sample_record];
            tr_sources := ["https://docs.example/ec2"];
            tr_confidence := 0.7; tr_response_time := 0.1;
            tr_error_message := None |}).

(** A tool whose [execute] is a plain function that answers with a
    dict. *)
Definition blocking_tool (n c : string) : BaseTool :=
  plain_tool n "search the knowledge base" c 0 default_validate_input
    (fun _ _ =>
       Returned
         (DictValue
            {| rd_success := Some true;
               rd_results := Some [sample_record];
               rd_sources := Some ["https://docs.example/ec2"] |})).

(** A tool whose [execute] is a plain function that raises a fault with
    the given description: the registry, which awaits the call, and a
    worker of the pool, which does not, meet the same fault. *)
Definition raising_tool (n c e : string) : BaseTool :=
  plain_tool n "rerank results" c 0 default_validate_input
    (fun _ _ => Raised e).

(** A tool that rejects every input. *)
Definition rejecting_tool (n c : string) : BaseTool :=
  new_tool n "translate text" c 0 (fun _ _ => false)
    (fun _ _ => Raised "unreachable").

(** A name registered first under [search], then under [analysis]. *)
Definition reregistered_registry : ToolRegistry :=
  fst (register_tool (answering_tool "lookup" "analysis")
         (fst (register_tool (answering_tool "lookup" "search")
                 empty_registry))).

(** The registry of the orchestrator examples: two tools with plain
    [execute] functions, the kind of callable a thread pool runs. *)
Definition sample_registry : ToolRegistry :=
  fst (register_tool (raising_tool "rerank" "analysis" "rerank unavailable")
         (fst (register_tool (blocking_tool "vector_search" "search")
                 empty_registry))).

(** A registry of subclasses of [BaseTool], as [_initialize_tools] builds
    it: every [execute] is a coroutine function. *)
Definition async_registry : ToolRegistry :=
  fst (register_tool (answering_tool "rerank" "analysis")
         (fst (register_tool (answering_tool "vector_search" "search")
                 empty_registry))).

(** A tool with the metrics a history of calls leaves. *)
Definition used_tool (n : string) (calls : list (bool * Q * Q))
    : BaseTool :=
  record_calls calls (answering_tool n "search").

(** [A] after eight failed calls of half a second, [B] after two
    successful and six failed calls of three seconds. *)
Definition rounding_registry : ToolRegistry :=
  fst (register_tool
         (used_tool "B"
            ([(true, 3%Q, 0%Q); (true, 3%Q, 0%Q)]
             ++ repeat (false, 3%Q, 0%Q) 6))
         (fst (register_tool
                 (used_tool "A" (repeat (false, 0.5%Q, 0%Q) 8))
                 empty_registry))).

(** [A] after one successful call during which the clock was set back by
    half a second, [B] after two successful calls that took no
    measurable time. *)
Definition clock_step_registry : ToolRegistry :=
  fst (register_tool
         (used_tool "B" [(true, 0%Q, 0%Q); (true, 0%Q, 0%Q)])
         (fst (register_tool (used_tool "A" [(true, (-0.5)%Q, 0%Q)])
                 empty_registry))).

(** A registry holding one tool whose fault has an empty description
    (what [str(e)] gives for a bare [assert] or a [TimeoutError()]). *)
Definition silent_fault_registry : ToolRegistry :=
  fst (register_tool (raising_tool "rerank" "analysis" "") empty_registry).

(** An assessor that scores every iteration alike. *)
Definition constant_assessor (score : Q)
    : nat -> string -> odict ToolOutcome -> Q :=
  fun _ _ _ => score.

(** Candidate confidences 0.2, 0.9 and 0.5 in iterations 1, 2 and 3. *)
Definition sample_confidence
    : nat -> string -> string -> list ResultRecord -> Q :=
  fun it _ _ _ =>
    match it with
    | 1 => 0.2%Q
    | 2 => 0.9%Q
    | _ => 0.5%Q
    end.

Definition sample_missing : nat -> string -> odict ToolOutcome -> list string :=
  fun _ _ _ => ["latency"; "cpu"].

Definition no_translation : string -> string -> string := fun text _ => text.

(** Every call finishes one second after submission. *)
Definition prompt_completion : nat -> string -> Q := fun _ _ => 1%Q.

(** [rerank] needs 100 seconds, every other tool one. *)
Definition slow_rerank : nat -> string -> Q :=
  fun _ tool_name => if String.eqb tool_name "rerank" then 100%Q else 1%Q.

(** The configuration set in [AgentOrchestrator.__init__]. *)
Definition default_task_timeout : Q := 30.
Definition default_domain_relevance_threshold : Q := 0.7.
Definition default_confidence_threshold : Q := 0.8.
Definition default_max_iterations : nat := 3.

(** A run of the loop over [sample_registry] with that configuration. *)
Definition sample_loop
    (assess : nat -> string -> odict ToolOutcome -> Q)
    (confidence_of : nat -> string -> string -> list ResultRecord -> Q)
    (completion : nat -> string -> Q) (ctx : QueryContext)
    : LoopState * Outcome AgentResponse :=
  _iterative_processing_loop sample_registry default_task_timeout
    default_confidence_threshold default_max_iterations assess
    confidence_of sample_missing no_translation completion ctx.

(** The same run over [async_registry], with an assessor that answers
    0.9. *)
Definition repository_loop : LoopState * Outcome AgentResponse :=
  _iterative_processing_loop async_registry default_task_timeout
    default_confidence_threshold default_max_iterations
    (constant_assessor 0.9%Q) sample_confidence sample_missing
    no_translation prompt_completion sample_context.

(** Quality scores 0.5, 0.2 and 0.01 in iterations 1, 2 and 3. *)
Definition declining_assessor : nat -> string -> odict ToolOutcome -> Q :=
  fun it _ _ =>
    match it with
    | 1 => 0.5%Q
    | 2 => 0.2%Q
    | _ => 0.01%Q
    end.

(** Candidate confidences 0.1, 0.05 and 0.9 in iterations 1, 2 and 3. *)
Definition late_confidence
    : nat -> string -> string -> list ResultRecord -> Q :=
  fun it _ _ _ =>
    match it with
    | 1 => 0.1%Q
    | 2 => 0.05%Q
    | _ => 0.9%Q
    end.

(** The state in which the [while] loop of that run is left when the
    assessor always answers 0.1. *)
Definition exhausted_state : LoopState :=
  fst (while_loop sample_registry default_task_timeout
         default_confidence_threshold (constant_assessor 0.1%Q)
         sample_confidence sample_missing no_translation prompt_completion
         default_max_iterations (initial_state sample_context)).

(** [process_query] with collaborators that answer in the simplest way. *)
Definition sample_process_query (q : string)
    : AgentResponse * option Interaction :=
  process_query sample_registry default_task_timeout
    default_confidence_threshold default_max_iterations
    (constant_assessor 0.1%Q) sample_confidence sample_missing
    no_translation prompt_completion default_domain_relevance_threshold
    (fun _ => "en") no_translation
    (fun _ => DomainRelevanceChecker.GENERAL_INQUIRY)
    (fun _ => 0.9%Q) (fun _ => 0.9%Q) (fun _ _ => []) (fun _ => ∅)
    "u1" "t1" q "en" 5%Q.

(** [process_query] over [async_registry], with an assessor that answers
    0.9. *)
Definition repository_process_query (q : string)
    : AgentResponse * option Interaction :=
  process_query async_registry default_task_timeout
    default_confidence_threshold default_max_iterations
    (constant_assessor 0.9%Q) sample_confidence sample_missing
    no_translation prompt_completion default_domain_relevance_threshold
    (fun _ => "en") no_translation
    (fun _ => DomainRelevanceChecker.GENERAL_INQUIRY)
    (fun _ => 0.9%Q) (fun _ => 0.9%Q) (fun _ _ => []) (fun _ => ∅)
    "u1" "t1" q "en" 5%Q.

(** Two Sinhala texts that agree on their first 100 characters and
    differ after them: a hundred times the letter U+0D85, then U+0D86 or
    U+0D87. *)
Definition sample_prefix : Text := repeat 3461%N 100.

Definition sample_text_slow : Text := sample_prefix ++ [3462%N].
Definition sample_text_down : Text := sample_prefix ++ [3463%N].

(** A translator that marks a text as translated. *)
Definition marking_translator (text : Text) : Outcome Text :=
  Returned (text_of "[translated] " ++ text).

(** * Properties *)

(** ** Ordered dictionaries *)

Lemma od_get_set_eq {V : Type} (k : string) (v : V) (d : odict V) :
  od_get k (od_set k v d) = Some v.
Proof.
  induction d as [|[k' v'] d IH]; simpl.
  - now rewrite String.eqb_refl.
  - destruct (String.eqb k k') eqn:E; simpl; rewrite ?E, ?String.eqb_refl; auto.
Qed.

Lemma od_get_set_ne {V : Type} (k k' : string) (v : V) (d : odict V) :
  k <> k' -> od_get k' (od_set k v d) = od_get k' d.
Proof.
  intros Hne. induction d as [|[k0 v0] d IH]; simpl.
  - destruct (String.eqb k' k) eqn:E; auto.
    apply String.eqb_eq in E. congruence.
  - destruct (String.eqb k k0) eqn:E; simpl.
    + apply String.eqb_eq in E. subst k0.
      destruct (String.eqb k' k) eqn:E'; auto.
      apply String.eqb_eq in E'. congruence.
    + now rewrite IH.
Qed.

Lemma od_get_In {V : Type} (k : string) (v : V) (d : odict V) :
  od_get k d = Some v -> In (k, v) d.
Proof.
  induction d as [|[k' v'] d IH]; simpl; [discriminate|].
  destruct (String.eqb k k') eqn:E.
  - apply String.eqb_eq in E. intros [= ->]. subst. now left.
  - intros H. right. auto.
Qed.

Lemma od_In_get {V : Type} (k : string) (v : V) (d : odict V) :
  NoDup (od_keys d) -> In (k, v) d -> od_get k d = Some v.
Proof.
  induction d as [|[k' v'] d IH]; simpl; [tauto|].
  intros Hnd Hin. apply NoDup_cons in Hnd as [Hk Hnd].
  destruct Hin as [[= -> ->]|Hin].
  - now rewrite String.eqb_refl.
  - destruct (String.eqb k k') eqn:E.
    + apply String.eqb_eq in E. subst k'. exfalso. apply Hk.
      apply list_elem_of_In. change k with (fst (k, v)).
      now apply in_map.
    + auto.
Qed.

(** ** Registration and the category index *)

(** C5. The category index does not stay consistent with the tool map
    when a name is registered again under another category.  After
    [lookup] is registered under [search] and then under [analysis], the
    name sits in both buckets although its current category is
    [analysis]; unregistering it succeeds and removes it from the tool
    map and from the [analysis] bucket, yet the [search] bucket still
    holds the name and is not pruned.  (That no strategy returns an
    unregistered name is [unregistered_tool_not_selected] below.) *)
Theorem reregistration_leaves_stale_bucket :
  get_tool "lookup" reregistered_registry
    = Some (answering_tool "lookup" "analysis")
  /\ tool_categories reregistered_registry !! "analysis" = Some ["lookup"]
  /\ tool_categories reregistered_registry !! "search" = Some ["lookup"]
  /\ snd (unregister_tool "lookup" reregistered_registry) = true
  /\ get_tool "lookup" (fst (unregister_tool "lookup" reregistered_registry))
     = None
  /\ tool_categories (fst (unregister_tool "lookup" reregistered_registry))
       !! "analysis" = None
  /\ tool_categories (fst (unregister_tool "lookup" reregistered_registry))
       !! "search" = Some ["lookup"].
Proof. repeat split; vm_compute; reflexivity. Qed.

(** ** [execute_tool] *)

Lemma get_tool_update_tool_metrics (tool_name : string) (tool : BaseTool)
    (success : bool) (rt now : Q) (reg : ToolRegistry) :
  get_tool tool_name (update_tool_metrics tool_name tool success rt now reg)
  = Some (update_metrics success rt now tool).
Proof. unfold get_tool, update_tool_metrics; simpl. apply od_get_set_eq. Qed.

Lemma tools_update_performance_tracking (tool_name : string)
    (success : bool) (rt now : Q) (msg : option string)
    (reg : ToolRegistry) :
  tools (_update_performance_tracking tool_name success rt now msg reg)
  = tools reg.
Proof.
  unfold _update_performance_tracking.
  now destruct (tool_performance reg !! tool_name).
Qed.

(** A tool that has just been registered has a zeroed record. *)
Lemma register_tool_tracks (tool : BaseTool) (reg : ToolRegistry) :
  get_tool (name tool) (fst (register_tool tool reg)) = Some tool
  /\ tool_performance (fst (register_tool tool reg)) !! name tool
     = Some zero_performance.
Proof.
  split; simpl.
  - apply od_get_set_eq.
  - apply lookup_insert_eq.
Qed.

(** What [execute_tool] does when [execute] raises. *)
Lemma execute_tool_raised (tool_name q : string) (ctx : QueryContext)
    (t0 t1 : Q) (reg : ToolRegistry) (tool : BaseTool) (e : string) :
  get_tool tool_name reg = Some tool ->
  validate_input tool q ctx = true ->
  execute tool q ctx = Raised e ->
  execute_tool tool_name q ctx t0 t1 reg
  = (_update_performance_tracking tool_name false (t1 - t0)%Q t1 (Some e)
       (update_tool_metrics tool_name tool false (t1 - t0)%Q t1 reg),
     failed_result tool_name (t1 - t0)%Q e).
Proof.
  unfold get_tool, execute_tool. intros -> -> ->. reflexivity.
Qed.

(** C10. When the tool registered under [tool_name] rejects the query,
    [execute_tool] returns a failed result with the message
    ["Input validation failed"], response time 0 and confidence 0, and the
    registry it leaves behind is the registry it was given: neither the
    tool's metadata nor its performance record is touched.  On a query the
    tool accepts and on which [execute] raises, in contrast, the stored
    tool has gone through [update_metrics]. *)
Theorem execute_tool_validation_failed (tool_name q : string)
    (ctx : QueryContext) (t0 t1 : Q) (reg : ToolRegistry)
    (tool : BaseTool) :
  get_tool tool_name reg = Some tool ->
  validate_input tool q ctx = false ->
  execute_tool tool_name q ctx t0 t1 reg
  = (reg,
     {| tr_tool_name := tool_name; tr_success := false; tr_results := [];
        tr_sources := []; tr_confidence := 0; tr_response_time := 0;
        tr_error_message := Some "Input validation failed" |})
  /\ (forall q' e,
        validate_input tool q' ctx = true ->
        execute tool q' ctx = Raised e ->
        exists tool',
          get_tool tool_name (fst (execute_tool tool_name q' ctx t0 t1 reg))
          = Some tool'
          /\ md_usage_count (metadata tool')
             = S (md_usage_count (metadata tool))).
Proof.
  intros Hget Hval. split.
  - unfold get_tool in Hget. unfold execute_tool.
    rewrite Hget, Hval. reflexivity.
  - intros q' e Hval' Hex.
    rewrite (execute_tool_raised _ _ _ _ _ _ _ _ Hget Hval' Hex). simpl.
    exists (update_metrics false (t1 - t0)%Q t1 tool). split.
    + unfold get_tool. rewrite tools_update_performance_tracking.
      apply get_tool_update_tool_metrics.
    + reflexivity.
Qed.

Lemma execute_tool_validation_failed_witness :
  execute_tool "translate" "hello" sample_context 0 1
    (fst (register_tool (rejecting_tool "translate" "language")
            empty_registry))
  = (fst (register_tool (rejecting_tool "translate" "language")
            empty_registry),
     failed_result "translate" 0 "Input validation failed").
Proof.
  apply (execute_tool_validation_failed "translate" "hello" sample_context
           0 1 _ (rejecting_tool "translate" "language")); reflexivity.
Defined.

Lemma py_last_length {A : Type} (k : nat) (l : list A) :
  length (py_last k l) <= k.
Proof. unfold py_last. rewrite length_skipn. lia. Qed.

(** The incremental mean of both bookkeeping routines agrees with the
    closed formula, also for the first call. *)
Lemma incremental_mean (old rt : Q) (n : nat) :
  ((if Nat.eqb (S n) 1 then rt
    else (old * float_of_nat (S n - 1) + rt) / float_of_nat (S n))
   == (old * float_of_nat (S n - 1) + rt) / float_of_nat (S n))%Q.
Proof.
  destruct n as [|n]; [|reflexivity].
  unfold float_of_nat; simpl. field.
Qed.

(** One failing call, seen from the registry. *)
Lemma execute_tool_raised_state (tool_name q : string) (ctx : QueryContext)
    (t0 t1 : Q) (reg : ToolRegistry) (tool : BaseTool) (perf : Performance)
    (e : string) :
  get_tool tool_name reg = Some tool ->
  tool_performance reg !! tool_name = Some perf ->
  validate_input tool q ctx = true ->
  execute tool q ctx = Raised e ->
  let reg' := fst (execute_tool tool_name q ctx t0 t1 reg) in
  get_tool tool_name reg' = Some (update_metrics false (t1 - t0)%Q t1 tool)
  /\ tool_performance reg' !! tool_name
     = Some
         {| total_calls := S (total_calls perf);
            successful_calls := successful_calls perf;
            failed_calls := S (failed_calls perf);
            average_response_time :=
              if Nat.eqb (S (total_calls perf)) 1 then (t1 - t0)%Q
              else ((average_response_time perf
                     * float_of_nat (S (total_calls perf) - 1)
                     + (t1 - t0))
                    / float_of_nat (S (total_calls perf)))%Q;
            last_used := Some t1;
            error_patterns :=
              if String.eqb e "" then error_patterns perf
              else py_last 10
                     (error_patterns perf
                      ++ [{| ep_error := e; ep_timestamp := t1 |}]) |}
  /\ forall other,
       other <> tool_name ->
       tool_performance reg' !! other = tool_performance reg !! other.
Proof.
  intros Hget Hperf Hval Hex reg'. subst reg'.
  rewrite (execute_tool_raised _ _ _ _ _ _ _ _ Hget Hval Hex). simpl.
  split; [|split].
  - unfold get_tool. rewrite tools_update_performance_tracking.
    apply get_tool_update_tool_metrics.
  - unfold _update_performance_tracking. simpl. rewrite Hperf. simpl.
    rewrite lookup_insert_eq. now destruct e.
  - intros other Hne.
    unfold _update_performance_tracking. simpl. rewrite Hperf. simpl.
    now rewrite lookup_insert_ne.
Qed.

(** A run of failing calls keeps the success rate at zero. *)
Lemma failures_keep_rate_zero (tool_name q : string) (ctx : QueryContext)
    (clock : nat -> Q * Q) (reg : ToolRegistry) (tool : BaseTool)
    (perf : Performance) (e : string) (n : nat) :
  get_tool tool_name reg = Some tool ->
  tool_performance reg !! tool_name = Some perf ->
  validate_input tool q ctx = true ->
  execute tool q ctx = Raised e ->
  md_usage_count (metadata tool) = 0 ->
  (md_success_rate (metadata tool) == 0)%Q ->
  total_calls perf = 0 ->
  successful_calls perf = 0 ->
  exists tool' perf',
    get_tool tool_name
      (execute_tool_repeatedly n tool_name q ctx clock reg) = Some tool'
    /\ tool_performance
         (execute_tool_repeatedly n tool_name q ctx clock reg) !! tool_name
       = Some perf'
    /\ validate_input tool' = validate_input tool
    /\ execute tool' = execute tool
    /\ md_usage_count (metadata tool') = n
    /\ (md_success_rate (metadata tool') == 0)%Q
    /\ total_calls perf' = n
    /\ successful_calls perf' = 0.
Proof.
  intros Hget Hperf Hval Hex Hu Hr Ht Hs.
  induction n as [|n IH]; simpl.
  - exists tool, perf. repeat split; auto.
  - destruct IH as (tool' & perf' & Hg' & Hp' & Hv' & He' & Hu' & Hr' & Ht' & Hs').
    assert (Hval' : validate_input tool' q ctx = true) by now rewrite Hv'.
    assert (Hex' : execute tool' q ctx = Raised e) by now rewrite He'.
    destruct (execute_tool_raised_state tool_name q ctx
                (fst (clock n)) (snd (clock n)) _ tool' perf' e
                Hg' Hp' Hval' Hex') as (Hg2 & Hp2 & _).
    eexists _, _. split; [exact Hg2|]. split; [exact Hp2|].
    simpl. rewrite Hu', Ht', Hs'. repeat split; auto.
    destruct n as [|n]; simpl; [reflexivity|].
    rewrite Hr'. unfold Qdiv. ring.
Qed.

(** C7, as amended.  When the tool registered under [tool_name] accepts
    the query and its [execute] raises a fault described by [e],
    [execute_tool] returns a failed result carrying [e], and the tool's
    performance record is rewritten once: one more call, the same number
    of successful calls, one more failed call, the mean latency
    [(oldMean * (n - 1) + latency) / n] for the new call count [n], and
    the error list extended by [e] and cut to its last 10 entries when
    [e] is not empty; an empty description leaves the error list as it
    was.  No other tool's record changes, and the stored tool has gone
    through [update_metrics] once.  From a fresh record, any number of
    such calls in a row leaves the success rate at 0. *)
Theorem execute_tool_fault_bookkeeping (tool_name q : string)
    (ctx : QueryContext) (t0 t1 : Q) (reg : ToolRegistry)
    (tool : BaseTool) (perf : Performance) (e : string) :
  get_tool tool_name reg = Some tool ->
  tool_performance reg !! tool_name = Some perf ->
  validate_input tool q ctx = true ->
  execute tool q ctx = Raised e ->
  let reg' := fst (execute_tool tool_name q ctx t0 t1 reg) in
  let n := S (total_calls perf) in
  snd (execute_tool tool_name q ctx t0 t1 reg)
  = {| tr_tool_name := tool_name; tr_success := false; tr_results := [];
       tr_sources := []; tr_confidence := 0;
       tr_response_time := (t1 - t0)%Q; tr_error_message := Some e |}
  /\ (exists perf',
        tool_performance reg' !! tool_name = Some perf'
        /\ total_calls perf' = n
        /\ successful_calls perf' = successful_calls perf
        /\ failed_calls perf' = S (failed_calls perf)
        /\ (average_response_time perf'
            == (average_response_time perf * float_of_nat (n - 1)
                + (t1 - t0)) / float_of_nat n)%Q
        /\ error_patterns perf'
           = (if String.eqb e "" then error_patterns perf
              else py_last 10
                     (error_patterns perf
                      ++ [{| ep_error := e; ep_timestamp := t1 |}]))
        /\ (e <> "" -> length (error_patterns perf') <= 10))
  /\ (forall other,
        other <> tool_name ->
        tool_performance reg' !! other = tool_performance reg !! other)
  /\ get_tool tool_name reg'
     = Some (update_metrics false (t1 - t0)%Q t1 tool)
  /\ (md_usage_count (metadata tool) = 0 ->
      (md_success_rate (metadata tool) == 0)%Q ->
      total_calls perf = 0 ->
      successful_calls perf = 0 ->
      forall (N : nat) (clock : nat -> Q * Q),
      exists toolN perfN,
        get_tool tool_name
          (execute_tool_repeatedly N tool_name q ctx clock reg) = Some toolN
        /\ tool_performance
             (execute_tool_repeatedly N tool_name q ctx clock reg)
             !! tool_name = Some perfN
        /\ md_usage_count (metadata toolN) = N
        /\ (md_success_rate (metadata toolN) == 0)%Q
        /\ total_calls perfN = N
        /\ successful_calls perfN = 0).
Proof.
  intros Hget Hperf Hval Hex reg' n.
  destruct (execute_tool_raised_state tool_name q ctx t0 t1 reg tool perf e
              Hget Hperf Hval Hex) as (Hg & Hp & Hother).
  split; [|split; [|split; [|split]]].
  - now rewrite (execute_tool_raised _ _ _ _ _ _ _ _ Hget Hval Hex).
  - eexists. split; [exact Hp|]. simpl. repeat split.
    + apply incremental_mean.
    + intros Hne. destruct (String.eqb e "") eqn:E.
      * apply String.eqb_eq in E. contradiction.
      * apply py_last_length.
  - exact Hother.
  - exact Hg.
  - intros Hu Hr Ht Hs N clock.
    destruct (failures_keep_rate_zero tool_name q ctx clock reg tool perf e N
                Hget Hperf Hval Hex Hu Hr Ht Hs)
      as (toolN & perfN & H1 & H2 & _ & _ & H3 & H4 & H5 & H6).
    exists toolN, perfN. repeat split; assumption.
Qed.

Lemma execute_tool_fault_bookkeeping_witness :
  snd (execute_tool "rerank" "EC2 instance slow" sample_context 0 2
         sample_registry)
  = failed_result "rerank" (2 - 0)%Q "rerank unavailable".
Proof.
  apply (execute_tool_fault_bookkeeping "rerank" "EC2 instance slow"
           sample_context 0 2 sample_registry
           (raising_tool "rerank" "analysis" "rerank unavailable")
           zero_performance "rerank unavailable");
    vm_compute; reflexivity.
Defined.

(** C7 as worded does not hold for a fault whose description is empty:
    the call is counted, but nothing is appended to the error list. *)
Lemma empty_fault_description_not_recorded :
  execute (raising_tool "rerank" "analysis" "") "EC2 instance slow"
    sample_context = Raised ""
  /\ error_patterns
       <$> tool_performance silent_fault_registry !! "rerank" = Some []
  /\ total_calls
       <$> tool_performance
             (fst (execute_tool "rerank" "EC2 instance slow" sample_context
                     0 2 silent_fault_registry)) !! "rerank" = Some 1
  /\ error_patterns
       <$> tool_performance
             (fst (execute_tool "rerank" "EC2 instance slow" sample_context
                     0 2 silent_fault_registry)) !! "rerank" = Some [].
Proof. repeat split; vm_compute; reflexivity. Qed.

(** ** The stable descending sort *)

Section StableSortFacts.
Context {A : Type} (key : A -> Q).

Lemma insert_desc_perm (x : A) (l : list A) :
  Permutation (insert_desc key x l) (x :: l).
Proof.
  induction l as [|y l IH]; simpl; [reflexivity|].
  destruct (Qlt_le_dec (key x) (key y)); [|reflexivity].
  rewrite IH. apply perm_swap.
Qed.

Lemma sort_desc_perm (l : list A) : Permutation (sort_desc key l) l.
Proof.
  induction l as [|x l IH]; simpl; [reflexivity|].
  rewrite insert_desc_perm. now constructor.
Qed.

Lemma insert_desc_sorted (x : A) (l : list A) :
  StronglySorted (fun a b => (key b <= key a)%Q) l ->
  StronglySorted (fun a b => (key b <= key a)%Q) (insert_desc key x l).
Proof.
  induction 1 as [|y l Hs IH Hy]; simpl.
  - repeat constructor.
  - destruct (Qlt_le_dec (key x) (key y)) as [Hlt|Hle].
    + constructor; [exact IH|].
      rewrite Forall_forall. intros z Hz.
      apply list_elem_of_In in Hz.
      apply (Permutation_in _ (insert_desc_perm x l)) in Hz.
      destruct Hz as [<-|Hz].
      * now apply Qlt_le_weak.
      * rewrite Forall_forall in Hy. apply Hy. now apply list_elem_of_In.
    + constructor; [now constructor|].
      constructor; [exact Hle|].
      rewrite Forall_forall in Hy |- *. intros z Hz.
      apply Qle_trans with (key y); auto.
Qed.

Lemma sort_desc_sorted (l : list A) :
  StronglySorted (fun a b => (key b <= key a)%Q) (sort_desc key l).
Proof.
  induction l as [|x l IH]; simpl; [constructor|].
  now apply insert_desc_sorted.
Qed.

(** Stability: entries with one and the same key keep their order. *)
Lemma insert_desc_stable (s : Q) (x : A) (l : list A) :
  List.filter (fun a => Qeq_bool (key a) s) (insert_desc key x l)
  = List.filter (fun a => Qeq_bool (key a) s) (x :: l).
Proof.
  induction l as [|y l IH]; [reflexivity|].
  simpl insert_desc.
  destruct (Qlt_le_dec (key x) (key y)) as [Hlt|Hle]; [|reflexivity].
  change (List.filter ?f (y :: ?t))
    with (if f y then y :: List.filter f t else List.filter f t).
  rewrite IH. simpl.
  destruct (Qeq_bool (key y) s) eqn:Ey, (Qeq_bool (key x) s) eqn:Ex;
    try reflexivity.
  apply Qeq_bool_iff in Ey, Ex. exfalso.
  rewrite Ex, <- Ey in Hlt. now apply Qlt_irrefl in Hlt.
Qed.

Lemma sort_desc_stable (s : Q) (l : list A) :
  List.filter (fun a => Qeq_bool (key a) s) (sort_desc key l)
  = List.filter (fun a => Qeq_bool (key a) s) l.
Proof.
  induction l as [|x l IH]; [reflexivity|].
  simpl sort_desc. rewrite insert_desc_stable. simpl. now rewrite IH.
Qed.

End StableSortFacts.

Lemma insert_desc_map {A B : Type} (key : B -> Q) (f : A -> B) (x : A)
    (l : list A) :
  insert_desc key (f x) (map f l)
  = map f (insert_desc (fun a => key (f a)) x l).
Proof.
  induction l as [|y l IH]; simpl; [reflexivity|].
  destruct (Qlt_le_dec (key (f x)) (key (f y))); simpl; [|reflexivity].
  now rewrite IH.
Qed.

Lemma sort_desc_map {A B : Type} (key : B -> Q) (f : A -> B) (l : list A) :
  sort_desc key (map f l) = map f (sort_desc (fun a => key (f a)) l).
Proof.
  induction l as [|x l IH]; simpl; [reflexivity|].
  now rewrite IH, insert_desc_map.
Qed.

Lemma insert_desc_ext {A : Type} (key1 key2 : A -> Q) (x : A) (l : list A) :
  (key1 x == key2 x)%Q ->
  (forall a, In a l -> (key1 a == key2 a)%Q) ->
  insert_desc key1 x l = insert_desc key2 x l.
Proof.
  intros Hx. induction l as [|y l IH]; intros Hl; simpl; [reflexivity|].
  assert (Hy : (key1 y == key2 y)%Q) by (apply Hl; now left).
  destruct (Qlt_le_dec (key1 x) (key1 y)) as [H1|H1],
           (Qlt_le_dec (key2 x) (key2 y)) as [H2|H2].
  - f_equal. apply IH. intros a Ha. apply Hl. now right.
  - exfalso. rewrite Hx, Hy in H1. now apply (Qlt_not_le _ _ H1).
  - exfalso. rewrite Hx, Hy in H1. now apply (Qlt_not_le _ _ H2).
  - reflexivity.
Qed.

Lemma sort_desc_ext {A : Type} (key1 key2 : A -> Q) (l : list A) :
  (forall a, In a l -> (key1 a == key2 a)%Q) ->
  sort_desc key1 l = sort_desc key2 l.
Proof.
  induction l as [|x l IH]; intros Hl; simpl; [reflexivity|].
  rewrite IH by (intros a Ha; apply Hl; now right).
  apply insert_desc_ext.
  - apply Hl. now left.
  - intros a Ha. apply Hl. right.
    now apply (Permutation_in _ (sort_desc_perm key2 l)).
Qed.

(** ** The performance and relevance strategies *)

Lemma firstn_incl {A : Type} (n : nat) (l : list A) (x : A) :
  In x (firstn n l) -> In x l.
Proof.
  revert l. induction n as [|n IH]; intros [|y l]; simpl; try tauto.
  intros [H|H]; auto.
Qed.

Lemma py_slice_to_incl {A : Type} (k : Z) (l : list A) (x : A) :
  In x (py_slice_to k l) -> In x l.
Proof.
  unfold py_slice_to. destruct (0 <=? k)%Z; apply firstn_incl.
Qed.

(** Whatever the bound, the two strategies that score the tool map
    return only keys of entries whose tool accepts the query. *)
Lemma scored_strategies_return_validated (reg : ToolRegistry) (q : string)
    (ctx : QueryContext) (k : Z) (n : string) :
  In n (_select_by_performance reg q ctx k)
  \/ In n (_select_by_relevance reg q ctx k) ->
  exists tool, In (n, tool) (tools reg) /\ validate_input tool q ctx = true.
Proof.
  unfold _select_by_performance, _select_by_relevance.
  intros [H|H];
    apply in_map_iff in H as ([n' s] & Hn & H); simpl in Hn; subst n';
    apply py_slice_to_incl in H;
    apply (Permutation_in _ (sort_desc_perm _ _)) in H;
    apply in_map_iff in H as ([n' t] & [= -> _] & H);
    apply filter_In in H as [Hin Hv];
    exists t; auto.
Qed.

(** C8, as amended.  [_select_by_performance] returns the names of the
    first [max_tools] entries (Python's [[:max_tools]]) of a ranking of
    exactly the tools that accept the query.  The ranking is descending
    in the score [successRate*0.5 + timeScore*0.3 + min(1, usageCount/10)*0.2],
    computed in double precision, where [timeScore] is
    [1/(1+avgLatency)] for a positive mean latency and [1] otherwise;
    entries whose scores are the same double keep the order of the tool
    map (registration order).  A tool whose validation fails is returned
    by neither the performance nor the relevance strategy. *)
Theorem select_by_performance_ranking (reg : ToolRegistry) (q : string)
    (ctx : QueryContext) (max_tools : Z) :
  (exists ranked : list (string * BaseTool),
     Permutation ranked (List.filter (validated q ctx) (tools reg))
     /\ StronglySorted
          (fun a b => (performance_score (snd b)
                       <= performance_score (snd a))%Q) ranked
     /\ (forall s,
           List.filter
             (fun a => Qeq_bool (performance_score (snd a)) s) ranked
           = List.filter
               (fun a => Qeq_bool (performance_score (snd a)) s)
               (List.filter (validated q ctx) (tools reg)))
     /\ _select_by_performance reg q ctx max_tools
        = map fst (py_slice_to max_tools ranked)
     /\ ((0 <= max_tools)%Z ->
         _select_by_performance reg q ctx max_tools
         = map fst (firstn (Z.to_nat max_tools) ranked)))
  /\ (forall t,
        let success_rate := float_of_Q (md_success_rate (metadata t)) in
        let latency :=
          float_of_Q (md_average_response_time (metadata t)) in
        let usage := float_of_Z (Z.of_nat (md_usage_count (metadata t))) in
        performance_score t
        = Q_of_float
            (success_rate * 0.5
             + (if 0 <? latency then 1 / (1 + latency) else 1) * 0.3
             + float_min 1 (usage / 10) * 0.2)%float)
  /\ (forall n k,
        In n (_select_by_performance reg q ctx k)
        \/ In n (_select_by_relevance reg q ctx k) ->
        exists tool,
          In (n, tool) (tools reg) /\ validate_input tool q ctx = true)
  /\ (forall n k tool,
        NoDup (od_keys (tools reg)) ->
        get_tool n reg = Some tool ->
        validate_input tool q ctx = false ->
        ~ In n (_select_by_performance reg q ctx k)
        /\ ~ In n (_select_by_relevance reg q ctx k)).
Proof.
  split; [|split; [reflexivity|split]].
  - exists (sort_desc (fun a => performance_score (snd a))
              (List.filter (validated q ctx) (tools reg))).
    split; [apply sort_desc_perm|].
    split; [apply (sort_desc_sorted
                     (fun a => performance_score (snd a)))|].
    split; [intros s; apply (sort_desc_stable
                     (fun a => performance_score (snd a)))|].
    assert (Hslice : _select_by_performance reg q ctx max_tools
                     = map fst
                         (py_slice_to max_tools
                            (sort_desc (fun a => performance_score (snd a))
                               (List.filter (validated q ctx) (tools reg))))).
    { unfold _select_by_performance.
      rewrite (filter_ext _ (validated q ctx)) by (now intros [? ?]).
      rewrite (map_ext _ (fun e : string * BaseTool =>
                            (fst e, performance_score (snd e))))
        by (now intros [? ?]).
      rewrite sort_desc_map. simpl.
      unfold py_slice_to. rewrite length_map.
      destruct (0 <=? max_tools)%Z; rewrite firstn_map, map_map;
        apply map_ext; reflexivity. }
    split; [exact Hslice|].
    intros Hk. rewrite Hslice. unfold py_slice_to.
    apply Z.leb_le in Hk. now rewrite Hk.
  - intros n k. apply scored_strategies_return_validated.
  - intros n k tool Hnd Hget Hval.
    split; intros Hin;
      (destruct (scored_strategies_return_validated reg q ctx k n)
         as (tool' & Hin' & Hval'); [auto|]);
      apply (od_In_get _ _ _ Hnd) in Hin';
      unfold get_tool in Hget; congruence.
Qed.

(** C8 as worded does not hold.  First, the scores are doubles: after
    eight calls each, [A] (no success, half a second per call) and [B]
    (two successes, three seconds per call) have the same score 9/25 by
    the formula, so that [A], registered first, should come first; the
    code computes 0.36 for [A] and the next double above it for [B] and
    returns [B] first.  Second, the time score is 1 for a mean latency
    that is not positive: after a call during which the clock was set
    back by half a second the formula gives [A] the score 1.12 and ranks
    it above [B] (0.84), while the code gives it 0.82 and returns [B]
    first. *)
Lemma select_by_performance_differs_from_formula :
  od_keys (tools rounding_registry) = ["A"; "B"]
  /\ map (fun entry => Qred (spec_performance_score (snd entry)))
       (tools rounding_registry)
     = [9 # 25; 9 # 25]%Q
  /\ _select_by_performance rounding_registry "EC2 instance slow"
       sample_context 2
     = ["B"; "A"]
  /\ map fst
       (sort_desc (fun entry => spec_performance_score (snd entry))
          (tools clock_step_registry))
     = ["A"; "B"]
  /\ _select_by_performance clock_step_registry "EC2 instance slow"
       sample_context 2
     = ["B"; "A"].
Proof.
  repeat split; vm_compute; reflexivity.
Qed.

(** ** Selection returns registered tools only *)

Lemma float_of_nat_nonneg (n : nat) : (0 <= float_of_nat n)%Q.
Proof.
  unfold float_of_nat. change 0%Q with (inject_Z 0).
  rewrite <- Zle_Qle. lia.
Qed.

(** Mean latencies stay non-negative as long as the measured durations
    are. *)
Lemma update_metrics_latency_nonneg (success : bool) (rt now : Q)
    (t : BaseTool) :
  (0 <= rt)%Q ->
  (0 <= md_average_response_time (metadata t))%Q ->
  (0 <= md_average_response_time
          (metadata (update_metrics success rt now t)))%Q.
Proof.
  intros Hrt Hold. simpl.
  destruct (md_usage_count (metadata t)) as [|n]; simpl; [exact Hrt|].
  unfold Qdiv. apply Qmult_le_0_compat.
  - rewrite <- (Qplus_0_r 0). apply Qplus_le_compat; [|exact Hrt].
    apply Qmult_le_0_compat; [exact Hold|apply float_of_nat_nonneg].
  - apply Qinv_le_0_compat, float_of_nat_nonneg.
Qed.

Lemma od_keys_set {V : Type} (k k' : string) (v : V) (d : odict V) :
  In k' (od_keys (od_set k v d)) -> k' = k \/ In k' (od_keys d).
Proof.
  induction d as [|[k0 v0] d IH]; simpl.
  - intros [<-|[]]. now left.
  - destruct (String.eqb k k0) eqn:E; simpl.
    + apply String.eqb_eq in E. subst k0. tauto.
    + intros [H|H]; [tauto|]. destruct (IH H); tauto.
Qed.

Lemma od_set_In {V : Type} (k : string) (v : V) (d : odict V)
    (entry : string * V) :
  In entry (od_set k v d) -> entry = (k, v) \/ In entry d.
Proof.
  induction d as [|[k0 v0] d IH]; simpl.
  - intros [<-|[]]. now left.
  - destruct (String.eqb k k0); simpl.
    + intros [<-|H]; tauto.
    + intros [H|H]; [tauto|]. destruct (IH H); tauto.
Qed.

Lemma od_set_NoDup {V : Type} (k : string) (v : V) (d : odict V) :
  NoDup (od_keys d) -> NoDup (od_keys (od_set k v d)).
Proof.
  induction d as [|[k0 v0] d IH]; simpl; intros Hnd.
  - apply NoDup_singleton.
  - apply NoDup_cons in Hnd as [Hk Hnd].
    destruct (String.eqb k k0) eqn:E; simpl.
    + apply String.eqb_eq in E. subst k0. now apply NoDup_cons.
    + apply NoDup_cons. split; [|auto].
      intros Hin. apply list_elem_of_In, od_keys_set in Hin.
      destruct Hin as [->|Hin].
      * now rewrite String.eqb_refl in E.
      * now apply Hk, list_elem_of_In.
Qed.

Lemma od_del_In {V : Type} (k : string) (d : odict V) (entry : string * V) :
  In entry (od_del k d) -> In entry d.
Proof.
  induction d as [|[k0 v0] d IH]; simpl; [tauto|].
  destruct (String.eqb k k0); simpl; [tauto|].
  intros [H|H]; auto.
Qed.

(** The registry operations keep the latencies non-negative, as long as
    the clock does not run backwards. *)
Lemma register_tool_latencies (tool : BaseTool) (reg : ToolRegistry) :
  (0 <= md_average_response_time (metadata tool))%Q ->
  latencies_nonneg reg -> latencies_nonneg (fst (register_tool tool reg)).
Proof.
  unfold latencies_nonneg. intros Htool Hreg. simpl.
  rewrite Forall_forall in Hreg |- *. intros entry Hin.
  apply list_elem_of_In, od_set_In in Hin as [->|Hin]; [exact Htool|].
  now apply Hreg, list_elem_of_In.
Qed.

Lemma unregister_tool_latencies (tool_name : string) (reg : ToolRegistry) :
  latencies_nonneg reg ->
  latencies_nonneg (fst (unregister_tool tool_name reg)).
Proof.
  unfold latencies_nonneg, unregister_tool. intros Hreg.
  destruct (od_get tool_name (tools reg)); [|exact Hreg]. simpl.
  rewrite Forall_forall in Hreg |- *. intros entry Hin.
  apply list_elem_of_In, od_del_In in Hin. now apply Hreg, list_elem_of_In.
Qed.

Lemma execute_tool_latencies (tool_name q : string) (ctx : QueryContext)
    (t0 t1 : Q) (reg : ToolRegistry) :
  (t0 <= t1)%Q ->
  latencies_nonneg reg ->
  latencies_nonneg (fst (execute_tool tool_name q ctx t0 t1 reg)).
Proof.
  intros Hclock Hreg.
  assert (Hrt : (0 <= t1 - t0)%Q)
    by (unfold Qminus; rewrite <- Qle_minus_iff; exact Hclock).
  assert (Hupd : forall tool success msg,
            od_get tool_name (tools reg) = Some tool ->
            latencies_nonneg
              (_update_performance_tracking tool_name success (t1 - t0)%Q t1
                 msg
                 (update_tool_metrics tool_name tool success (t1 - t0)%Q t1
                    reg))).
  { intros tool success msg Hget. unfold latencies_nonneg in *.
    rewrite tools_update_performance_tracking. simpl.
    rewrite Forall_forall in Hreg |- *. intros entry Hin.
    apply list_elem_of_In, od_set_In in Hin as [->|Hin].
    - apply update_metrics_latency_nonneg; [exact Hrt|].
      apply (Hreg (tool_name, tool)).
      now apply list_elem_of_In, od_get_In.
    - now apply Hreg, list_elem_of_In. }
  unfold execute_tool.
  destruct (od_get tool_name (tools reg)) as [tool|] eqn:Hget; [|exact Hreg].
  destruct (validate_input tool q ctx); simpl; [|exact Hreg].
  destruct (execute tool q ctx); simpl; now apply Hupd.
Qed.

Lemma od_del_NoDup {V : Type} (k : string) (d : odict V) :
  NoDup (od_keys d) -> NoDup (od_keys (od_del k d)).
Proof.
  induction d as [|[k0 v0] d IH]; simpl; intros Hnd; [exact Hnd|].
  apply NoDup_cons in Hnd as [Hk Hnd].
  destruct (String.eqb k k0); simpl; [exact Hnd|].
  apply NoDup_cons. split; [|auto].
  intros Hin. apply Hk.
  apply list_elem_of_In in Hin. apply list_elem_of_In.
  apply in_map_iff in Hin as (entry & Hfst & Hin).
  apply in_map_iff. exists entry. split; [exact Hfst|].
  now apply od_del_In in Hin.
Qed.

Lemma od_del_not_key {V : Type} (k : string) (d : odict V) :
  NoDup (od_keys d) -> ~ In k (od_keys (od_del k d)).
Proof.
  induction d as [|[k0 v0] d IH]; simpl; intros Hnd; [tauto|].
  apply NoDup_cons in Hnd as [Hk Hnd].
  destruct (String.eqb k k0) eqn:E; simpl.
  - apply String.eqb_eq in E. subst k0.
    intros Hin. now apply Hk, list_elem_of_In.
  - intros [->|Hin]; [now rewrite String.eqb_refl in E|].
    now apply (IH Hnd).
Qed.

Lemma od_get_None_not_key {V : Type} (k : string) (d : odict V) :
  od_get k d = None -> ~ In k (od_keys d).
Proof.
  induction d as [|[k0 v0] d IH]; simpl; [tauto|].
  destruct (String.eqb k k0) eqn:E; [discriminate|].
  intros Hget [->|Hin]; [now rewrite String.eqb_refl in E|].
  now apply IH.
Qed.

(** Both registry operations keep the tool map well formed. *)
Lemma register_tool_wf (tool : BaseTool) (reg : ToolRegistry) :
  tool_map_wf reg -> tool_map_wf (fst (register_tool tool reg)).
Proof.
  intros [Hnd Hnames]. split; simpl.
  - now apply od_set_NoDup.
  - rewrite Forall_forall in Hnames |- *. intros entry Hin.
    apply list_elem_of_In, od_set_In in Hin as [->|Hin]; [reflexivity|].
    now apply Hnames, list_elem_of_In.
Qed.

Lemma unregister_tool_wf (tool_name : string) (reg : ToolRegistry) :
  tool_map_wf reg -> tool_map_wf (fst (unregister_tool tool_name reg)).
Proof.
  intros [Hnd Hnames]. unfold unregister_tool.
  destruct (od_get tool_name (tools reg)); [|now split].
  split; simpl.
  - now apply od_del_NoDup.
  - rewrite Forall_forall in Hnames |- *. intros entry Hin.
    apply list_elem_of_In, od_del_In in Hin.
    now apply Hnames, list_elem_of_In.
Qed.

Lemma category_scan_names (q : string) (ctx : QueryContext) (k : Z)
    (category_tools : list BaseTool) (selected : list string) (n : string) :
  In n (category_scan q ctx k category_tools selected) ->
  In n selected \/ exists t, In t category_tools /\ n = name t.
Proof.
  revert selected.
  induction category_tools as [|t rest IH]; intros selected; simpl; [tauto|].
  destruct (k <=? Z.of_nat (length selected))%Z; [tauto|].
  intros H. apply IH in H as [H|(t' & Ht' & ->)].
  - destruct (validate_input t q ctx); [|tauto].
    apply in_app_or in H as [H|[<-|[]]]; [tauto|]. right. exists t. auto.
  - right. exists t'. auto.
Qed.

Lemma get_tools_by_category_In (cat : string) (reg : ToolRegistry)
    (t : BaseTool) :
  In t (get_tools_by_category cat reg) ->
  exists key, In (key, t) (tools reg).
Proof.
  unfold get_tools_by_category. intros H.
  apply list_elem_of_In, list_elem_of_omap in H as (key & _ & Hget).
  exists key. now apply od_get_In.
Qed.

Lemma select_by_category_registered (reg : ToolRegistry) (q : string)
    (ctx : QueryContext) (k : Z) (n : string) :
  tool_map_wf reg ->
  In n (_select_by_category reg q ctx k) -> In n (od_keys (tools reg)).
Proof.
  intros [_ Hnames]. unfold _select_by_category. intros H.
  apply py_slice_to_incl in H. revert H.
  generalize (default ["search"; "general"]
                (category_mapping (member_value (query_type ctx)))).
  intros cats.
  assert (Hgen : forall selected,
            In n (fold_left
                    (fun selected cat =>
                       category_scan q ctx k (get_tools_by_category cat reg)
                         selected) cats selected) ->
            In n selected \/ In n (od_keys (tools reg))).
  { induction cats as [|cat cats IH]; intros selected; simpl; [tauto|].
    intros H. apply IH in H as [H|H]; [|tauto].
    apply category_scan_names in H as [H|(t & Ht & ->)]; [tauto|].
    right. apply get_tools_by_category_In in Ht as (key & Hin).
    rewrite Forall_forall in Hnames.
    assert (Hkey : key = name t)
      by (apply (Hnames (key, t)); now apply list_elem_of_In).
    rewrite <- Hkey. change key with (fst (key, t)). now apply in_map. }
  intros H. apply Hgen in H as [[]|H]. exact H.
Qed.

Lemma add_positional_keys (w : float) (k : Z) (i : nat) (names : list string)
    (scores : odict float) (n : string) :
  In n (od_keys (add_positional w k i names scores)) ->
  In n names \/ In n (od_keys scores).
Proof.
  revert i scores.
  induction names as [|x names IH]; intros i scores; simpl; [tauto|].
  intros H. apply IH in H as [H|H]; [tauto|].
  apply od_keys_set in H as [->|H]; tauto.
Qed.

(** Every strategy returns keys of the tool map only. *)
Lemma select_tools_registered (reg : ToolRegistry) (q : string)
    (ctx : QueryContext) (strategy : string) (k : Z) (n : string) :
  tool_map_wf reg ->
  In n (select_tools reg q ctx strategy k) -> In n (od_keys (tools reg)).
Proof.
  intros Hwf.
  assert (Hscored : In n (_select_by_performance reg q ctx k)
                    \/ In n (_select_by_relevance reg q ctx k) ->
                    In n (od_keys (tools reg))).
  { intros H.
    apply scored_strategies_return_validated in H as (tool & Hin & _).
    change n with (fst (n, tool)). now apply in_map. }
  unfold select_tools.
  destruct (String.eqb strategy "performance"); [auto|].
  destruct (String.eqb strategy "category");
    [now apply select_by_category_registered|].
  destruct (String.eqb strategy "relevance"); [auto|].
  unfold _select_hybrid. intros H.
  apply in_map_iff in H as (entry & <- & H).
  apply py_slice_to_incl in H.
  apply (Permutation_in _ (sort_desc_perm _ _)) in H.
  apply (in_map fst) in H. fold (od_keys (V:=Q)) in H.
  apply add_positional_keys in H as [H|H]; [auto|].
  apply add_positional_keys in H as [H|H];
    [now apply (select_by_category_registered reg q ctx k)|].
  apply add_positional_keys in H as [H|[]]. auto.
Qed.

(** Once a name has been unregistered, no strategy returns it. *)
Lemma unregistered_tool_not_selected (reg : ToolRegistry)
    (tool_name q : string) (ctx : QueryContext) (strategy : string)
    (k : Z) :
  tool_map_wf reg ->
  ~ In tool_name
      (select_tools (fst (unregister_tool tool_name reg)) q ctx strategy k).
Proof.
  intros Hwf Hin.
  apply select_tools_registered in Hin; [|now apply unregister_tool_wf].
  revert Hin. unfold unregister_tool.
  destruct (od_get tool_name (tools reg)) eqn:E; simpl.
  - apply od_del_not_key, Hwf.
  - now apply od_get_None_not_key.
Qed.

(** ** The orchestration loop *)

Section OrchestratorFacts.

Variable tool_registry : ToolRegistry.
Variable task_timeout : Q.
Variable confidence_threshold : Q.
Variable max_iterations : nat.
Variable assess_results : nat -> string -> odict ToolOutcome -> Q.
Variable calculate_confidence :
  nat -> string -> string -> list ResultRecord -> Q.
Variable identify_missing_information :
  nat -> string -> odict ToolOutcome -> list string.
Variable translate_from_english : string -> string -> string.
Variable completion_time : nat -> string -> Q.

Local Abbreviation run_batch :=
  (_execute_tools_parallel tool_registry task_timeout completion_time).
Local Abbreviation candidate :=
  (_synthesize_response calculate_confidence translate_from_english).
Local Abbreviation refine := (_refine_query identify_missing_information).
Local Abbreviation body :=
  (loop_body tool_registry task_timeout confidence_threshold assess_results
     calculate_confidence identify_missing_information
     translate_from_english completion_time).
Local Abbreviation loop :=
  (while_loop tool_registry task_timeout confidence_threshold assess_results
     calculate_confidence identify_missing_information
     translate_from_english completion_time).
Local Abbreviation processing_loop :=
  (_iterative_processing_loop tool_registry task_timeout
     confidence_threshold max_iterations assess_results
     calculate_confidence identify_missing_information
     translate_from_english completion_time).
Local Abbreviation fallback := (_create_fallback_response translate_from_english).

(** The best response kept by a non-accepting iteration. *)
Local Abbreviation keep_best old quality response :=
  (match old with
   | None => Some response
   | Some b =>
       if Qlt_le_dec (confidence b) quality then Some response else Some b
   end).

(** The four ways through the loop body. *)
Lemma loop_body_cases (st : LoopState) :
  let it := S (iteration st) in
  let ctx := context st in
  (exists e,
     snd (run_batch it ctx (_select_tools ctx)) = Raised e
     /\ body st
        = ({| iteration := it; best_response := best_response st;
              context := ctx |}, Some (Faulted e)))
  \/ (exists results e,
        snd (run_batch it ctx (_select_tools ctx)) = Returned results
        /\ candidate it ctx results = Raised e
        /\ body st
           = ({| iteration := it; best_response := best_response st;
                 context := ctx |}, Some (Faulted e)))
  \/ (exists results response,
        snd (run_batch it ctx (_select_tools ctx)) = Returned results
        /\ candidate it ctx results = Returned response
        /\ (confidence_threshold <= assess_results it (query ctx) results)%Q
        /\ body st
           = ({| iteration := it; best_response := best_response st;
                 context := ctx |},
              Some (Accepted response)))
  \/ (exists results response,
        snd (run_batch it ctx (_select_tools ctx)) = Returned results
        /\ candidate it ctx results = Returned response
        /\ (assess_results it (query ctx) results < confidence_threshold)%Q
        /\ body st
           = ({| iteration := it;
                 best_response :=
                   keep_best (best_response st)
                     (assess_results it (query ctx) results) response;
                 context := set_query ctx (refine it ctx results) |},
              None)).
Proof.
  intros it ctx. unfold loop_body. fold it ctx.
  destruct (snd (run_batch it ctx (_select_tools ctx))) as [results|e];
    [|left; exists e; auto].
  right.
  destruct (candidate it ctx results) as [response|e] eqn:Ec;
    [|left; exists results, e; auto].
  right.
  destruct (Qle_bool confidence_threshold
              (assess_results it (query ctx) results)) eqn:E.
  - left. exists results, response. apply Qle_bool_iff in E. auto.
  - right. exists results, response.
    split; [reflexivity|]. split; [exact Ec|]. split; [|reflexivity].
    apply Qnot_le_lt. intros H. apply Qle_bool_iff in H. congruence.
Qed.

Lemma loop_body_iteration (st : LoopState) :
  iteration (fst (body st)) = S (iteration st).
Proof.
  destruct (loop_body_cases st)
    as [(e & _ & ->)|[(r & e & _ & _ & ->)|[(r & c & _ & _ & _ & ->)
        |(r & c & _ & _ & _ & ->)]]]; reflexivity.
Qed.

Lemma loop_body_frame (st : LoopState) :
  same_except_query (context (fst (body st))) (context st).
Proof.
  destruct (loop_body_cases st)
    as [(e & _ & ->)|[(r & e & _ & _ & ->)|[(r & c & _ & _ & _ & ->)
        |(r & c & _ & _ & _ & ->)]]];
    repeat split; reflexivity.
Qed.

Lemma same_except_query_trans (c1 c2 c3 : QueryContext) :
  same_except_query c1 c2 -> same_except_query c2 c3 ->
  same_except_query c1 c3.
Proof.
  unfold same_except_query. intros H1 H2.
  decompose [and] H1. decompose [and] H2. repeat split; congruence.
Qed.

Lemma while_loop_frame (budget : nat) (st : LoopState) :
  same_except_query (context (fst (loop budget st))) (context st).
Proof.
  revert st. induction budget as [|b IH]; intros st; simpl.
  - repeat split; reflexivity.
  - pose proof (loop_body_frame st) as Hb.
    destruct (body st) as [st' [exit|]]; simpl in *; [exact Hb|].
    eapply same_except_query_trans; [apply IH|exact Hb].
Qed.

Lemma while_loop_exhausted (budget : nat) (st st' : LoopState) :
  loop budget st = (st', Exhausted) ->
  iteration st' = iteration st + budget.
Proof.
  revert st. induction budget as [|b IH]; intros st; simpl.
  - intros [= <-]. lia.
  - pose proof (loop_body_iteration st) as Hit.
    destruct (loop_body_cases st)
      as [(e & _ & Hb)|[(r & e & _ & _ & Hb)|[(r & c & _ & _ & _ & Hb)
          |(r & c & _ & _ & _ & Hb)]]];
      rewrite Hb in *; simpl in *; try discriminate.
    intros H. apply IH in H. simpl in H. lia.
Qed.

Lemma while_loop_iteration_le (budget : nat) (st : LoopState) :
  iteration (fst (loop budget st)) <= iteration st + budget.
Proof.
  revert st. induction budget as [|b IH]; intros st; simpl; [lia|].
  pose proof (loop_body_iteration st) as Hit.
  destruct (body st) as [st1 [exit|]]; simpl in *; [lia|].
  specialize (IH st1). lia.
Qed.

(** An accepting exit happened in the iteration the loop stopped in. *)
Lemma while_loop_accepted (budget : nat) (st st' : LoopState)
    (r : AgentResponse) :
  loop budget st = (st', Accepted r) ->
  exists results,
    snd (run_batch (iteration st') (context st')
           (_select_tools (context st'))) = Returned results
    /\ (confidence_threshold
        <= assess_results (iteration st') (query (context st')) results)%Q
    /\ candidate (iteration st') (context st') results = Returned r.
Proof.
  revert st. induction budget as [|b IH]; intros st; simpl; [discriminate|].
  destruct (loop_body_cases st)
    as [(e & _ & Hb)|[(res & e & _ & _ & Hb)
        |[(res & c & Hres & Hc & Hq & Hb)|(res & c & _ & _ & _ & Hb)]]];
    rewrite Hb; simpl.
  - discriminate.
  - discriminate.
  - intros [= <- <-]. simpl. exists res. auto.
  - apply IH.
Qed.

Lemma select_tools_table (ctx : QueryContext) :
  _select_tools ctx
  = fixed_selection
      (default true (user_preferences ctx !! "web_search_enabled"))
      (query_type ctx).
Proof.
  unfold _select_tools, fixed_selection.
  destruct (default true (user_preferences ctx !! "web_search_enabled")),
    (query_type ctx) as [[]|[]]; reflexivity.
Qed.

Lemma append_nonempty (a : ascii) (s t : string) : String a s +:+ t <> "".
Proof. simpl. discriminate. Qed.

Lemma generate_response_content_nonempty (ctx : QueryContext)
    (results : list ResultRecord) :
  _generate_response_content ctx results <> "".
Proof.
  unfold _generate_response_content.
  destruct results as [|r results]; [apply append_nonempty|].
  destruct (query_type ctx) as [[]|[]]; apply append_nonempty.
Qed.

Section ResponseContent.

Hypothesis translation_nonempty :
  forall text lang, text <> "" -> translate_from_english text lang <> "".

Lemma candidate_content_nonempty (it : nat) (ctx : QueryContext)
    (results : odict ToolOutcome) (response : AgentResponse) :
  candidate it ctx results = Returned response -> content response <> "".
Proof.
  unfold _synthesize_response.
  destruct (combine_results results [] []) as [[combined all_sources]|e];
    [|discriminate].
  match goal with
  | |- match ?reranked with _ => _ end = _ -> _ =>
      destruct reranked as [combined'|e]; [|discriminate]
  end.
  intros [= <-]. simpl.
  destruct (String.eqb (language ctx) "en");
    [|apply translation_nonempty]; apply generate_response_content_nonempty.
Qed.

Lemma fallback_content_nonempty (ctx : QueryContext) :
  content (fallback ctx) <> "".
Proof.
  unfold _create_fallback_response. simpl.
  destruct (String.eqb (language ctx) "en");
    [|apply translation_nonempty]; apply append_nonempty.
Qed.

(** Every best response the loop holds is a candidate it synthesized. *)
Lemma while_loop_best_nonempty (budget : nat) (st : LoopState) :
  (forall b, best_response st = Some b -> content b <> "") ->
  forall b, best_response (fst (loop budget st)) = Some b -> content b <> "".
Proof.
  revert st. induction budget as [|n IH]; intros st Hst; simpl; [exact Hst|].
  destruct (loop_body_cases st)
    as [(e & _ & Hb)|[(res & e & _ & _ & Hb)
        |[(res & c & _ & _ & _ & Hb)|(res & c & _ & Hc & _ & Hb)]]];
    rewrite Hb; simpl; try exact Hst.
  apply IH. simpl. intros b.
  destruct (best_response st) as [old|] eqn:Eold.
  - destruct (Qlt_le_dec _ _); intros [= <-];
      [exact (candidate_content_nonempty _ _ _ _ Hc)|now apply Hst].
  - intros [= <-]. exact (candidate_content_nonempty _ _ _ _ Hc).
Qed.

End ResponseContent.

(** After a non-accepting iteration a best response is always held. *)
Lemma while_loop_best_set (budget : nat) (st st' : LoopState) :
  loop budget st = (st', Exhausted) ->
  0 < budget \/ best_response st <> None ->
  best_response st' <> None.
Proof.
  revert st. induction budget as [|n IH]; intros st; simpl.
  - intros [= <-] [H|H]; [lia|exact H].
  - destruct (loop_body_cases st)
      as [(e & _ & Hb)|[(res & e & _ & _ & Hb)
          |[(res & c & _ & _ & _ & Hb)|(res & c & _ & _ & _ & Hb)]]];
      rewrite Hb; simpl; try discriminate.
    intros H _. apply (IH _ H). right. simpl.
    destruct (best_response st); [destruct (Qlt_le_dec _ _)|]; discriminate.
Qed.

Lemma append_nonempty_l (s t : string) : s <> "" -> s +:+ t <> "".
Proof. destruct s; [congruence|]. intros _. apply append_nonempty. Qed.

Lemma finalize_response_content (r : AgentResponse) (ctx : QueryContext) :
  content r <> "" -> content (_finalize_response r ctx) <> "".
Proof.
  intros Hr. unfold _finalize_response.
  destruct (default false (user_preferences ctx !! "detailed_responses"));
    destruct (Qlt_le_dec _ _); simpl; auto;
    repeat apply append_nonempty_l; exact Hr.
Qed.

(** Collaborators and configuration that only [process_query] uses. *)
Variable domain_relevance_threshold : Q.
Variable detect_language : string -> string.
Variable translate_to_english : string -> string -> string.
Variable classify_query_type : string -> DomainRelevanceChecker.QueryType.
Variable calculate_relevance_score : string -> Q.
Variable calculate_query_confidence : string -> Q.
Variable get_session_history : string -> string -> list string.
Variable get_user_preferences : string -> gmap string bool.

Local Abbreviation handle_query :=
  (process_query tool_registry task_timeout confidence_threshold
     max_iterations assess_results calculate_confidence
     identify_missing_information translate_from_english completion_time
     domain_relevance_threshold detect_language translate_to_english
     classify_query_type calculate_relevance_score
     calculate_query_confidence get_session_history get_user_preferences).
Local Abbreviation build_context :=
  (_build_query_context translate_to_english classify_query_type
     calculate_relevance_score calculate_query_confidence
     get_session_history get_user_preferences).

(** C1, as amended.  The SELECT step does not consult the registry.  In
    every iteration the names handed to the executor are those of a fixed
    table indexed by the [web_search_enabled] preference and the query
    type of the context; refining the query does not change them, so
    every iteration of a run selects the same names as the first.  The
    two names the table adds for a troubleshooting, comparison or
    performance query are added only when the context holds a member of
    the orchestrator's own enumeration; the context [process_query]
    builds holds a member of the domain checker's enumeration, and for
    it the selection is [vector_search], [web_search] unless switched
    off, and [rerank]. *)
Theorem select_step_uses_fixed_table (budget : nat) (st : LoopState) :
  _select_tools (context st)
  = fixed_selection
      (default true
         (user_preferences (context st) !! "web_search_enabled"))
      (query_type (context st))
  /\ (forall q, _select_tools (set_query (context st) q)
                = _select_tools (context st))
  /\ _select_tools (context (fst (loop budget st)))
     = _select_tools (context st)
  /\ (forall t,
        query_type (context st) = CheckerQueryType t ->
        _select_tools (context st)
        = if default true
               (user_preferences (context st) !! "web_search_enabled")
          then ["vector_search"; "web_search"; "rerank"]
          else ["vector_search"; "rerank"])
  /\ (forall uid tid q lang,
        query_type (build_context uid tid q lang)
        = CheckerQueryType
            (classify_query_type (query (build_context uid tid q lang)))
        /\ _select_tools
             (context (fst (loop budget
                              (initial_state
                                 (build_context uid tid q lang)))))
           = if default true (get_user_preferences uid
                              !! "web_search_enabled")
             then ["vector_search"; "web_search"; "rerank"]
             else ["vector_search"; "rerank"]).
Proof.
  assert (Hloop : forall st0,
            _select_tools (context (fst (loop budget st0)))
            = _select_tools (context st0)).
  { intros st0. rewrite !select_tools_table.
    destruct (while_loop_frame budget st0)
      as (_ & _ & _ & Hq & _ & _ & _ & Hp).
    now rewrite Hq, Hp. }
  split; [apply select_tools_table|]. split; [reflexivity|].
  split; [apply Hloop|]. split.
  - intros t Ht. rewrite select_tools_table, Ht.
    now destruct (default true _).
  - intros uid tid q lang. split; [reflexivity|].
    rewrite Hloop, select_tools_table. simpl.
    now destruct (default true _).
Qed.

(** C4. When the loop has gone through all [max_iterations] iterations
    without accepting, it returns the best response if one is held and
    the fallback response otherwise; a best response is missing only for
    an iteration budget of 0.  The fallback carries the fixed
    clarification text (translated for a language other than English),
    confidence 0.3 and the clarification flag.  Whatever the tools did,
    every response the loop returns has a non-empty content, and so has
    every response [process_query] hands to its caller, also when the
    loop was left through a fault.  The translator is assumed not to map
    a text to the empty string. *)
Theorem exhaustion_returns_best_or_fallback (ctx : QueryContext) :
  (forall text lang, text <> "" -> translate_from_english text lang <> "") ->
  (forall st,
     loop max_iterations (initial_state ctx) = (st, Exhausted) ->
     iteration st = max_iterations
     /\ processing_loop ctx
        = (st,
           Returned
             match best_response st with
             | Some b => b
             | None => fallback (context st)
             end)
     /\ (best_response st = None <-> max_iterations = 0))
  /\ (forall c,
        confidence (fallback c) = 0.3%Q
        /\ requires_clarification (fallback c) = true
        /\ sources (fallback c) = []
        /\ content (fallback c)
           = let text :=
               "I'm having difficulty providing a comprehensive answer to your query. "
               +:+ "Could you please provide more specific details about your cloud service issue?" in
             if String.eqb (language c) "en" then text
             else translate_from_english text (language c))
  /\ (forall st r,
        processing_loop ctx = (st, Returned r) -> content r <> "")
  /\ (forall uid tid q lang elapsed,
        content (fst (handle_query uid tid q lang elapsed)) <> "").
Proof.
  intros Htr.
  assert (Hloop_content : forall c st r,
            processing_loop c = (st, Returned r) -> content r <> "").
  { intros c st r. unfold _iterative_processing_loop.
    destruct (loop max_iterations (initial_state c)) as [st' exit] eqn:E.
    destruct exit as [r'| |e]; intros [= <- Hr]; subst.
    - destruct (while_loop_accepted _ _ _ _ E) as (results & _ & _ & Hc).
      exact (candidate_content_nonempty Htr _ _ _ _ Hc).
    - destruct (best_response st') as [b|] eqn:Eb.
      + pose proof (while_loop_best_nonempty Htr max_iterations
                      (initial_state c)) as Hinv.
        rewrite E in Hinv. simpl in Hinv.
        apply Hinv; [discriminate|exact Eb].
      + now apply fallback_content_nonempty. }
  split; [|split; [|split]].
  - intros st Hloop. split; [|split].
    + apply while_loop_exhausted in Hloop. simpl in Hloop. lia.
    + unfold _iterative_processing_loop. rewrite Hloop. reflexivity.
    + split.
      * intros Hnone. destruct max_iterations as [|m]; [reflexivity|].
        exfalso.
        apply (while_loop_best_set _ _ _ Hloop); [left; lia|exact Hnone].
      * intros Hz. rewrite Hz in Hloop. simpl in Hloop.
        now injection Hloop as <-.
  - intros c. repeat split; reflexivity.
  - apply Hloop_content.
  - intros uid tid q lang elapsed. unfold process_query.
    destruct (Qlt_le_dec _ _).
    + unfold _handle_irrelevant_query. simpl.
      destruct (String.eqb _ "en");
        [|apply Htr]; apply append_nonempty.
    + destruct (processing_loop _) as [st [r|e]] eqn:E; simpl.
      * apply finalize_response_content. now apply (Hloop_content _ _ _ E).
      * destruct (String.eqb _ "en");
          [|apply Htr]; apply append_nonempty.
Qed.

(** C9, as amended.  The loop writes to the context object it was given:
    an iteration that neither accepts nor faults ends by overwriting the
    [query] attribute with the refined query (the old query, a space, the
    missing aspects joined by spaces), after the batch of that iteration
    has completed.  No other attribute is ever written, and an iteration
    that accepts or faults leaves the object as it was. *)
Theorem loop_rewrites_only_the_query (budget : nat) (st : LoopState) :
  same_except_query (context (fst (loop budget st))) (context st)
  /\ (forall st',
        body st = (st', None) ->
        exists results,
          snd (run_batch (S (iteration st)) (context st)
                 (_select_tools (context st))) = Returned results
          /\ context st'
             = set_query (context st)
                 (query (context st) +:+ " "
                  +:+ String.concat " "
                        (identify_missing_information (S (iteration st))
                           (query (context st)) results)))
  /\ (forall st' exit,
        body st = (st', Some exit) -> context st' = context st).
Proof.
  split; [apply while_loop_frame|].
  destruct (loop_body_cases st)
    as [(e & _ & Hb)|[(res & e & _ & _ & Hb)
        |[(res & c & Hr & _ & _ & Hb)|(res & c & Hr & _ & _ & Hb)]]];
    rewrite Hb; split.
  - discriminate.
  - now intros st' exit [= <- _].
  - discriminate.
  - now intros st' exit [= <- _].
  - discriminate.
  - now intros st' exit [= <- _].
  - intros st' [= <-]. exists res. split; [exact Hr|reflexivity].
  - discriminate.
Qed.

(** A value of the result map that is not a dict makes the synthesis
    raise. *)
Lemma combine_results_raises (results : odict ToolOutcome)
    (tool_name : string) (o : ToolOutcome)
    (combined : list ResultRecord) (all_sources : list string) :
  In (tool_name, o) results ->
  outcome_dict o = None ->
  exists e, combine_results results combined all_sources = Raised e.
Proof.
  revert combined all_sources.
  induction results as [|[n o'] results IH]; intros combined all_sources;
    [intros []|].
  intros [[= -> ->]|Hin] Hnone; simpl.
  - unfold outcome_success. rewrite Hnone. eauto.
  - destruct (outcome_success o') as [[|]|e]; eauto.
Qed.

(** C6.  An iteration whose quality score reaches the threshold returns
    its candidate at once only if the candidate can be synthesized, and
    the synthesis calls [.get] on every value of the result map before
    the threshold is looked at: when a value is not a dict the loop is
    left through the fault instead, whatever the score.  The values are
    what the un-awaited calls of [tool.execute] returned, so with tools
    whose [execute] is a coroutine function, as [BaseTool] declares it
    and every tool of the repository defines it, each value is a
    coroutine: with an assessor answering 0.9 and a threshold of 0.8 the
    loop faults in its first iteration and [process_query] answers with
    the error response; the same run over tools with plain [execute]
    functions returns the first candidate.  What does hold: a response
    the loop returns is an accepted candidate or comes after
    [max_iterations] iterations. *)
Theorem accepting_iteration_needs_dict_results (ctx : QueryContext) :
  (forall st results budget,
     snd (run_batch (S (iteration st)) (context st)
            (_select_tools (context st))) = Returned results ->
     (confidence_threshold
      <= assess_results (S (iteration st)) (query (context st)) results)%Q ->
     loop (S budget) st
     = ({| iteration := S (iteration st);
           best_response := best_response st;
           context := context st |},
        match candidate (S (iteration st)) (context st) results with
        | Returned response => Accepted response
        | Raised e => Faulted e
        end))
  /\ (forall it c results tool_name o,
        In (tool_name, o) results ->
        outcome_dict o = None ->
        exists e, candidate it c results = Raised e)
  /\ (forall st r,
        processing_loop ctx = (st, Returned r) ->
        (exists results,
           snd (run_batch (iteration st) (context st)
                  (_select_tools (context st))) = Returned results
           /\ (confidence_threshold
               <= assess_results (iteration st) (query (context st))
                    results)%Q
           /\ candidate (iteration st) (context st) results = Returned r
           /\ iteration st <= max_iterations)
        \/ (iteration st = max_iterations
            /\ loop max_iterations (initial_state ctx) = (st, Exhausted)))
  /\ snd (_execute_tools_parallel async_registry default_task_timeout
            prompt_completion 1 sample_context
            (_select_tools sample_context))
     = Returned [("vector_search", ToolReturned Coroutine);
                 ("rerank", ToolReturned Coroutine)]
  /\ repository_loop
     = ({| iteration := 1; best_response := None;
           context := sample_context |},
        Raised "'coroutine' object has no attribute 'get'")
  /\ repository_process_query "EC2 instance slow"
     = (_create_error_response no_translation
          "'coroutine' object has no attribute 'get'" "en", None)
  /\ (exists response,
        sample_loop (constant_assessor 0.9%Q) sample_confidence
          prompt_completion sample_context
        = ({| iteration := 1; best_response := None;
              context := sample_context |}, Returned response)
        /\ confidence response = 0.2%Q).
Proof.
  split; [|split; [|split]].
  - intros st results budget Hres Hq. simpl.
    destruct (loop_body_cases st)
      as [(e & He & _)|[(res & e & Hr & Hc & Hb)
          |[(res & c & Hr & Hc & _ & Hb)|(res & c & Hr & _ & Hlt & _)]]].
    + congruence.
    + assert (res = results) by congruence. subst res.
      rewrite Hb, Hc. reflexivity.
    + assert (res = results) by congruence. subst res.
      rewrite Hb, Hc. reflexivity.
    + exfalso. assert (res = results) by congruence. subst res.
      now apply (Qlt_not_le _ _ Hlt).
  - intros it c results tool_name o Hin Hnone.
    unfold _synthesize_response.
    destruct (combine_results_raises results tool_name o [] [] Hin Hnone)
      as [e ->].
    now exists e.
  - intros st r. unfold _iterative_processing_loop.
    destruct (loop max_iterations (initial_state ctx)) as [st' exit] eqn:E.
    destruct exit as [r'| |e]; intros [= <- Hr]; subst.
    + left. destruct (while_loop_accepted _ _ _ _ E)
        as (results & H1 & H2 & H3).
      exists results. repeat split; auto.
      pose proof (while_loop_iteration_le max_iterations (initial_state ctx))
        as Hle.
      rewrite E in Hle. simpl in Hle. lia.
    + right. split; [|reflexivity].
      apply while_loop_exhausted in E. simpl in E. lia.
  - split; [vm_compute; reflexivity|].
    split; [vm_compute; reflexivity|].
    split; [vm_compute; reflexivity|].
    eexists. split; vm_compute; reflexivity.
Qed.

End OrchestratorFacts.

(** ** The loop on concrete runs *)

(** C1 as worded does not hold: for a general inquiry the loop hands
    [vector_search], [web_search] and [rerank] to the executor, while the
    registry's hybrid selection over the two registered tools yields
    [vector_search] and [rerank]. *)
Lemma select_step_differs_from_hybrid :
  _select_tools sample_context = ["vector_search"; "web_search"; "rerank"]
  /\ select_tools sample_registry (query sample_context) sample_context
       "hybrid" 5
     = ["vector_search"; "rerank"]
  /\ _select_tools sample_context
     <> select_tools sample_registry (query sample_context) sample_context
          "hybrid" 5.
Proof.
  split; [reflexivity|]. split; [vm_compute; reflexivity|].
  vm_compute. discriminate.
Qed.

(** C2. With a timeout of 30 seconds, [vector_search] finishing after one
    second and [rerank] after 100, [_execute_tools_parallel] does not
    return a result map: control comes back after 100 seconds with the
    [TimeoutError] of [as_completed], the outcome [vector_search] had
    produced is lost with it, and the loop is left through that fault in
    its first iteration.  With both tools on time the same batch yields
    a map with one entry per tool. *)
Theorem execute_tools_parallel_timeout :
  _execute_tools_parallel sample_registry default_task_timeout slow_rerank
    1 sample_context ["vector_search"; "rerank"]
  = (100%Q, Raised "1 (of 2) futures unfinished")
  /\ (exists results,
        _execute_tools_parallel sample_registry default_task_timeout
          prompt_completion 1 sample_context ["vector_search"; "rerank"]
        = (1%Q, Returned results)
        /\ od_keys results = ["vector_search"; "rerank"]
        /\ od_get "rerank" results = Some (ToolError "rerank unavailable"))
  /\ snd (sample_loop (constant_assessor 0.1%Q) sample_confidence
            slow_rerank sample_context)
     = Raised "1 (of 2) futures unfinished"
  /\ iteration
       (fst (sample_loop (constant_assessor 0.1%Q) sample_confidence
               slow_rerank sample_context)) = 1.
Proof.
  split; [vm_compute; reflexivity|]. split.
  - eexists. split; [vm_compute; reflexivity|].
    split; vm_compute; reflexivity.
  - split; vm_compute; reflexivity.
Qed.

(** C3. With an assessor that always answers 0.1, a threshold of 0.8 and
    candidates of confidence 0.2, 0.9 and 0.5 in iterations 1, 2 and 3,
    the loop runs three iterations and returns the candidate of
    confidence 0.2: the second candidate does not replace the first
    although its confidence is higher, because the code compares the
    quality score 0.1 with the stored confidence.  With quality scores
    0.5, 0.2, 0.01 and confidences 0.1, 0.05, 0.9 the loop returns the
    second candidate, which has replaced a first one of higher confidence
    and higher quality score. *)
Theorem best_response_compared_with_quality_score :
  iteration
    (fst (sample_loop (constant_assessor 0.1%Q) sample_confidence
            prompt_completion sample_context)) = 3
  /\ (exists r,
        snd (sample_loop (constant_assessor 0.1%Q) sample_confidence
               prompt_completion sample_context) = Returned r
        /\ confidence r = 0.2%Q)
  /\ iteration
       (fst (sample_loop declining_assessor late_confidence
               prompt_completion sample_context)) = 3
  /\ (exists r,
        snd (sample_loop declining_assessor late_confidence
               prompt_completion sample_context) = Returned r
        /\ confidence r = 0.05%Q).
Proof.
  split; [vm_compute; reflexivity|]. split.
  - eexists. split; vm_compute; reflexivity.
  - split; [vm_compute; reflexivity|].
    eexists. split; vm_compute; reflexivity.
Qed.

Lemma exhaustion_returns_best_or_fallback_witness :
  iteration exhausted_state = 3
  /\ sample_loop (constant_assessor 0.1%Q) sample_confidence
       prompt_completion sample_context
     = (exhausted_state,
        Returned
          match best_response exhausted_state with
          | Some b => b
          | None =>
              _create_fallback_response no_translation
                (context exhausted_state)
          end)
  /\ content (fst (sample_process_query "EC2 instance slow")) <> "".
Proof.
  destruct (exhaustion_returns_best_or_fallback sample_registry
              default_task_timeout default_confidence_threshold
              default_max_iterations (constant_assessor 0.1%Q)
              sample_confidence sample_missing no_translation
              prompt_completion default_domain_relevance_threshold
              (fun _ => "en") no_translation
              (fun _ => DomainRelevanceChecker.GENERAL_INQUIRY)
              (fun _ => 0.9%Q) (fun _ => 0.9%Q) (fun _ _ => [])
              (fun _ => ∅) sample_context)
    as (H1 & _ & _ & H4).
  - intros text lang Htext. exact Htext.
  - destruct (H1 exhausted_state) as (Ha & Hb & _);
      [vm_compute; reflexivity|].
    split; [exact Ha|]. split; [exact Hb|].
    exact (H4 "u1" "t1" "EC2 instance slow" "en" 5%Q).
Defined.

Lemma loop_rewrites_only_the_query_witness :
  same_except_query (context exhausted_state) sample_context.
Proof.
  apply (loop_rewrites_only_the_query sample_registry default_task_timeout
           default_confidence_threshold (constant_assessor 0.1%Q)
           sample_confidence sample_missing no_translation
           prompt_completion default_max_iterations
           (initial_state sample_context)).
Defined.

(** C9 as worded does not hold: after a run of three non-accepting
    iterations the context object handed to the loop holds the refined
    query, and it is this query that [process_query] then stores as the
    user's query. *)
Lemma loop_mutates_context_in_place :
  query (context exhausted_state)
  = "EC2 instance slow latency cpu latency cpu latency cpu"
  /\ context
       (fst (sample_loop (constant_assessor 0.1%Q) sample_confidence
               prompt_completion sample_context)) <> sample_context
  /\ int_query <$> snd (sample_process_query "EC2 instance slow")
     = Some "EC2 instance slow latency cpu latency cpu latency cpu".
Proof.
  split; [vm_compute; reflexivity|]. split.
  - intros H. apply (f_equal query) in H. vm_compute in H. discriminate H.
  - vm_compute. reflexivity.
Qed.

(** * Further properties *)

(** ** The tool map as a dictionary *)

Lemma list_mem_In (x : string) (l : list string) :
  list_mem x l = true <-> In x l.
Proof.
  unfold list_mem. rewrite existsb_exists. split.
  - intros (y & Hy & E). apply String.eqb_eq in E. now subst.
  - intros H. exists x. split; [exact H|apply String.eqb_refl].
Qed.

Lemma list_mem_false (x : string) (l : list string) :
  list_mem x l = false <-> ~ In x l.
Proof.
  rewrite <- list_mem_In. destruct (list_mem x l); split; congruence.
Qed.

Lemma list_remove_first_app (x : string) (l : list string) :
  ~ In x l -> list_remove_first x (l ++ [x]) = l.
Proof.
  induction l as [|y l IH]; simpl; intros Hnin.
  - now rewrite String.eqb_refl.
  - destruct (String.eqb x y) eqn:E.
    + apply String.eqb_eq in E. subst. tauto.
    + rewrite IH; tauto.
Qed.

Lemma od_get_not_key {V : Type} (k : string) (d : odict V) :
  ~ In k (od_keys d) -> od_get k d = None.
Proof.
  induction d as [|[k0 v0] d IH]; simpl; [reflexivity|].
  intros Hnin. destruct (String.eqb k k0) eqn:E.
  - apply String.eqb_eq in E. subst. tauto.
  - apply IH. tauto.
Qed.

Lemma od_set_set_eq {V : Type} (k : string) (v v' : V) (d : odict V) :
  od_set k v (od_set k v' d) = od_set k v d.
Proof.
  induction d as [|[k0 v0] d IH]; simpl.
  - now rewrite String.eqb_refl.
  - destruct (String.eqb k k0) eqn:E; simpl.
    + now rewrite String.eqb_refl.
    + now rewrite E, IH.
Qed.

Lemma od_del_set_fresh {V : Type} (k : string) (v : V) (d : odict V) :
  od_get k d = None -> od_del k (od_set k v d) = d.
Proof.
  induction d as [|[k0 v0] d IH]; simpl.
  - now rewrite String.eqb_refl.
  - destruct (String.eqb k k0) eqn:E; [discriminate|].
    intros H. simpl. rewrite E. now rewrite IH.
Qed.

Lemma od_keys_set_eq {V : Type} (k : string) (v : V) (d : odict V) :
  od_keys (od_set k v d)
  = if list_mem k (od_keys d) then od_keys d else od_keys d ++ [k].
Proof.
  induction d as [|[k0 v0] d IH]; simpl; [reflexivity|].
  destruct (String.eqb k k0) eqn:E; simpl.
  - apply String.eqb_eq in E. now subst.
  - rewrite IH. unfold list_mem. now destruct (existsb _ _).
Qed.

Lemma od_keys_del {V : Type} (k : string) (d : odict V) :
  od_keys (od_del k d) = list_remove_first k (od_keys d).
Proof.
  induction d as [|[k0 v0] d IH]; simpl; [reflexivity|].
  destruct (String.eqb k k0); simpl; [reflexivity|]. now rewrite IH.
Qed.

Lemma od_get_del_ne {V : Type} (k k' : string) (d : odict V) :
  k <> k' -> od_get k' (od_del k d) = od_get k' d.
Proof.
  intros Hne. induction d as [|[k0 v0] d IH]; simpl; [reflexivity|].
  destruct (String.eqb k k0) eqn:E; simpl.
  - apply String.eqb_eq in E. subst k0.
    destruct (String.eqb k' k) eqn:E'; [|reflexivity].
    apply String.eqb_eq in E'. congruence.
  - now rewrite IH.
Qed.

(** ** Registration and removal *)

(** X1. Unregistering a tool right after registering it under a name the
    registry did not know gives back the registry as it was, provided
    the bucket of the tool's category was absent, or present, non-empty
    and without that name. *)
Theorem register_then_unregister (tool : BaseTool) (reg : ToolRegistry) :
  get_tool (name tool) reg = None ->
  tool_performance reg !! name tool = None ->
  match tool_categories reg !! category tool with
  | None => True
  | Some bucket => bucket <> [] /\ ~ In (name tool) bucket
  end ->
  unregister_tool (name tool) (fst (register_tool tool reg)) = (reg, true).
Proof.
  intros Hget Hperf Hcat. unfold get_tool in Hget.
  unfold unregister_tool, register_tool. simpl.
  rewrite od_get_set_eq. destruct reg as [ts cats perf]. simpl in *.
  rewrite (od_del_set_fresh _ _ _ Hget).
  rewrite (delete_insert_id perf) by exact Hperf.
  destruct (cats !! category tool) as [bucket|] eqn:Ecat.
  - destruct Hcat as [Hne Hnin]. simpl. rewrite Ecat. simpl.
    apply list_mem_false in Hnin as Hmem. rewrite Hmem.
    rewrite lookup_insert_eq.
    assert (Hmem' : list_mem (name tool) (bucket ++ [name tool]) = true)
      by (apply list_mem_In, in_or_app; right; now left).
    rewrite Hmem'. rewrite (list_remove_first_app _ _ Hnin).
    destruct bucket as [|b bucket]; [congruence|].
    rewrite insert_insert_eq. rewrite (insert_id cats) by exact Ecat.
    reflexivity.
  - simpl. rewrite lookup_insert_eq. simpl.
    rewrite lookup_insert_eq. simpl. rewrite String.eqb_refl. simpl.
    rewrite insert_insert_eq. rewrite (delete_insert_id cats) by exact Ecat.
    reflexivity.
Qed.

Lemma register_then_unregister_witness :
  unregister_tool "web_search"
    (fst (register_tool (answering_tool "web_search" "search")
            sample_registry))
  = (sample_registry, true).
Proof.
  apply (register_then_unregister (answering_tool "web_search" "search")
           sample_registry).
  - reflexivity.
  - vm_compute. reflexivity.
  - vm_compute. split; [discriminate|].
    intros [H|[]]. discriminate H.
Defined.

(** The bucket of a tool's category holds its name after registration. *)
Lemma register_tool_bucket (tool : BaseTool) (reg : ToolRegistry) :
  exists bucket,
    tool_categories (fst (register_tool tool reg)) !! category tool
    = Some bucket
    /\ list_mem (name tool) bucket = true.
Proof.
  unfold register_tool. simpl.
  destruct (tool_categories reg !! category tool) as [bucket|] eqn:Ecat.
  - rewrite Ecat. simpl.
    destruct (list_mem (name tool) bucket) eqn:Emem.
    + exists bucket. auto.
    + exists (bucket ++ [name tool]). rewrite lookup_insert_eq.
      split; [reflexivity|]. apply list_mem_In, in_or_app. right. now left.
  - rewrite lookup_insert_eq. simpl.
    exists [name tool]. rewrite lookup_insert_eq. split; [reflexivity|].
    simpl. now rewrite String.eqb_refl.
Qed.

(** Registration when the category bucket already lists the name. *)
Lemma register_tool_known_bucket (tool : BaseTool) (reg : ToolRegistry)
    (bucket : list string) :
  tool_categories reg !! category tool = Some bucket ->
  list_mem (name tool) bucket = true ->
  register_tool tool reg
  = ({| tools := od_set (name tool) tool (tools reg);
        tool_categories := tool_categories reg;
        tool_performance :=
          <[name tool := zero_performance]> (tool_performance reg) |},
     true).
Proof.
  intros Hb Hmem. unfold register_tool. rewrite Hb. simpl.
  rewrite Hb. simpl. now rewrite Hmem.
Qed.

(** X2. Registration is an idempotent upsert: registering the same tool
    object a second time leaves the registry as the first registration
    left it. *)
Theorem register_tool_idempotent (tool : BaseTool) (reg : ToolRegistry) :
  register_tool tool (fst (register_tool tool reg))
  = register_tool tool reg.
Proof.
  destruct (register_tool_bucket tool reg) as (bucket & Hb & Hmem).
  rewrite (register_tool_known_bucket tool _ bucket Hb Hmem).
  unfold register_tool. simpl.
  rewrite od_set_set_eq, insert_insert_eq. reflexivity.
Qed.

(** X3. Registration keeps the order of the tool map: a name that is
    already registered keeps its place and a new name goes last.  In both
    cases the tool found under the name is the one just registered, its
    performance record is zeroed, and no other entry of the tool map or
    of the performance table changes. *)
Theorem register_tool_upsert (tool : BaseTool) (reg : ToolRegistry) :
  list_all_tools (fst (register_tool tool reg))
  = (if list_mem (name tool) (list_all_tools reg)
     then list_all_tools reg
     else list_all_tools reg ++ [name tool])
  /\ get_tool (name tool) (fst (register_tool tool reg)) = Some tool
  /\ tool_performance (fst (register_tool tool reg)) !! name tool
     = Some zero_performance
  /\ (forall other,
        other <> name tool ->
        get_tool other (fst (register_tool tool reg)) = get_tool other reg
        /\ tool_performance (fst (register_tool tool reg)) !! other
           = tool_performance reg !! other).
Proof.
  split; [apply od_keys_set_eq|].
  split; [apply register_tool_tracks|].
  split; [apply register_tool_tracks|].
  intros other Hne. split; simpl.
  - unfold get_tool. simpl. now apply od_get_set_ne.
  - now apply lookup_insert_ne.
Qed.

(** X4. [unregister_tool] reports success exactly for a registered name.
    With unique keys in the tool map, the name is afterwards unknown to
    [get_tool] and has no performance record, the other names keep their
    order, their tools and their records. *)
Theorem unregister_tool_removes (tool_name : string) (reg : ToolRegistry) :
  NoDup (list_all_tools reg) ->
  (snd (unregister_tool tool_name reg) = true
   <-> In tool_name (list_all_tools reg))
  /\ get_tool tool_name (fst (unregister_tool tool_name reg)) = None
  /\ tool_performance (fst (unregister_tool tool_name reg)) !! tool_name
     = (if snd (unregister_tool tool_name reg) then None
        else tool_performance reg !! tool_name)
  /\ list_all_tools (fst (unregister_tool tool_name reg))
     = list_remove_first tool_name (list_all_tools reg)
  /\ (forall other,
        other <> tool_name ->
        get_tool other (fst (unregister_tool tool_name reg))
        = get_tool other reg
        /\ tool_performance (fst (unregister_tool tool_name reg)) !! other
           = tool_performance reg !! other).
Proof.
  intros Hnd. unfold unregister_tool, get_tool, list_all_tools.
  destruct (od_get tool_name (tools reg)) as [tool|] eqn:Hget; simpl.
  - split; [|split; [|split; [|split]]].
    + split; [intros _|reflexivity].
      apply od_get_In in Hget. change tool_name with (fst (tool_name, tool)).
      now apply in_map.
    + apply od_get_not_key. now apply od_del_not_key.
    + apply lookup_delete_eq.
    + apply od_keys_del.
    + intros other Hne. split.
      * apply od_get_del_ne. congruence.
      * apply lookup_delete_ne. congruence.
  - pose proof (od_get_None_not_key _ _ Hget) as Hnin.
    split; [|split; [|split; [|split]]]; auto.
    + split; [discriminate|contradiction].
    + clear Hget Hnd. induction (od_keys (tools reg)) as [|k l IH];
        simpl; [reflexivity|].
      destruct (String.eqb tool_name k) eqn:E.
      * apply String.eqb_eq in E. subst. simpl in Hnin. tauto.
      * f_equal. apply IH. simpl in Hnin. tauto.
Qed.

Lemma unregister_tool_removes_witness :
  NoDup (list_all_tools sample_registry)
  /\ get_tool "rerank" (fst (unregister_tool "rerank" sample_registry)) = None.
Proof.
  assert (Hnd : NoDup (list_all_tools sample_registry)).
  { apply NoDup_cons. split.
    - intros H. apply list_elem_of_In in H. destruct H as [H|[]].
      discriminate H.
    - apply NoDup_singleton. }
  split; [exact Hnd|].
  apply (unregister_tool_removes "rerank" sample_registry Hnd).
Defined.

(** ** What every selection strategy guarantees *)

Lemma py_slice_to_length {A : Type} (k : Z) (l : list A) :
  (0 <= k)%Z -> length (py_slice_to k l) <= Z.to_nat k.
Proof.
  intros Hk. unfold py_slice_to. apply Z.leb_le in Hk. rewrite Hk.
  apply firstn_le_length.
Qed.

Lemma py_slice_to_NoDup {A : Type} (k : Z) (l : list A) :
  NoDup l -> NoDup (py_slice_to k l).
Proof.
  intros Hnd. unfold py_slice_to.
  destruct (0 <=? k)%Z; eapply sublist_NoDup; eauto using sublist_take.
Qed.

Lemma py_slice_to_map {A B : Type} (f : A -> B) (k : Z) (l : list A) :
  map f (py_slice_to k l) = py_slice_to k (map f l).
Proof.
  unfold py_slice_to. rewrite length_map.
  destruct (0 <=? k)%Z; symmetry; apply firstn_map.
Qed.

(** X5. For a bound [max_tools >= 0] every strategy, and every strategy
    name, yields at most [max_tools] names. *)
Theorem select_tools_at_most_max_tools (reg : ToolRegistry) (q : string)
    (ctx : QueryContext) (strategy : string) (max_tools : Z) :
  (0 <= max_tools)%Z ->
  length (select_tools reg q ctx strategy max_tools) <= Z.to_nat max_tools.
Proof.
  intros Hk. unfold select_tools, _select_by_performance,
    _select_by_category, _select_by_relevance, _select_hybrid.
  repeat match goal with
         | |- context [if ?b then _ else _] => destruct b
         end;
    rewrite ?length_map; now apply py_slice_to_length.
Qed.

Lemma select_tools_at_most_max_tools_witness :
  length (select_tools sample_registry "EC2 instance slow" sample_context
            "hybrid" 1) <= Z.to_nat 1.
Proof.
  apply (select_tools_at_most_max_tools sample_registry "EC2 instance slow"
           sample_context "hybrid" 1).
  lia.
Defined.

Lemma category_scan_validated (q : string) (ctx : QueryContext) (k : Z)
    (category_tools : list BaseTool) (selected : list string) (n : string) :
  In n (category_scan q ctx k category_tools selected) ->
  In n selected
  \/ exists t,
       In t category_tools /\ n = name t /\ validate_input t q ctx = true.
Proof.
  revert selected.
  induction category_tools as [|t rest IH]; intros selected; simpl; [tauto|].
  destruct (k <=? Z.of_nat (length selected))%Z; [tauto|].
  intros H. apply IH in H as [H|(t' & Ht' & Hn & Hv)].
  - destruct (validate_input t q ctx) eqn:Hv; [|tauto].
    apply in_app_or in H as [H|[<-|[]]]; [tauto|]. right. exists t. auto.
  - right. exists t'. auto.
Qed.

Lemma select_by_category_validated (reg : ToolRegistry) (q : string)
    (ctx : QueryContext) (k : Z) (n : string) :
  In n (_select_by_category reg q ctx k) ->
  exists key t,
    In (key, t) (tools reg) /\ n = name t /\ validate_input t q ctx = true.
Proof.
  unfold _select_by_category. intros H.
  apply py_slice_to_incl in H. revert H.
  generalize (default ["search"; "general"]
                (category_mapping (member_value (query_type ctx)))).
  intros cats.
  assert (Hgen : forall selected,
            In n (fold_left
                    (fun selected cat =>
                       category_scan q ctx k (get_tools_by_category cat reg)
                         selected) cats selected) ->
            In n selected
            \/ exists key t,
                 In (key, t) (tools reg) /\ n = name t
                 /\ validate_input t q ctx = true).
  { induction cats as [|cat cats IH]; intros selected; simpl; [tauto|].
    intros H. apply IH in H as [H|H]; [|tauto].
    apply category_scan_validated in H as [H|(t & Ht & Hn & Hv)]; [tauto|].
    right. apply get_tools_by_category_In in Ht as (key & Hin).
    exists key, t. auto. }
  intros H. apply Hgen in H as [[]|H]. exact H.
Qed.

(** X6. Whatever the strategy and the bound, every name [select_tools]
    returns is the name of a registered tool that accepts the query. *)
Theorem select_tools_validated (reg : ToolRegistry) (q : string)
    (ctx : QueryContext) (strategy : string) (max_tools : Z) (n : string) :
  tool_map_wf reg ->
  In n (select_tools reg q ctx strategy max_tools) ->
  exists tool,
    get_tool n reg = Some tool /\ validate_input tool q ctx = true.
Proof.
  intros [Hnd Hnames].
  assert (Hscored : In n (_select_by_performance reg q ctx max_tools)
                    \/ In n (_select_by_relevance reg q ctx max_tools) ->
                    exists tool,
                      get_tool n reg = Some tool
                      /\ validate_input tool q ctx = true).
  { intros H.
    apply scored_strategies_return_validated in H as (tool & Hin & Hv).
    exists tool. split; [now apply od_In_get|exact Hv]. }
  assert (Hcat : In n (_select_by_category reg q ctx max_tools) ->
                 exists tool,
                   get_tool n reg = Some tool
                   /\ validate_input tool q ctx = true).
  { intros H.
    apply select_by_category_validated in H as (key & t & Hin & Hn & Hv).
    exists t. split; [|exact Hv].
    rewrite Forall_forall in Hnames.
    assert (Hkey : key = name t)
      by (apply (Hnames (key, t)); now apply list_elem_of_In).
    subst n. rewrite <- Hkey. now apply od_In_get. }
  unfold select_tools.
  destruct (String.eqb strategy "performance"); [auto|].
  destruct (String.eqb strategy "category"); [auto|].
  destruct (String.eqb strategy "relevance"); [auto|].
  unfold _select_hybrid. intros H.
  apply in_map_iff in H as (entry & <- & H).
  apply py_slice_to_incl in H.
  apply (Permutation_in _ (sort_desc_perm _ _)) in H.
  apply (in_map fst) in H. fold (od_keys (V:=Q)) in H.
  apply add_positional_keys in H as [H|H]; [auto|].
  apply add_positional_keys in H as [H|H]; [auto|].
  apply add_positional_keys in H as [H|[]]. auto.
Qed.

Lemma sample_registry_wf : tool_map_wf sample_registry.
Proof.
  apply register_tool_wf, register_tool_wf.
  split; [apply NoDup_nil_2|apply Forall_nil_2].
Qed.

Lemma select_tools_validated_witness :
  exists tool,
    get_tool "vector_search" sample_registry = Some tool
    /\ validate_input tool "EC2 instance slow" sample_context = true.
Proof.
  apply (select_tools_validated sample_registry "EC2 instance slow"
           sample_context "hybrid" 5 "vector_search").
  - apply register_tool_wf, register_tool_wf.
    split; [apply NoDup_nil_2|apply Forall_nil_2].
  - vm_compute. left. reflexivity.
Defined.

Lemma NoDup_keys_filter {V : Type} (f : string * V -> bool) (d : odict V) :
  NoDup (od_keys d) -> NoDup (od_keys (List.filter f d)).
Proof.
  induction d as [|[k v] d IH]; simpl; intros Hnd; [exact Hnd|].
  apply NoDup_cons in Hnd as [Hk Hnd].
  destruct (f (k, v)); simpl; [|auto].
  apply NoDup_cons. split; [|auto].
  intros Hin. apply Hk.
  apply list_elem_of_In in Hin. apply list_elem_of_In.
  apply in_map_iff in Hin as (entry & Hfst & Hin).
  apply filter_In in Hin as [Hin _].
  apply in_map_iff. exists entry. auto.
Qed.

Lemma add_positional_NoDup (w : float) (k : Z) (i : nat) (names : list string)
    (scores : odict float) :
  NoDup (od_keys scores) ->
  NoDup (od_keys (add_positional w k i names scores)).
Proof.
  revert i scores.
  induction names as [|x names IH]; intros i scores Hnd; simpl; [exact Hnd|].
  apply IH. now apply od_set_NoDup.
Qed.

(** The names of a scored and ranked table are those of the table. *)
Lemma ranked_names_NoDup {V : Type} (k : Z) (key : string * V -> Q)
    (table : odict V) :
  NoDup (od_keys table) ->
  NoDup (map fst (py_slice_to k (sort_desc key table))).
Proof.
  intros Hnd. rewrite py_slice_to_map. apply py_slice_to_NoDup.
  assert (Hp : Permutation (map fst (sort_desc key table)) (map fst table))
    by apply Permutation_map, sort_desc_perm.
  rewrite Hp. exact Hnd.
Qed.

(** X7. The performance, relevance and hybrid strategies never return a
    name twice, provided the keys of the tool map are unique. *)
Theorem select_tools_distinct (reg : ToolRegistry) (q : string)
    (ctx : QueryContext) (strategy : string) (max_tools : Z) :
  NoDup (list_all_tools reg) ->
  strategy <> "category" ->
  NoDup (select_tools reg q ctx strategy max_tools).
Proof.
  intros Hnd Hstrategy.
  assert (Hscored : forall score : BaseTool -> Q,
            NoDup
              (map fst
                 (py_slice_to max_tools
                    (sort_desc snd
                       (map (fun '(tool_name, tool) =>
                               (tool_name, score tool))
                          (List.filter
                             (fun '(_, tool) => validate_input tool q ctx)
                             (tools reg))))))).
  { intros score. apply ranked_names_NoDup.
    unfold od_keys. rewrite map_map.
    rewrite (map_ext _ fst) by (now intros [? ?]).
    now apply NoDup_keys_filter. }
  unfold select_tools.
  destruct (String.eqb strategy "performance"); [apply Hscored|].
  destruct (String.eqb strategy "category") eqn:E.
  { apply String.eqb_eq in E. contradiction. }
  destruct (String.eqb strategy "relevance"); [apply Hscored|].
  unfold _select_hybrid. apply ranked_names_NoDup.
  repeat apply add_positional_NoDup. apply NoDup_nil_2.
Qed.

Lemma select_tools_distinct_witness :
  NoDup (select_tools sample_registry "EC2 instance slow" sample_context
           "relevance" 5).
Proof.
  apply (select_tools_distinct sample_registry "EC2 instance slow"
           sample_context "relevance" 5).
  - apply sample_registry_wf.
  - discriminate.
Defined.

(** ** Metrics *)

Lemma float_of_nat_S (n : nat) :
  (float_of_nat (S n) == float_of_nat n + 1)%Q.
Proof.
  unfold float_of_nat. rewrite Nat2Z.inj_succ, <- Z.add_1_r.
  now rewrite inject_Z_plus.
Qed.

Lemma float_of_nat_S_pos (n : nat) : (0 < float_of_nat (S n))%Q.
Proof.
  rewrite float_of_nat_S. pose proof (float_of_nat_nonneg n). lra.
Qed.

Lemma float_of_nat_le (n m : nat) :
  n <= m -> (float_of_nat n <= float_of_nat m)%Q.
Proof. intros H. unfold float_of_nat. rewrite <- Zle_Qle. lia. Qed.

(** One call through [update_metrics], in closed form. *)
Lemma update_metrics_closed_form (success : bool) (rt now : Q)
    (t : BaseTool) :
  let n := md_usage_count (metadata t) in
  let t' := update_metrics success rt now t in
  md_usage_count (metadata t') = S n
  /\ (md_success_rate (metadata t') * float_of_nat (S n)
      == md_success_rate (metadata t) * float_of_nat n
         + (if success then 1 else 0))%Q
  /\ (md_average_response_time (metadata t') * float_of_nat (S n)
      == md_average_response_time (metadata t) * float_of_nat n + rt)%Q.
Proof.
  intros n t'. subst t'. simpl. fold n.
  pose proof (float_of_nat_S_pos n) as Hpos.
  split; [reflexivity|].
  destruct n as [|m]; simpl Nat.eqb; cbv iota.
  - change (float_of_nat 1) with 1%Q. change (float_of_nat 0) with 0%Q.
    split; [destruct success|]; ring.
  - rewrite !Nat.sub_0_r.
    split; [destruct success|]; field; lra.
Qed.

Lemma call_successes_snoc (calls : list (bool * Q * Q)) (c : bool * Q * Q) :
  call_successes (calls ++ [c])
  = call_successes calls + (if fst (fst c) then 1 else 0).
Proof.
  unfold call_successes. rewrite List.filter_app, length_app. simpl.
  now destruct (fst (fst c)).
Qed.

Lemma call_latencies_snoc (calls : list (bool * Q * Q)) (c : bool * Q * Q) :
  (call_latencies (calls ++ [c]) == call_latencies calls + snd (fst c))%Q.
Proof.
  induction calls as [|x calls IH]; simpl; [ring|].
  rewrite IH. ring.
Qed.

Lemma call_successes_le (calls : list (bool * Q * Q)) :
  call_successes calls <= length calls.
Proof. unfold call_successes. apply List.filter_length_le. Qed.

Lemma record_calls_sums (calls : list (bool * Q * Q)) (t : BaseTool) :
  md_usage_count (metadata t) = 0 ->
  let t' := record_calls calls t in
  md_usage_count (metadata t') = length calls
  /\ (md_success_rate (metadata t') * float_of_nat (length calls)
      == float_of_nat (call_successes calls))%Q
  /\ (md_average_response_time (metadata t') * float_of_nat (length calls)
      == call_latencies calls)%Q.
Proof.
  intros Hfresh. induction calls as [|c calls IH] using rev_ind.
  - split; [exact Hfresh|].
    unfold call_successes, call_latencies. simpl.
    change (float_of_nat 0) with 0%Q. split; ring.
  - unfold record_calls in *. rewrite fold_left_app. simpl.
    destruct IH as (Hn & Hrate & Havg).
    set (t1 := fold_left _ calls t) in *.
    destruct (update_metrics_closed_form (fst (fst c)) (snd (fst c))
                (snd c) t1) as (Hn' & Hrate' & Havg').
    rewrite Hn in Hn', Hrate', Havg'.
    rewrite length_app, Nat.add_1_r. simpl length.
    split; [exact Hn'|]. split.
    + rewrite Hrate', Hrate, call_successes_snoc.
      destruct (fst (fst c)).
      * rewrite Nat.add_1_r, float_of_nat_S. reflexivity.
      * rewrite Nat.add_0_r. ring.
    + rewrite Havg', Havg, call_latencies_snoc. reflexivity.
Qed.

(** X8. After any non-empty history of calls on a tool that was unused
    before, the usage count is the number of calls, the success rate is
    the fraction of successful calls, hence between 0 and 1, and the
    average response time is the arithmetic mean of the latencies. *)
Theorem record_calls_means (calls : list (bool * Q * Q)) (t : BaseTool) :
  md_usage_count (metadata t) = 0 ->
  calls <> [] ->
  let t' := record_calls calls t in
  md_usage_count (metadata t') = length calls
  /\ (md_success_rate (metadata t')
      == float_of_nat (call_successes calls)
         / float_of_nat (length calls))%Q
  /\ (0 <= md_success_rate (metadata t') <= 1)%Q
  /\ (md_average_response_time (metadata t')
      == call_latencies calls / float_of_nat (length calls))%Q.
Proof.
  intros Hfresh Hne t'.
  destruct (record_calls_sums calls t Hfresh) as (Hn & Hrate & Havg).
  fold t' in Hn, Hrate, Havg.
  destruct calls as [|c calls]; [congruence|]. simpl length in *.
  pose proof (float_of_nat_S_pos (length calls)) as Hpos.
  assert (Hr : (md_success_rate (metadata t')
                == float_of_nat (call_successes (c :: calls))
                   / float_of_nat (S (length calls)))%Q).
  { rewrite <- Hrate. field. lra. }
  split; [exact Hn|]. split; [exact Hr|]. split.
  - rewrite Hr. split.
    + apply Qle_shift_div_l; [exact Hpos|].
      rewrite Qmult_0_l. apply float_of_nat_nonneg.
    + apply Qle_shift_div_r; [exact Hpos|].
      rewrite Qmult_1_l. apply float_of_nat_le.
      apply (call_successes_le (c :: calls)).
  - rewrite <- Havg. field. lra.
Qed.

Lemma record_calls_means_witness :
  md_usage_count
    (metadata
       (record_calls [(true, 2%Q, 10%Q); (false, 4%Q, 20%Q)]
          (answering_tool "vector_search" "search"))) = 2.
Proof.
  apply (record_calls_means [(true, 2%Q, 10%Q); (false, 4%Q, 20%Q)]
           (answering_tool "vector_search" "search")).
  - reflexivity.
  - discriminate.
Defined.

(** ** Scores *)

Lemma sort_desc_constant {A : Type} (key : A -> Q) (l : list A) :
  (forall a b, In a l -> In b l -> (key a == key b)%Q) ->
  sort_desc key l = l.
Proof.
  induction l as [|x l IH]; intros Heq; simpl; [reflexivity|].
  rewrite IH by (intros a b Ha Hb; apply Heq; now right).
  destruct l as [|y l]; simpl; [reflexivity|].
  destruct (Qlt_le_dec (key x) (key y)) as [Hlt|_]; [|reflexivity].
  exfalso. rewrite (Heq x y) in Hlt; [|now left|right; now left].
  now apply Qlt_irrefl in Hlt.
Qed.

Lemma unused_scores_equal (t1 t2 : BaseTool) :
  unused t1 -> unused t2 -> performance_score t1 = performance_score t2.
Proof.
  intros (Hu1 & Hr1 & Hl1) (Hu2 & Hr2 & Hl2).
  unfold performance_score, performance_score_float.
  now rewrite Hu1, Hr1, Hl1, Hu2, Hr2, Hl2.
Qed.

(** X10. As long as no registered tool has been called, the performance
    strategy has nothing to rank by: it returns the tools that accept the
    query in registration order, cut to [max_tools]. *)
Theorem select_by_performance_unused (reg : ToolRegistry) (q : string)
    (ctx : QueryContext) (max_tools : Z) :
  Forall (fun entry => unused (snd entry)) (tools reg) ->
  _select_by_performance reg q ctx max_tools
  = py_slice_to max_tools
      (od_keys (List.filter (validated q ctx) (tools reg))).
Proof.
  intros Hunused. unfold _select_by_performance.
  rewrite (filter_ext _ (validated q ctx)) by (now intros [? ?]).
  rewrite py_slice_to_map. f_equal.
  rewrite sort_desc_constant.
  - unfold od_keys. rewrite map_map. apply map_ext. now intros [? ?].
  - rewrite Forall_forall in Hunused.
    assert (Hscore : forall e,
              In e (map (fun '(tool_name, tool) =>
                           (tool_name, performance_score tool))
                      (List.filter (validated q ctx) (tools reg))) ->
              exists t, unused t /\ snd e = performance_score t).
    { intros e He. apply in_map_iff in He as ([n t] & <- & Hin).
      apply filter_In in Hin as [Hin _].
      exists t. split; [|reflexivity].
      now apply (Hunused (n, t)), list_elem_of_In. }
    intros a b Ha Hb.
    destruct (Hscore a Ha) as (ta & Hta & ->).
    destruct (Hscore b Hb) as (tb & Htb & ->).
    now rewrite (unused_scores_equal ta tb Hta Htb).
Qed.

Lemma select_by_performance_unused_witness :
  _select_by_performance sample_registry "EC2 instance slow" sample_context 1
  = ["vector_search"].
Proof.
  apply (select_by_performance_unused sample_registry "EC2 instance slow"
           sample_context 1).
  repeat constructor.
Defined.

Lemma word_set_In (x : string) (words : list string) :
  In x (word_set words) <-> In x words.
Proof.
  unfold word_set. rewrite <- !list_elem_of_In. apply elem_of_remove_dups.
Qed.

Lemma word_set_nil (words : list string) :
  word_set words = [] -> words = [].
Proof.
  destruct words as [|x l]; [reflexivity|]. intros H. exfalso.
  assert (Hx : In x (word_set (x :: l))) by (apply word_set_In; now left).
  now rewrite H in Hx.
Qed.

(** X11. The relevance of a tool for a query lies between 0 and 1; it is 0
    for a query without words, and 1 when the query has words and each
    of them occurs among the words of the tool's description. *)
Theorem relevance_score_bounds (query_lower : string) (t : BaseTool) :
  (0 <= relevance_score query_lower t <= 1)%Q
  /\ (py_split query_lower = [] -> relevance_score query_lower t = 0%Q)
  /\ (py_split query_lower <> [] ->
      (forall w, In w (py_split query_lower) ->
                 In w (py_split (py_lower (description t)))) ->
      (relevance_score query_lower t == 1)%Q).
Proof.
  unfold relevance_score.
  remember (word_set (py_split query_lower)) as qw eqn:Eqw.
  remember (word_set (py_split (py_lower (description t)))) as dw eqn:Edw.
  assert (Hratio : forall n,
            length qw = S n ->
            (0 <= float_of_nat
                    (length (List.filter (fun w => list_mem w dw) qw))
                  / float_of_nat (length qw) <= 1)%Q).
  { intros n Hn. rewrite Hn.
    pose proof (float_of_nat_S_pos n) as Hpos. split.
    - apply Qle_shift_div_l; [exact Hpos|].
      rewrite Qmult_0_l. apply float_of_nat_nonneg.
    - apply Qle_shift_div_r; [exact Hpos|].
      rewrite Qmult_1_l. apply float_of_nat_le.
      rewrite <- Hn. apply List.filter_length_le. }
  split; [|split].
  - destruct qw as [|w qw']; [split; discriminate|].
    apply (Hratio (length qw')). reflexivity.
  - intros Hempty. rewrite Hempty in Eqw. now subst qw.
  - intros Hne Hall.
    destruct qw as [|w qw'] eqn:E.
    + symmetry in Eqw. apply word_set_nil in Eqw. contradiction.
    + rewrite <- E.
      assert (Hfilter : List.filter (fun w => list_mem w dw) qw = qw).
      { apply forallb_filter_id. apply forallb_forall. intros x Hx.
        apply list_mem_In. rewrite Edw. apply word_set_In, Hall.
        apply word_set_In. rewrite <- Eqw, <- E. exact Hx. }
      rewrite Hfilter. rewrite E. simpl length.
      pose proof (float_of_nat_S_pos (length qw')) as Hpos. field. lra.
Qed.

Lemma relevance_score_bounds_witness :
  (relevance_score "ec2 instance"
     (new_tool "lookup" "EC2 instance types" "search" 0
        default_validate_input (fun _ _ => Raised "unused")) == 1)%Q.
Proof.
  apply (relevance_score_bounds "ec2 instance"
           (new_tool "lookup" "EC2 instance types" "search" 0
              default_validate_input (fun _ _ => Raised "unused"))).
  - discriminate.
  - vm_compute. intros w [<-|[<-|[]]]; tauto.
Defined.

(** ** [execute_tool] and the performance table *)

Lemma update_performance_tracking_lookup (tool_name other : string)
    (success : bool) (rt now : Q) (msg : option string)
    (reg : ToolRegistry) :
  other <> tool_name ->
  tool_performance
    (_update_performance_tracking tool_name success rt now msg reg) !! other
  = tool_performance reg !! other.
Proof.
  intros Hne. unfold _update_performance_tracking.
  destruct (tool_performance reg !! tool_name); [|reflexivity].
  simpl. apply lookup_insert_ne. congruence.
Qed.

Lemma update_performance_tracking_consistent (tool_name : string)
    (success : bool) (rt now : Q) (msg : option string)
    (reg : ToolRegistry) :
  performance_table_consistent reg ->
  performance_table_consistent
    (_update_performance_tracking tool_name success rt now msg reg).
Proof.
  intros Hreg n p.
  destruct (String.eqb_spec n tool_name) as [->|Hne].
  - unfold _update_performance_tracking.
    destruct (tool_performance reg !! tool_name) as [old|] eqn:Eold.
    + simpl. rewrite lookup_insert_eq. intros [= <-].
      destruct (Hreg _ _ Eold) as [Hsum Hlen].
      split; simpl.
      * destruct success; lia.
      * destruct success; [exact Hlen|].
        destruct (truthy msg); [apply py_last_length|exact Hlen].
    + rewrite Eold. discriminate.
  - rewrite update_performance_tracking_lookup by exact Hne. apply Hreg.
Qed.

(** X12. The counters of every performance record add up, and no error
    list is longer than 10: this holds in the empty registry and is kept
    by [register_tool], [unregister_tool] and [execute_tool], whatever
    the tool does. *)
Theorem performance_table_stays_consistent (reg : ToolRegistry) :
  performance_table_consistent empty_registry
  /\ (performance_table_consistent reg ->
      (forall tool,
         performance_table_consistent (fst (register_tool tool reg)))
      /\ (forall tool_name,
            performance_table_consistent
              (fst (unregister_tool tool_name reg)))
      /\ (forall tool_name q ctx t0 t1,
            performance_table_consistent
              (fst (execute_tool tool_name q ctx t0 t1 reg)))).
Proof.
  split.
  - intros n p. simpl. now rewrite lookup_empty.
  - intros Hreg. split; [|split].
    + intros tool n p. simpl.
      destruct (String.eqb_spec (name tool) n) as [<-|Hne].
      * rewrite lookup_insert_eq. intros [= <-]. split; simpl; lia.
      * rewrite lookup_insert_ne by exact Hne. apply Hreg.
    + intros tool_name n p. unfold unregister_tool.
      destruct (od_get tool_name (tools reg)); [|apply Hreg]. simpl.
      destruct (String.eqb_spec tool_name n) as [<-|Hne].
      * now rewrite lookup_delete_eq.
      * rewrite lookup_delete_ne by exact Hne. apply Hreg.
    + intros tool_name q ctx t0 t1. unfold execute_tool.
      destruct (od_get tool_name (tools reg)) as [tool|]; [|exact Hreg].
      destruct (validate_input tool q ctx); simpl; [|exact Hreg].
      destruct (execute tool q ctx); simpl;
        now apply update_performance_tracking_consistent.
Qed.

Lemma performance_table_stays_consistent_witness :
  performance_table_consistent
    (fst (execute_tool "rerank" "EC2 instance slow" sample_context 0 2
            sample_registry)).
Proof.
  apply (performance_table_stays_consistent sample_registry).
  apply (performance_table_stays_consistent
           (fst (register_tool (answering_tool "vector_search" "search")
                   empty_registry))).
  apply (performance_table_stays_consistent empty_registry).
  apply (performance_table_stays_consistent empty_registry).
Defined.

Lemma od_keys_set_present {V : Type} (k : string) (v v' : V) (d : odict V) :
  od_get k d = Some v' -> od_keys (od_set k v d) = od_keys d.
Proof.
  intros Hget. rewrite od_keys_set_eq.
  assert (Hmem : list_mem k (od_keys d) = true).
  { apply list_mem_In. apply od_get_In in Hget.
    change k with (fst (k, v')). now apply in_map. }
  now rewrite Hmem.
Qed.

(** X13. [execute_tool] touches nothing but the entry of the tool it was
    asked to run: the category index and the order of the tool map stay
    as they were, every other tool and every other performance record is
    unchanged, and of the tool itself only the metadata can change. *)
Theorem execute_tool_frame (tool_name q : string) (ctx : QueryContext)
    (t0 t1 : Q) (reg : ToolRegistry) :
  let reg' := fst (execute_tool tool_name q ctx t0 t1 reg) in
  tool_categories reg' = tool_categories reg
  /\ list_all_tools reg' = list_all_tools reg
  /\ (forall other,
        other <> tool_name ->
        get_tool other reg' = get_tool other reg
        /\ tool_performance reg' !! other = tool_performance reg !! other)
  /\ (forall tool,
        get_tool tool_name reg = Some tool ->
        exists m, get_tool tool_name reg' = Some (set_metadata tool m)).
Proof.
  intros reg'. subst reg'. unfold execute_tool, get_tool, list_all_tools.
  assert (Hrun : forall tool success msg,
            od_get tool_name (tools reg) = Some tool ->
            let reg' :=
              _update_performance_tracking tool_name success (t1 - t0)%Q t1
                msg
                (update_tool_metrics tool_name tool success (t1 - t0)%Q t1
                   reg) in
            tool_categories reg' = tool_categories reg
            /\ od_keys (tools reg') = od_keys (tools reg)
            /\ (forall other,
                  other <> tool_name ->
                  od_get other (tools reg') = od_get other (tools reg)
                  /\ tool_performance reg' !! other
                     = tool_performance reg !! other)
            /\ (forall tool0,
                  Some tool = Some tool0 ->
                  exists m,
                    od_get tool_name (tools reg')
                    = Some (set_metadata tool0 m))).
  { intros tool success msg Hget reg'. subst reg'.
    rewrite tools_update_performance_tracking. split; [|split; [|split]].
    - unfold _update_performance_tracking. simpl.
      now destruct (tool_performance reg !! tool_name).
    - simpl. now apply (od_keys_set_present _ _ tool).
    - intros other Hne. split.
      + simpl. apply od_get_set_ne. congruence.
      + now rewrite update_performance_tracking_lookup.
    - intros tool0 [= <-]. simpl. rewrite od_get_set_eq.
      eexists. reflexivity. }
  destruct (od_get tool_name (tools reg)) as [tool|] eqn:Hget.
  - destruct (validate_input tool q ctx); simpl.
    + destruct (execute tool q ctx); simpl; now apply Hrun.
    + repeat split; auto. intros tool0 [= <-].
      exists (metadata tool). rewrite Hget. now destruct tool.
  - simpl. repeat split; auto. discriminate.
Qed.

(** X14. When the tool accepts the query and [execute] returns a result,
    [execute_tool] hands that result back unchanged and counts the call
    as successful or failed by the result's flag.  The error list of the
    record is left as it was, also when the result reports a failure:
    only raised faults are logged. *)
Theorem execute_tool_returned (tool_name q : string) (ctx : QueryContext)
    (t0 t1 : Q) (reg : ToolRegistry) (tool : BaseTool) (perf : Performance)
    (result : ToolResult) :
  get_tool tool_name reg = Some tool ->
  tool_performance reg !! tool_name = Some perf ->
  validate_input tool q ctx = true ->
  execute tool q ctx = Returned result ->
  let reg' := fst (execute_tool tool_name q ctx t0 t1 reg) in
  snd (execute_tool tool_name q ctx t0 t1 reg) = result
  /\ get_tool tool_name reg'
     = Some (update_metrics (tr_success result) (t1 - t0)%Q t1 tool)
  /\ exists perf',
       tool_performance reg' !! tool_name = Some perf'
       /\ total_calls perf' = S (total_calls perf)
       /\ successful_calls perf'
          = successful_calls perf + (if tr_success result then 1 else 0)
       /\ failed_calls perf'
          = failed_calls perf + (if tr_success result then 0 else 1)
       /\ error_patterns perf' = error_patterns perf
       /\ last_used perf' = Some t1.
Proof.
  intros Hget Hperf Hval Hex reg'. subst reg'.
  unfold get_tool in Hget. unfold execute_tool.
  rewrite Hget, Hval, Hex. simpl.
  split; [reflexivity|]. split.
  - unfold get_tool. rewrite tools_update_performance_tracking. simpl.
    apply od_get_set_eq.
  - unfold _update_performance_tracking. simpl. rewrite Hperf. simpl.
    rewrite lookup_insert_eq. eexists. split; [reflexivity|]. simpl.
    destruct (tr_success result); repeat split; lia.
Qed.

Lemma execute_tool_returned_witness :
  exists result,
    execute (answering_tool "vector_search" "search") "EC2 instance slow"
      sample_context = Returned result
    /\ snd (execute_tool "vector_search" "EC2 instance slow" sample_context
              0 2 async_registry) = result.
Proof.
  eexists. split; [reflexivity|].
  apply (execute_tool_returned "vector_search" "EC2 instance slow"
           sample_context 0 2 async_registry
           (answering_tool "vector_search" "search") zero_performance);
    vm_compute; reflexivity.
Defined.

(** ** More on the orchestrator *)

Lemma string_append_assoc (a b c : string) :
  (a +:+ b) +:+ c = a +:+ (b +:+ c).
Proof.
  induction a as [|x a IH]; [reflexivity|].
  change (String x ((a +:+ b) +:+ c) = String x (a +:+ (b +:+ c))).
  now rewrite IH.
Qed.

Lemma string_append_length (a b : string) :
  String.length (a +:+ b) = String.length a + String.length b.
Proof.
  induction a as [|x a IH]; [reflexivity|].
  change (S (String.length (a +:+ b))
          = S (String.length a + String.length b)).
  now rewrite IH.
Qed.

Lemma string_append_nil_r (a : string) : a +:+ "" = a.
Proof.
  induction a as [|x a IH]; [reflexivity|].
  change (String x (a +:+ "") = String x a). now rewrite IH.
Qed.

(** X15. The SELECT step names at least two and at most five tools, never
    one twice; [vector_search] comes first and [rerank] is always among
    them. *)
Theorem select_tools_shape (ctx : QueryContext) :
  2 <= length (_select_tools ctx) <= 5
  /\ NoDup (_select_tools ctx)
  /\ head (_select_tools ctx) = Some "vector_search"
  /\ In "rerank" (_select_tools ctx).
Proof.
  rewrite select_tools_table.
  destruct (default true (user_preferences ctx !! "web_search_enabled")),
    (query_type ctx) as [[]|[]]; simpl;
    (split; [lia|]); (split; [|split; [reflexivity|tauto]]);
    apply (bool_decide_unpack _); vm_compute; reflexivity.
Qed.

Section OrchestratorBatch.

Variable tool_registry : ToolRegistry.
Variable task_timeout : Q.
Variable completion_time : nat -> string -> Q.

Local Abbreviation futures_of :=
  (submit_all tool_registry completion_time).
Local Abbreviation run_batch :=
  (_execute_tools_parallel tool_registry task_timeout completion_time).
Local Abbreviation in_time := (done_in_time task_timeout).

Lemma submit_all_In (it : nat) (ctx : QueryContext)
    (tool_names : list string) (f : Future) :
  In f (futures_of it ctx tool_names) <->
  exists tool,
    In (fut_tool f) tool_names
    /\ get_tool (fut_tool f) tool_registry = Some tool
    /\ f = {| fut_tool := fut_tool f;
              fut_done_at := completion_time it (fut_tool f);
              fut_result := call_execute tool (query ctx) ctx |}.
Proof.
  unfold submit_all. rewrite <- list_elem_of_In, list_elem_of_omap. split.
  - intros (n & Hn & Hf). apply list_elem_of_In in Hn.
    destruct (get_tool n tool_registry) as [tool|] eqn:E; [|discriminate].
    injection Hf as <-. simpl. exists tool. auto.
  - intros (tool & Hin & Hget & Hf). exists (fut_tool f).
    split; [now apply list_elem_of_In|]. rewrite Hget. now rewrite Hf at 3.
Qed.

Lemma collect_fold_get (fs : list Future) (acc : odict ToolOutcome)
    (n : string) (r : Outcome CallResult) :
  (forall f, In f fs -> fut_tool f = n -> fut_result f = r) ->
  od_get n (fold_left collect fs acc)
  = if existsb (fun f => String.eqb (fut_tool f) n) fs
    then Some (recorded r) else od_get n acc.
Proof.
  revert acc. induction fs as [|f fs IH]; intros acc Hr; simpl;
    [reflexivity|].
  rewrite IH by (intros g Hg; apply Hr; now right).
  destruct (String.eqb_spec (fut_tool f) n) as [E|E]; simpl.
  - unfold collect. rewrite E, od_get_set_eq.
    rewrite (Hr f) by (auto; now left).
    now destruct (existsb _ fs).
  - unfold collect. rewrite od_get_set_ne by exact E. reflexivity.
Qed.

Lemma existsb_Permutation {A : Type} (p : A -> bool) (l1 l2 : list A) :
  Permutation l1 l2 -> existsb p l1 = existsb p l2.
Proof.
  induction 1; simpl; try congruence.
  now destruct (p x), (p y).
Qed.

(** X16. A batch returns a result map exactly when every submitted call
    finishes within the timeout, and raises otherwise.  The map then has
    one entry for each requested name the registry resolves, holding
    what the call of that tool's [execute] gave to the worker, which
    does not await it: the value a plain function returned, the
    description of the fault it raised, or, for a coroutine function,
    the coroutine, whose body has not run.  Names the registry does not
    know are dropped without a trace, and [validate_input] is not
    consulted. *)
Theorem batch_result_map (it : nat) (ctx : QueryContext)
    (tool_names : list string) :
  (forallb in_time (futures_of it ctx tool_names) = true ->
   exists results,
     snd (run_batch it ctx tool_names) = Returned results
     /\ (forall n,
           od_get n results
           = if list_mem n tool_names
             then (fun tool => recorded (call_execute tool (query ctx) ctx))
                    <$> get_tool n tool_registry
             else None)
     /\ (forall n tool body,
           In n tool_names ->
           get_tool n tool_registry = Some tool ->
           execute_method tool = AsyncDef body ->
           od_get n results = Some (ToolReturned Coroutine)))
  /\ (forallb in_time (futures_of it ctx tool_names) = false ->
      exists description,
        snd (run_batch it ctx tool_names) = Raised description).
Proof.
  unfold _execute_tools_parallel.
  set (futures := futures_of it ctx tool_names).
  split.
  - intros Hall.
    assert (Hfilter : List.filter in_time futures = futures)
      by now apply forallb_filter_id.
    assert (Hpending :
              List.filter (fun f => negb (in_time f)) futures = []).
    { clear Hfilter. induction futures as [|f fs IH]; [reflexivity|].
      simpl in *. apply andb_prop in Hall as [Hf Hfs].
      rewrite Hf. simpl. auto. }
    rewrite Hpending, Hfilter. simpl. eexists. split; [reflexivity|].
    match goal with
    | |- ?P /\ _ => assert (Hmap : P)
    end; [|split; [exact Hmap|];
           intros n tool body Hn Hget Hasync; rewrite Hmap;
           apply list_mem_In in Hn; rewrite Hn, Hget; simpl;
           unfold call_execute; now rewrite Hasync].
    intros n.
    destruct (get_tool n tool_registry) as [tool|] eqn:Hget.
    + rewrite (collect_fold_get _ _ n (call_execute tool (query ctx) ctx)).
      * rewrite (existsb_Permutation _ _ futures)
          by apply sort_desc_perm.
        simpl.
        destruct (list_mem n tool_names) eqn:Hmem.
        -- assert (Hex : existsb (fun f => String.eqb (fut_tool f) n)
                           futures = true).
           { apply existsb_exists.
             exists {| fut_tool := n;
                       fut_done_at := completion_time it n;
                       fut_result := call_execute tool (query ctx) ctx |}.
             split; [|apply String.eqb_refl].
             apply submit_all_In. exists tool. simpl.
             split; [now apply list_mem_In|auto]. }
           now rewrite Hex.
        -- assert (Hex : existsb (fun f => String.eqb (fut_tool f) n)
                           futures = false).
           { apply not_true_is_false. intros H.
             apply existsb_exists in H as (f & Hf & E).
             apply String.eqb_eq in E.
             apply submit_all_In in Hf as (t & Hin & _).
             rewrite E in Hin. apply list_mem_In in Hin. congruence. }
           now rewrite Hex.
      * intros f Hf E.
        apply (Permutation_in _ (sort_desc_perm _ _)) in Hf.
        apply submit_all_In in Hf as (t & _ & Hg & Hf').
        rewrite E, Hget in Hg. injection Hg as <-.
        rewrite Hf'. reflexivity.
    + rewrite (collect_fold_get _ _ n (Raised "")).
      * assert (Hex : existsb (fun f => String.eqb (fut_tool f) n)
                        (sort_desc (fun f => (- fut_done_at f)%Q) futures)
                      = false).
        { apply not_true_is_false. intros H.
          apply existsb_exists in H as (f & Hf & E).
          apply String.eqb_eq in E.
          apply (Permutation_in _ (sort_desc_perm _ _)) in Hf.
          apply submit_all_In in Hf as (t & _ & Hg & _).
          rewrite E in Hg. congruence. }
        rewrite Hex. simpl. now destruct (list_mem n tool_names).
      * intros f Hf E.
        apply (Permutation_in _ (sort_desc_perm _ _)) in Hf.
        apply submit_all_In in Hf as (t & _ & Hg & _).
        rewrite E in Hg. congruence.
  - intros Hsome.
    destruct (List.filter (fun f => negb (in_time f)) futures)
      as [|f fs] eqn:Hpending.
    + exfalso. assert (Hall : forallb in_time futures = true).
      { clear Hsome. induction futures as [|f fs IH]; [reflexivity|].
        simpl in *. destruct (in_time f); simpl in *; [auto|discriminate]. }
      congruence.
    + simpl. eexists. reflexivity.
Qed.

End OrchestratorBatch.

Lemma batch_result_map_witness :
  exists results,
    snd (_execute_tools_parallel async_registry default_task_timeout
           prompt_completion 1 sample_context
           ["vector_search"; "web_search"; "rerank"]) = Returned results
    /\ (forall n,
          od_get n results
          = if list_mem n ["vector_search"; "web_search"; "rerank"]
            then (fun tool =>
                    recorded (call_execute tool (query sample_context)
                                sample_context))
                   <$> get_tool n async_registry
            else None)
    /\ (forall n tool body,
          In n ["vector_search"; "web_search"; "rerank"] ->
          get_tool n async_registry = Some tool ->
          execute_method tool = AsyncDef body ->
          od_get n results = Some (ToolReturned Coroutine)).
Proof.
  apply (batch_result_map async_registry default_task_timeout
           prompt_completion 1 sample_context
           ["vector_search"; "web_search"; "rerank"]).
  vm_compute. reflexivity.
Defined.

Section OrchestratorMore.

Variable tool_registry : ToolRegistry.
Variable task_timeout : Q.
Variable confidence_threshold : Q.
Variable max_iterations : nat.
Variable assess_results : nat -> string -> odict ToolOutcome -> Q.
Variable calculate_confidence :
  nat -> string -> string -> list ResultRecord -> Q.
Variable identify_missing_information :
  nat -> string -> odict ToolOutcome -> list string.
Variable translate_from_english : string -> string -> string.
Variable completion_time : nat -> string -> Q.
Variable domain_relevance_threshold : Q.
Variable detect_language : string -> string.
Variable translate_to_english : string -> string -> string.
Variable classify_query_type : string -> DomainRelevanceChecker.QueryType.
Variable calculate_relevance_score : string -> Q.
Variable calculate_query_confidence : string -> Q.
Variable get_session_history : string -> string -> list string.
Variable get_user_preferences : string -> gmap string bool.

Local Abbreviation candidate :=
  (_synthesize_response calculate_confidence translate_from_english).
Local Abbreviation body :=
  (loop_body tool_registry task_timeout confidence_threshold assess_results
     calculate_confidence identify_missing_information
     translate_from_english completion_time).
Local Abbreviation loop :=
  (while_loop tool_registry task_timeout confidence_threshold assess_results
     calculate_confidence identify_missing_information
     translate_from_english completion_time).
Local Abbreviation processing_loop :=
  (_iterative_processing_loop tool_registry task_timeout
     confidence_threshold max_iterations assess_results
     calculate_confidence identify_missing_information
     translate_from_english completion_time).
Local Abbreviation handle_query :=
  (process_query tool_registry task_timeout confidence_threshold
     max_iterations assess_results calculate_confidence
     identify_missing_information translate_from_english completion_time
     domain_relevance_threshold detect_language translate_to_english
     classify_query_type calculate_relevance_score
     calculate_query_confidence get_session_history get_user_preferences).

Lemma combine_results_unsuccessful (results : odict ToolOutcome)
    (combined : list ResultRecord) (all_sources : list string) :
  Forall (fun entry => outcome_success (snd entry) = Returned false)
    results ->
  combine_results results combined all_sources
  = Returned (combined, all_sources).
Proof.
  induction 1 as [|[n o] results Ho _ IH]; simpl; [reflexivity|].
  simpl in Ho. now rewrite Ho.
Qed.

(** X17. A batch in which every value of the result map is a dict without
    a true [success] entry (the placeholder of a call that raised is
    one) still yields a candidate: its content is the no-results text
    (translated for a language other than English), it has no sources,
    its confidence is what the assessor computes for that text and an
    empty result list, and it carries the result map. *)
Theorem synthesize_without_results (it : nat) (ctx : QueryContext)
    (results : odict ToolOutcome) :
  Forall (fun entry => outcome_success (snd entry) = Returned false)
    results ->
  let text := _generate_no_results_response ctx in
  exists response,
    candidate it ctx results = Returned response
    /\ content response
       = (if String.eqb (language ctx) "en" then text
          else translate_from_english text (language ctx))
    /\ sources response = []
    /\ confidence response = calculate_confidence it (query ctx) text []
    /\ tool_results response = results.
Proof.
  intros Hfail text. unfold _synthesize_response.
  rewrite (combine_results_unsuccessful results [] [] Hfail).
  assert (Hrerank :
            match od_get "rerank" results with
            | Some o =>
                match outcome_success o with
                | Returned true => reranked_results o
                | Returned false => Returned []
                | Raised e => Raised e
                end
            | None => Returned []
            end = Returned []).
  { destruct (od_get "rerank" results) as [o|] eqn:E; [|reflexivity].
    rewrite Forall_forall in Hfail.
    apply od_get_In, list_elem_of_In, Hfail in E. simpl in E.
    now rewrite E. }
  rewrite Hrerank. eexists. split; [reflexivity|].
  simpl. repeat split; reflexivity.
Qed.

Lemma loop_body_query_grows (st : LoopState) :
  exists suffix,
    query (context (fst (body st))) = query (context st) +:+ suffix
    /\ (snd (body st) = None -> 1 <= String.length suffix).
Proof.
  destruct (loop_body_cases tool_registry task_timeout confidence_threshold
              assess_results calculate_confidence
              identify_missing_information translate_from_english
              completion_time st)
    as [(e & _ & ->)|[(r & e & _ & _ & ->)|[(r & c & _ & _ & _ & ->)
        |(r & c & _ & _ & _ & ->)]]]; simpl.
  - exists "". split; [now rewrite string_append_nil_r|discriminate].
  - exists "". split; [now rewrite string_append_nil_r|discriminate].
  - exists "". split; [now rewrite string_append_nil_r|discriminate].
  - eexists. split; [reflexivity|]. intros _.
    rewrite string_append_length. simpl. lia.
Qed.

(** X18. Refinement only ever appends to the query: whatever the loop
    does, the query it leaves in the context starts with the query it
    found there, and after a run that used up a budget of [budget]
    iterations the query has grown by at least [budget] characters.
    Nothing in the loop shortens or caps it. *)
Theorem refined_query_grows (budget : nat) (st : LoopState) :
  exists suffix,
    query (context (fst (loop budget st)))
    = query (context st) +:+ suffix
    /\ (snd (loop budget st) = Exhausted ->
        budget <= String.length suffix).
Proof.
  revert st. induction budget as [|n IH]; intros st; simpl.
  - exists "". split; [now rewrite string_append_nil_r|simpl; lia].
  - destruct (loop_body_query_grows st) as (s1 & Hq1 & Hlen1).
    destruct (body st) as [st1 [exit|]] eqn:Hbody; simpl in *.
    + exists s1. split; [exact Hq1|].
      intros ->.
      destruct (loop_body_cases tool_registry task_timeout
                  confidence_threshold assess_results calculate_confidence
                  identify_missing_information translate_from_english
                  completion_time st)
        as [(e & _ & Hb)|[(r & e & _ & _ & Hb)|[(r & c & _ & _ & _ & Hb)
            |(r & c & _ & _ & _ & Hb)]]];
        rewrite Hb in Hbody; discriminate.
    + destruct (IH st1) as (s2 & Hq2 & Hlen2).
      exists (s1 +:+ s2). split.
      * rewrite Hq2, Hq1. apply string_append_assoc.
      * intros Hex. rewrite string_append_length.
        specialize (Hlen1 eq_refl). specialize (Hlen2 Hex). lia.
Qed.

(** X19. Finalization leaves confidence, sources, tool results and the
    clarification fields of a response alone and only appends to its
    content.  A response whose confidence is below 0.7 always ends with
    the confidence note; without the [detailed_responses] preference a
    response of confidence 0.7 or more is returned unchanged. *)
Theorem finalize_response_appends (response : AgentResponse)
    (ctx : QueryContext) :
  let final := _finalize_response response ctx in
  confidence final = confidence response
  /\ sources final = sources response
  /\ tool_results final = tool_results response
  /\ requires_clarification final = requires_clarification response
  /\ clarification_questions final = clarification_questions response
  /\ (exists suffix, content final = content response +:+ suffix)
  /\ ((confidence response < 0.7)%Q ->
      exists text, content final = text +:+ confidence_note)
  /\ ((0.7 <= confidence response)%Q ->
      default false (user_preferences ctx !! "detailed_responses") = false ->
      final = response).
Proof.
  intros final. subst final. unfold _finalize_response.
  destruct (default false (user_preferences ctx !! "detailed_responses"));
    cbn [content confidence set_content];
    destruct (Qlt_le_dec _ _) as [Hlt|Hle];
    cbn [content confidence sources tool_results requires_clarification
         clarification_questions set_content];
    repeat (split; [reflexivity|]).
  - split; [|split].
    + eexists. rewrite string_append_assoc. reflexivity.
    + intros _. eexists. unfold confidence_note. reflexivity.
    + intros H. exfalso. now apply (Qlt_not_le _ _ Hlt).
  - split; [|split].
    + eexists. reflexivity.
    + intros H. exfalso. now apply (Qlt_not_le _ _ H).
    + discriminate.
  - split; [|split].
    + eexists. reflexivity.
    + intros _. eexists. unfold confidence_note. reflexivity.
    + intros H. exfalso. now apply (Qlt_not_le _ _ Hlt).
  - split; [|split].
    + exists "". now rewrite string_append_nil_r.
    + intros H. exfalso. now apply (Qlt_not_le _ _ H).
    + intros _ _. now destruct response.
Qed.

(** Whatever holds of every candidate holds of the best response. *)
Lemma while_loop_best_candidate (P : AgentResponse -> Prop) :
  (forall it c results r, candidate it c results = Returned r -> P r) ->
  forall budget st,
    (forall b, best_response st = Some b -> P b) ->
    forall b, best_response (fst (loop budget st)) = Some b -> P b.
Proof.
  intros Hcand budget.
  induction budget as [|n IH]; intros st Hst; simpl; [exact Hst|].
  destruct (loop_body_cases tool_registry task_timeout confidence_threshold
              assess_results calculate_confidence
              identify_missing_information translate_from_english
              completion_time st)
    as [(e & _ & Hb)|[(res & e & _ & _ & Hb)|[(res & c & _ & _ & _ & Hb)
        |(res & c & _ & Hc & _ & Hb)]]];
    rewrite Hb; simpl; try exact Hst.
  apply IH. simpl. intros b.
  destruct (best_response st) as [old|] eqn:Eold.
  - destruct (Qlt_le_dec _ _); intros [= <-];
      [exact (Hcand _ _ _ _ Hc)|now apply Hst].
  - intros [= <-]. exact (Hcand _ _ _ _ Hc).
Qed.

(** Whatever holds of every candidate and of the fallback response holds
    of every response the loop returns. *)
Lemma loop_response_property (P : AgentResponse -> Prop) :
  (forall it c results r, candidate it c results = Returned r -> P r) ->
  (forall c, P (_create_fallback_response translate_from_english c)) ->
  forall ctx st r, processing_loop ctx = (st, Returned r) -> P r.
Proof.
  intros Hcand Hfall ctx st r. unfold _iterative_processing_loop.
  destruct (loop max_iterations (initial_state ctx)) as [st' exit] eqn:E.
  destruct exit as [r'| |e]; intros [= <- Hr]; subst.
  - destruct (while_loop_accepted tool_registry task_timeout
                confidence_threshold assess_results calculate_confidence
                identify_missing_information translate_from_english
                completion_time _ _ _ _ E) as (results & _ & _ & Hc).
    exact (Hcand _ _ _ _ Hc).
  - destruct (best_response st') as [b|] eqn:Eb; [|apply Hfall].
    pose proof (while_loop_best_candidate P Hcand max_iterations
                  (initial_state ctx)) as Hinv.
    rewrite E in Hinv. simpl in Hinv.
    apply Hinv; [discriminate|exact Eb].
Qed.

Lemma finalize_response_processing_time (response : AgentResponse)
    (ctx : QueryContext) :
  processing_time (_finalize_response response ctx)
  = processing_time response.
Proof.
  unfold _finalize_response.
  destruct (default false (user_preferences ctx !! "detailed_responses"));
    cbn [confidence set_content]; now destruct (Qlt_le_dec _ _).
Qed.

(** X20. [process_query] writes to the memory store only when the loop
    has returned a response.  The interaction it stores carries the
    user and thread ids of the call, the content and confidence of the
    response handed to the caller, and a processing time of 0, because
    the measured time is put on the response after the interaction has
    been stored.  When nothing is stored (irrelevant query or fault in
    the loop), the response carries no tool results, no sources and a
    processing time of 0. *)
Theorem process_query_memory (uid tid q lang : string) (elapsed : Q) :
  match
    process_query tool_registry task_timeout confidence_threshold
      max_iterations assess_results calculate_confidence
      identify_missing_information translate_from_english completion_time
      domain_relevance_threshold detect_language translate_to_english
      classify_query_type calculate_relevance_score
      calculate_query_confidence get_session_history get_user_preferences
      uid tid q lang elapsed
  with
  | (response, Some stored) =>
      int_user_id stored = uid
      /\ int_thread_id stored = tid
      /\ int_response stored = content response
      /\ int_confidence stored = confidence response
      /\ int_processing_time stored = 0%Q
      /\ processing_time response = elapsed
  | (response, None) =>
      tool_results response = []
      /\ sources response = []
      /\ processing_time response = 0%Q
  end.
Proof.
  unfold process_query.
  destruct (Qlt_le_dec _ _); [repeat split; reflexivity|].
  destruct (_iterative_processing_loop _ _ _ _ _ _ _ _ _ _)
    as [st [response|e]] eqn:Hloop; [|repeat split; reflexivity].
  assert (Htime : processing_time response = 0%Q).
  { apply (loop_response_property
             (fun r => processing_time r = 0%Q)) in Hloop; auto.
    intros it c results r. unfold _synthesize_response.
    destruct (combine_results results [] []) as [[combined srcs]|e];
      [|discriminate].
    match goal with
    | |- match ?reranked with _ => _ end = _ -> _ =>
        destruct reranked as [combined'|e]; [|discriminate]
    end.
    now intros [= <-]. }
  pose proof (while_loop_frame tool_registry task_timeout
                confidence_threshold assess_results calculate_confidence
                identify_missing_information translate_from_english
                completion_time max_iterations
                (initial_state
                   (_build_query_context translate_to_english
                      classify_query_type calculate_relevance_score
                      calculate_query_confidence get_session_history
                      get_user_preferences uid tid q
                      (if String.eqb lang "auto" then detect_language q
                       else lang)))) as Hframe.
  unfold _iterative_processing_loop in Hloop.
  destruct (while_loop _ _ _ _ _ _ _ _ _ _) as [st' exit] eqn:Hwhile.
  assert (st' = st) by (destruct exit; now injection Hloop). subst st'.
  destruct Hframe as (Hu & Ht & _). simpl in Hu, Ht.
  cbn [fst snd _update_memory set_processing_time int_user_id
       int_thread_id int_response int_confidence int_processing_time
       content confidence processing_time].
  rewrite finalize_response_processing_time.
  repeat split; auto.
Qed.

End OrchestratorMore.

Lemma synthesize_without_results_witness :
  exists response,
    _synthesize_response sample_confidence no_translation 1 sample_context
      [("rerank", ToolError "rerank unavailable")] = Returned response
    /\ content response = _generate_no_results_response sample_context
    /\ sources response = []
    /\ confidence response = 0.2%Q
    /\ tool_results response = [("rerank", ToolError "rerank unavailable")].
Proof.
  apply (synthesize_without_results sample_confidence no_translation 1
           sample_context [("rerank", ToolError "rerank unavailable")]).
  repeat constructor.
Defined.

(** ** Domain relevance *)

Lemma string_prefix_app (sub s : string) :
  String.prefix sub s = true <-> exists post, s = sub +:+ post.
Proof.
  revert s. induction sub as [|c sub IH]; intros s.
  - split; [intros _; now exists s|intros _; now destruct s].
  - destruct s as [|c' s]; cbn [String.prefix].
    + split; [discriminate|intros [post H]; discriminate H].
    + destruct (Ascii.ascii_dec c c') as [->|Hne].
      * rewrite IH. split; intros [post H]; exists post.
        -- change (String c' s = String c' (sub +:+ post)). now rewrite H.
        -- change (String c' s = String c' (sub +:+ post)) in H.
           now injection H.
      * split; [discriminate|intros [post H]].
        change (String c' s = String c (sub +:+ post)) in H.
        injection H as H1 _. now destruct Hne.
Qed.

(** [py_contains sub s] holds exactly when [s] is some text, then [sub],
    then some text. *)
Lemma py_contains_spec (sub s : string) :
  py_contains sub s = true <-> exists pre post, s = pre +:+ sub +:+ post.
Proof.
  split.
  - induction s as [|c s IH]; cbn [py_contains]; intros H;
      apply orb_true_iff in H as [H|H]; try discriminate.
    + apply string_prefix_app in H as [post H]. now exists "", post.
    + apply string_prefix_app in H as [post H]. now exists "", post.
    + destruct (IH H) as (pre & post & ->). now exists (String c pre), post.
  - intros (pre & post & ->). induction pre as [|c pre IH].
    + change ("" +:+ sub +:+ post) with (sub +:+ post).
      destruct (sub +:+ post) eqn:E; cbn [py_contains];
        apply orb_true_iff; left; apply string_prefix_app;
        exists post; now rewrite E.
    + change (String c pre +:+ sub +:+ post)
        with (String c (pre +:+ sub +:+ post)).
      cbn [py_contains]. rewrite IH. apply orb_true_r.
Qed.

Lemma count_terms_present (terms : list string) (query : string) (n : nat) :
  DomainRelevanceChecker.count_terms terms query n
  = n + DomainRelevanceChecker.count_present terms query.
Proof.
  unfold DomainRelevanceChecker.count_terms,
    DomainRelevanceChecker.count_present.
  revert n. induction terms as [|t terms IH]; intros n; simpl; [lia|].
  rewrite IH. destruct (py_contains t query); simpl; lia.
Qed.

Lemma count_table_fold (table : list (string * list string))
    (query : string) (n : nat) :
  fold_left
    (fun n entry => DomainRelevanceChecker.count_terms (snd entry) query n)
    table n
  = n + length (List.filter (fun term => py_contains term query)
                  (concat (map snd table))).
Proof.
  revert n. induction table as [|[k terms] table IH]; intros n; simpl; [lia|].
  rewrite IH, count_terms_present.
  unfold DomainRelevanceChecker.count_present.
  rewrite List.filter_app, length_app. lia.
Qed.

Lemma count_table_present (table : list (string * list string))
    (query : string) :
  DomainRelevanceChecker.count_table table query
  = DomainRelevanceChecker.count_present (concat (map snd table)) query.
Proof.
  unfold DomainRelevanceChecker.count_table. now rewrite count_table_fold.
Qed.

Lemma min_ratio_bounds (n : nat) (d : Q) :
  (0 < d)%Q ->
  (0 <= Qmin 1 (float_of_nat n / d) <= 1)%Q
  /\ (Qmin 1 (float_of_nat n / d) <= float_of_nat n / d)%Q.
Proof.
  intros Hd.
  assert (Hn : (0 <= float_of_nat n)%Q).
  { unfold float_of_nat. change 0%Q with (inject_Z 0).
    rewrite <- Zle_Qle. lia. }
  assert (H0 : (0 <= float_of_nat n / d)%Q).
  { apply Qle_shift_div_l; [exact Hd|]. lra. }
  repeat split.
  - apply Q.min_glb; [lra|exact H0].
  - apply Q.le_min_l.
  - apply Q.le_min_r.
Qed.


Lemma relevance_score_formula (query : string) :
  exists p s k n : Q,
    (0 <= p <= 1)%Q /\ (0 <= s <= 1)%Q /\ (0 <= k <= 1)%Q /\ (0 <= n <= 1)%Q
    /\ (DomainRelevanceChecker.count_table
          DomainRelevanceChecker.cloud_providers query = 0%nat -> (p == 0)%Q)
    /\ (s <= float_of_nat
               (DomainRelevanceChecker.count_table
                  DomainRelevanceChecker.service_categories query) / 5)%Q
    /\ (DomainRelevanceChecker._calculate_relevance_score query
        == Qmax 0 (Qmin 1 (0.3 * p + 0.4 * s + 0.2 * k - 0.1 * n)))%Q.
Proof.
  unfold DomainRelevanceChecker._calculate_relevance_score.
  set (pm := DomainRelevanceChecker.count_table
               DomainRelevanceChecker.cloud_providers query).
  set (sm := DomainRelevanceChecker.count_table
               DomainRelevanceChecker.service_categories query).
  set (km := DomainRelevanceChecker.count_present
               DomainRelevanceChecker.cloud_keywords query).
  set (nm := DomainRelevanceChecker.count_present
               DomainRelevanceChecker.non_cloud_indicators query).
  destruct (Qlt_le_dec 0 (0 + 0.3 + 0.4 + 0.2 + 0.1)) as [_|Hw];
    [|exfalso; apply Hw; reflexivity].
  destruct (min_ratio_bounds pm 3) as [Hp Hp']; [reflexivity|].
  destruct (min_ratio_bounds sm 5) as [Hs Hs']; [reflexivity|].
  destruct (min_ratio_bounds km 3) as [Hk Hk']; [reflexivity|].
  destruct (min_ratio_bounds nm 2) as [Hn Hn']; [reflexivity|].
  assert (Hzero : (0 <= float_of_nat sm / 5)%Q).
  { apply Qle_shift_div_l; [reflexivity|].
    pose proof (float_of_nat_le 0 sm ltac:(lia)) as H.
    change (float_of_nat 0) with 0%Q in H. lra. }
  exists (if (0 <? pm)%nat then Qmin 1 (float_of_nat pm / 3) else 0%Q),
         (if (0 <? sm)%nat then Qmin 1 (float_of_nat sm / 5) else 0%Q),
         (if (0 <? km)%nat then Qmin 1 (float_of_nat km / 3) else 0%Q),
         (if (0 <? nm)%nat then Qmin 1 (float_of_nat nm / 2) else 0%Q).
  repeat split;
    try (destruct (0 <? pm)%nat; (tauto || lra));
    try (destruct (0 <? sm)%nat; (tauto || lra));
    try (destruct (0 <? km)%nat; (tauto || lra));
    try (destruct (0 <? nm)%nat; (tauto || lra)).
  - intros H0. rewrite H0. reflexivity.
  - apply Q.max_compat; [reflexivity|]. apply Q.min_compat; [reflexivity|].
    destruct (0 <? pm)%nat, (0 <? sm)%nat, (0 <? km)%nat, (0 <? nm)%nat; ring.
Qed.

(** X21.  The relevance score of every query lies between 0 and 0.9: the
    three positive weights add up to 0.9, so the upper end of the
    normalisation to [0, 1] is never reached. *)
Theorem relevance_score_range (query : string) :
  (0 <= DomainRelevanceChecker.calculate_relevance_score query <= 0.9)%Q.
Proof.
  unfold DomainRelevanceChecker.calculate_relevance_score,
    DomainRelevanceChecker.analyze_domain_relevance.
  destruct (DomainRelevanceChecker._assess_clarification_needs _ _ _ _).
  cbn [DomainRelevanceChecker.relevance_score].
  destruct (relevance_score_formula (py_lower query))
    as (p & s & k & n & Hp & Hs & Hk & Hn & _ & _ & ->).
  split.
  - apply Q.le_max_l.
  - apply Q.max_lub; [discriminate|].
    apply Qle_trans with (0.3 * p + 0.4 * s + 0.2 * k - 0.1 * n)%Q;
      [apply Q.le_min_r|lra].
Qed.

Lemma detect_services_length (query : string) :
  length (DomainRelevanceChecker._detect_services query)
  = DomainRelevanceChecker.count_table
      DomainRelevanceChecker.service_categories query.
Proof.
  rewrite count_table_present.
  unfold DomainRelevanceChecker._detect_services,
    DomainRelevanceChecker.count_present.
  generalize DomainRelevanceChecker.service_categories as table.
  intros table.
  enough (H : forall acc : list string,
             length
               (fold_left
                  (fun detected entry =>
                     fold_left
                       (fun detected term =>
                          if py_contains term query
                          then detected ++ [fst entry +:+ ":" +:+ term]
                          else detected)
                       (snd entry) detected)
                  table acc)
             = length acc
               + length (List.filter (fun term => py_contains term query)
                           (concat (map snd table)))).
  { now rewrite H. }
  induction table as [|[category terms] table IH]; intros acc; simpl; [lia|].
  rewrite IH, List.filter_app, length_app.
  enough (H : forall acc : list string,
             length
               (fold_left
                  (fun detected term =>
                     if py_contains term query
                     then detected ++ [category +:+ ":" +:+ term]
                     else detected)
                  terms acc)
             = length acc
               + length (List.filter (fun term => py_contains term query)
                           terms)).
  { rewrite H. lia. }
  clear. induction terms as [|t terms IH]; intros acc; simpl; [lia|].
  rewrite IH. destruct (py_contains t query); simpl; [|lia].
  rewrite length_app. simpl. lia.
Qed.

Lemma detect_provider_existsb (provider : string) (terms : list string)
    (query : string) (detected : list string) :
  DomainRelevanceChecker.detect_provider provider terms query detected
  = if existsb (fun term => py_contains term query) terms
    then detected ++ [provider] else detected.
Proof.
  induction terms as [|t terms IH]; simpl; [reflexivity|].
  now destruct (py_contains t query).
Qed.

Lemma detect_providers_filter (query : string) :
  DomainRelevanceChecker._detect_providers query
  = map fst
      (List.filter
         (fun entry => existsb (fun term => py_contains term query)
                         (snd entry))
         DomainRelevanceChecker.cloud_providers).
Proof.
  unfold DomainRelevanceChecker._detect_providers.
  generalize DomainRelevanceChecker.cloud_providers as table.
  intros table.
  enough (H : forall acc : list string,
             fold_left
               (fun detected entry =>
                  DomainRelevanceChecker.detect_provider (fst entry)
                    (snd entry) query detected)
               table acc
             = acc ++ map fst
                        (List.filter
                           (fun entry =>
                              existsb (fun term => py_contains term query)
                                (snd entry))
                           table)).
  { now rewrite H. }
  induction table as [|[provider terms] table IH]; intros acc; simpl.
  - now rewrite app_nil_r.
  - rewrite IH, detect_provider_existsb.
    destruct (existsb _ terms); simpl; [|reflexivity].
    now rewrite <- app_assoc.
Qed.

Lemma count_present_existsb (terms : list string) (query : string) :
  existsb (fun term => py_contains term query) terms = false ->
  DomainRelevanceChecker.count_present terms query = 0.
Proof.
  unfold DomainRelevanceChecker.count_present.
  induction terms as [|t terms IH]; simpl; [reflexivity|].
  destruct (py_contains t query); simpl; [discriminate|exact IH].
Qed.

Lemma detect_providers_nil (query : string) :
  DomainRelevanceChecker._detect_providers query = [] ->
  DomainRelevanceChecker.count_table
    DomainRelevanceChecker.cloud_providers query = 0.
Proof.
  rewrite detect_providers_filter, count_table_present.
  generalize DomainRelevanceChecker.cloud_providers as table.
  intros table.
  unfold DomainRelevanceChecker.count_present.
  induction table as [|[provider terms] table IH]; simpl; [reflexivity|].
  destruct (existsb _ terms) eqn:E; simpl; [discriminate|].
  intros H. rewrite List.filter_app, length_app, (IH H).
  apply count_present_existsb in E.
  unfold DomainRelevanceChecker.count_present in E. now rewrite E.
Qed.

Lemma analysis_fields (query : string) :
  let analysis := DomainRelevanceChecker.analyze_domain_relevance query in
  DomainRelevanceChecker.relevance_score analysis
  = DomainRelevanceChecker._calculate_relevance_score (py_lower query)
  /\ DomainRelevanceChecker.query_type analysis
     = DomainRelevanceChecker._classify_query_type (py_lower query)
  /\ DomainRelevanceChecker.detected_services analysis
     = DomainRelevanceChecker._detect_services (py_lower query)
  /\ DomainRelevanceChecker.detected_providers analysis
     = DomainRelevanceChecker._detect_providers (py_lower query)
  /\ DomainRelevanceChecker.clarification_needed analysis
     = fst (DomainRelevanceChecker._assess_clarification_needs
              (py_lower query)
              (DomainRelevanceChecker._calculate_relevance_score
                 (py_lower query))
              (DomainRelevanceChecker._detect_services (py_lower query))
              (DomainRelevanceChecker._detect_providers (py_lower query)))
  /\ DomainRelevanceChecker.suggested_clarifications analysis
     = snd (DomainRelevanceChecker._assess_clarification_needs
              (py_lower query)
              (DomainRelevanceChecker._calculate_relevance_score
                 (py_lower query))
              (DomainRelevanceChecker._detect_services (py_lower query))
              (DomainRelevanceChecker._detect_providers (py_lower query))).
Proof.
  unfold DomainRelevanceChecker.analyze_domain_relevance.
  destruct (DomainRelevanceChecker._assess_clarification_needs _ _ _ _).
  repeat split.
Qed.

Lemma relevance_gate_counts (query : string) :
  (0.7 <= DomainRelevanceChecker._calculate_relevance_score query)%Q ->
  1 <= DomainRelevanceChecker.count_table
         DomainRelevanceChecker.cloud_providers query
  /\ 3 <= DomainRelevanceChecker.count_table
            DomainRelevanceChecker.service_categories query.
Proof.
  destruct (relevance_score_formula query)
    as (p & s & k & n & Hp & Hs & Hk & Hn & Hp0 & Hs' & ->).
  intros H.
  assert (HX : (0.7 <= 0.3 * p + 0.4 * s + 0.2 * k - 0.1 * n)%Q).
  { destruct (Q.max_spec 0 (Qmin 1 (0.3 * p + 0.4 * s + 0.2 * k - 0.1 * n)))
      as [[_ E]|[_ E]]; rewrite E in H; [|lra].
    apply Qle_trans with (1 := H). apply Q.le_min_r. }
  split.
  - destruct (DomainRelevanceChecker.count_table
                DomainRelevanceChecker.cloud_providers query) eqn:E; [|lia].
    specialize (Hp0 eq_refl). lra.
  - destruct (le_lt_dec 3 (DomainRelevanceChecker.count_table
                DomainRelevanceChecker.service_categories query))
      as [|Hlt]; [assumption|exfalso].
    assert (Hle : DomainRelevanceChecker.count_table
                    DomainRelevanceChecker.service_categories query <= 2)
      by lia.
    apply float_of_nat_le in Hle.
    change (float_of_nat 2) with 2%Q in Hle.
    assert ((float_of_nat
               (DomainRelevanceChecker.count_table
                  DomainRelevanceChecker.service_categories query) / 5
             <= 0.4)%Q).
    { apply Qle_shift_div_r; [reflexivity|lra]. }
    lra.
Qed.

(** X22.  A query reaches the relevance 0.7 only if at least one cloud
    provider and at least three service terms are detected in it. *)
Theorem relevance_gate_needs_terms (query : string) :
  (0.7 <= DomainRelevanceChecker.calculate_relevance_score query)%Q ->
  1 <= length (DomainRelevanceChecker.detected_providers
                 (DomainRelevanceChecker.analyze_domain_relevance query))
  /\ 3 <= length (DomainRelevanceChecker.detected_services
                    (DomainRelevanceChecker.analyze_domain_relevance query)).
Proof.
  unfold DomainRelevanceChecker.calculate_relevance_score.
  destruct (analysis_fields query) as (-> & _ & -> & -> & _).
  intros H. apply relevance_gate_counts in H as [Hp Hs].
  rewrite detect_services_length. split; [|exact Hs].
  destruct (DomainRelevanceChecker._detect_providers (py_lower query))
    eqn:E; [|simpl; lia].
  apply detect_providers_nil in E. lia.
Qed.

Lemma relevance_gate_needs_terms_witness :
  1 <= length (DomainRelevanceChecker.detected_providers
                 (DomainRelevanceChecker.analyze_domain_relevance
                    "Use AWS EC2 and S3 with Lambda and RDS as a cloud API"))
  /\ 3 <= length (DomainRelevanceChecker.detected_services
                    (DomainRelevanceChecker.analyze_domain_relevance
                       "Use AWS EC2 and S3 with Lambda and RDS as a cloud API")).
Proof.
  apply (relevance_gate_needs_terms
           "Use AWS EC2 and S3 with Lambda and RDS as a cloud API").
  vm_compute. discriminate.
Defined.

Section OrchestratorDomain.

Variable tool_registry : ToolRegistry.
Variable task_timeout : Q.
Variable confidence_threshold : Q.
Variable max_iterations : nat.
Variable assess_results : nat -> string -> odict ToolOutcome -> Q.
Variable calculate_confidence :
  nat -> string -> string -> list ResultRecord -> Q.
Variable identify_missing_information :
  nat -> string -> odict ToolOutcome -> list string.
Variable translate_from_english : string -> string -> string.
Variable completion_time : nat -> string -> Q.
Variable detect_language : string -> string.
Variable translate_to_english : string -> string -> string.
Variable classify_query_type : string -> DomainRelevanceChecker.QueryType.
Variable calculate_query_confidence : string -> Q.
Variable get_session_history : string -> string -> list string.
Variable get_user_preferences : string -> gmap string bool.

(** X23.  With the relevance score of the domain checker and the
    orchestrator's threshold of 0.7, [process_query] turns away every query
    whose English text names no cloud provider or fewer than three service
    terms: the answer asks for clarification with confidence 0.5, carries
    no tool results and no sources, and no interaction is stored. *)
Theorem process_query_rejects_sparse_queries (uid tid q lang : string)
    (elapsed : Q) :
  let language := if String.eqb lang "auto" then detect_language q else lang in
  let english_query :=
    if String.eqb language "en" then q
    else translate_to_english q language in
  let analysis :=
    DomainRelevanceChecker.analyze_domain_relevance english_query in
  DomainRelevanceChecker.detected_providers analysis = []
  \/ length (DomainRelevanceChecker.detected_services analysis) < 3 ->
  let result :=
    process_query tool_registry task_timeout confidence_threshold
      max_iterations assess_results calculate_confidence
      identify_missing_information translate_from_english completion_time
      default_domain_relevance_threshold detect_language
      translate_to_english classify_query_type
      DomainRelevanceChecker.calculate_relevance_score
      calculate_query_confidence get_session_history get_user_preferences
      uid tid q lang elapsed in
  snd result = None
  /\ requires_clarification (fst result) = true
  /\ confidence (fst result) = 0.5%Q
  /\ tool_results (fst result) = []
  /\ sources (fst result) = [].
Proof.
  intros language english_query analysis Hsparse result.
  subst result. unfold process_query.
  fold language.
  destruct (Qlt_le_dec _ _) as [_|Hge]; [repeat split|exfalso].
  unfold _build_query_context in Hge. cbn [domain_relevance] in Hge.
  fold english_query in Hge.
  apply relevance_gate_needs_terms in Hge. fold analysis in Hge.
  destruct Hsparse as [Hnil|Hlt]; [rewrite Hnil in Hge; simpl in Hge|]; lia.
Qed.

End OrchestratorDomain.

Lemma process_query_rejects_sparse_queries_witness :
  let result :=
    process_query sample_registry default_task_timeout
      default_confidence_threshold default_max_iterations
      (constant_assessor 0.1%Q) sample_confidence sample_missing
      no_translation prompt_completion default_domain_relevance_threshold
      (fun _ => "en") no_translation
      (fun _ => DomainRelevanceChecker.PERFORMANCE)
      DomainRelevanceChecker.calculate_relevance_score
      DomainRelevanceChecker.calculate_confidence (fun _ _ => [])
      (fun _ => ∅) "u1" "t1" "EC2 instance slow" "en" 5%Q in
  snd result = None
  /\ requires_clarification (fst result) = true
  /\ confidence (fst result) = 0.5%Q
  /\ tool_results (fst result) = []
  /\ sources (fst result) = [].
Proof.
  apply (process_query_rejects_sparse_queries sample_registry
           default_task_timeout default_confidence_threshold
           default_max_iterations (constant_assessor 0.1%Q)
           sample_confidence sample_missing no_translation
           prompt_completion (fun _ => "en") no_translation
           (fun _ => DomainRelevanceChecker.PERFORMANCE)
           DomainRelevanceChecker.calculate_confidence (fun _ _ => [])
           (fun _ => ∅) "u1" "t1" "EC2 instance slow" "en" 5%Q).
  right. vm_compute. lia.
Defined.

Lemma type_scores_filter (query : string) :
  DomainRelevanceChecker.type_scores query
  = List.filter (fun hit => (0 <? snd hit)%nat) (pattern_hits query).
Proof.
  unfold DomainRelevanceChecker.type_scores, pattern_hits.
  generalize DomainRelevanceChecker.query_type_patterns as table.
  intros table.
  enough (H : forall acc,
             fold_left
               (fun scores (entry : DomainRelevanceChecker.QueryType
                                    * list string) =>
                  let score :=
                    DomainRelevanceChecker.count_terms (snd entry) query 0 in
                  if (0 <? score)%nat then scores ++ [(fst entry, score)]
                  else scores)
               table acc
             = acc ++ List.filter (fun hit => (0 <? snd hit)%nat)
                        (map (fun entry =>
                                (fst entry,
                                 DomainRelevanceChecker.count_present
                                   (snd entry) query))
                           table)).
  { now rewrite H. }
  induction table as [|[t patterns] table IH]; intros acc; simpl.
  - now rewrite app_nil_r.
  - rewrite IH, count_terms_present. simpl.
    destruct (DomainRelevanceChecker.count_present patterns query);
      simpl; [reflexivity|].
    now rewrite <- app_assoc.
Qed.

(** [max] returns the first of the maximal items. *)
Lemma py_max_from_split {A : Type} (key : A -> nat) (l before after : list A)
    (best : A) :
  Forall (fun x => key x < key best) before ->
  Forall (fun x => key x <= key best) after ->
  exists before' after',
    before ++ best :: after ++ l
    = before' ++ py_max_from key best l :: after'
    /\ Forall (fun x => key x < key (py_max_from key best l)) before'
    /\ Forall (fun x => key x <= key (py_max_from key best l)) after'.
Proof.
  revert before after best.
  induction l as [|x l IH]; intros before after best Hb Ha; simpl.
  - exists before, after. now rewrite app_nil_r.
  - destruct (key best <? key x)%nat eqn:E.
    + apply Nat.ltb_lt in E.
      destruct (IH (before ++ best :: after) [] x) as (b & a & Heq & H);
        [|constructor|].
      * apply Forall_app. split; [|constructor]; auto.
        -- eapply Forall_impl; [exact Hb|]. simpl. intros; lia.
        -- eapply Forall_impl; [exact Ha|]. simpl. intros; lia.
      * exists b, a. split; [|exact H].
        rewrite <- Heq. now rewrite <- app_assoc.
    + apply Nat.ltb_ge in E.
      destruct (IH before (after ++ [x]) best) as (b & a & Heq & H); auto.
      * apply Forall_app. split; [exact Ha|]. now repeat constructor.
      * exists b, a. split; [|exact H].
        rewrite <- Heq. now rewrite <- app_assoc.
Qed.

Lemma filter_split {A : Type} (P : A -> bool) (l before after : list A)
    (x : A) :
  List.filter P l = before ++ x :: after ->
  exists before' after',
    l = before' ++ x :: after'
    /\ (forall y, In y before' -> In y before \/ P y = false)
    /\ (forall y, In y after' -> In y after \/ P y = false).
Proof.
  revert before.
  induction l as [|y l IH]; intros before; simpl.
  - now destruct before.
  - destruct (P y) eqn:E.
    + destruct before as [|b before]; simpl; intros H; injection H as -> H.
      * exists [], l. repeat split; [intros ? []|].
        intros z Hz. destruct (P z) eqn:Ez; [left|now right].
        rewrite <- H. apply List.filter_In. now split.
      * destruct (IH _ H) as (b' & a' & -> & Hb & Ha).
        exists (b :: b'), a'. repeat split; [|exact Ha].
        intros z [<-|Hz]; [now left; left|].
        destruct (Hb z Hz); [left; now right|now right].
    + intros H. destruct (IH _ H) as (b' & a' & -> & Hb & Ha).
      exists (y :: b'), a'. repeat split; [|exact Ha].
      intros z [<-|Hz]; [now right|]. exact (Hb z Hz).
Qed.

(** X24.  The query type is the first entry of the pattern table with the
    largest number of patterns occurring in the lower-cased query, and
    GENERAL_INQUIRY exactly when no pattern occurs at all. *)
Theorem classify_query_type_first_maximum (query : string) :
  let hits := pattern_hits (py_lower query) in
  let result := DomainRelevanceChecker.classify_query_type query in
  (Forall (fun hit => snd hit = 0) hits
   /\ result = DomainRelevanceChecker.GENERAL_INQUIRY)
  \/ (exists before n after,
        hits = before ++ (result, n) :: after
        /\ 0 < n
        /\ Forall (fun hit => snd hit < n) before
        /\ Forall (fun hit => snd hit <= n) after).
Proof.
  intros hits result. subst result.
  unfold DomainRelevanceChecker.classify_query_type.
  destruct (analysis_fields query) as (_ & -> & _).
  unfold DomainRelevanceChecker._classify_query_type.
  rewrite type_scores_filter. fold hits.
  destruct (List.filter _ hits) as [|first others] eqn:Hf.
  - left. split; [|reflexivity].
    apply List.Forall_forall. intros hit Hin.
    destruct (snd hit) eqn:E; [reflexivity|exfalso].
    assert (Hin' : In hit (List.filter (fun hit => (0 <? snd hit)%nat) hits)).
    { apply List.filter_In. split; [exact Hin|]. now rewrite E. }
    now rewrite Hf in Hin'.
  - right.
    destruct (py_max_from_split snd others [] [] first)
      as (b & a & Heq & Hb & Ha); [constructor|constructor|].
    simpl in Heq. set (r := py_max_from snd first others) in *.
    assert (Hpos : 0 < snd r).
    { assert (Hin : In r (List.filter (fun hit => (0 <? snd hit)%nat) hits)).
      { rewrite Hf, Heq. apply in_elt. }
      apply List.filter_In in Hin as [_ Hin]. now apply Nat.ltb_lt. }
    rewrite Heq in Hf.
    apply filter_split in Hf as (b' & a' & Hhits & Hb' & Ha').
    exists b', (snd r), a'. rewrite <- surjective_pairing.
    split; [exact Hhits|]. split; [exact Hpos|].
    rewrite List.Forall_forall in Hb, Ha.
    split; apply List.Forall_forall; intros hit Hin.
    + destruct (Hb' hit Hin) as [H|H]; [now apply Hb|].
      apply Nat.ltb_ge in H. lia.
    + destruct (Ha' hit Hin) as [H|H]; [now apply Ha|].
      apply Nat.ltb_ge in H. lia.
Qed.

Lemma map_fst_filter_sublist {A B : Type} (P : A * B -> bool)
    (l : list (A * B)) :
  sublist (map fst (List.filter P l)) (map fst l).
Proof.
  induction l as [|x l IH]; simpl; [constructor|].
  destruct (P x); simpl; now constructor.
Qed.

(** X25.  Every provider is reported at most once, in the order of the
    provider table, and exactly when one of its terms occurs in the
    lower-cased query. *)
Theorem detected_providers_once (query : string) :
  let detected :=
    DomainRelevanceChecker.detected_providers
      (DomainRelevanceChecker.analyze_domain_relevance query) in
  NoDup detected
  /\ sublist detected (map fst DomainRelevanceChecker.cloud_providers)
  /\ forall provider,
       In provider detected
       <-> exists terms term,
             In (provider, terms) DomainRelevanceChecker.cloud_providers
             /\ In term terms
             /\ py_contains term (py_lower query) = true.
Proof.
  intros detected. subst detected.
  destruct (analysis_fields query) as (_ & _ & _ & -> & _).
  rewrite detect_providers_filter.
  assert (Hsub := map_fst_filter_sublist
                    (fun entry : string * list string =>
                       existsb (fun term => py_contains term (py_lower query))
                         (snd entry))
                    DomainRelevanceChecker.cloud_providers).
  split; [|split; [exact Hsub|]].
  - eapply sublist_NoDup; [|exact Hsub].
    change (map fst DomainRelevanceChecker.cloud_providers)
      with ["aws"; "azure"; "gcp"; "alibaba"; "oracle"; "ibm"].
    apply NoDup_ListNoDup.
    repeat constructor; simpl; intuition discriminate.
  - intros provider. rewrite in_map_iff. split.
    + intros ([p terms] & <- & Hin).
      apply List.filter_In in Hin as [Hin Hex].
      apply existsb_exists in Hex as (term & Hterm & Hc).
      now exists terms, term.
    + intros (terms & term & Hin & Hterm & Hc).
      exists (provider, terms). split; [reflexivity|].
      apply List.filter_In. split; [exact Hin|].
      apply existsb_exists. now exists term.
Qed.

(** X26.  No clarification is suggested exactly when the relevance is at
    least 0.5, exactly one provider and at least one service are detected,
    and the query is not a short one with both "error" and "not working". *)
Theorem clarification_not_needed (query : string) :
  let analysis := DomainRelevanceChecker.analyze_domain_relevance query in
  DomainRelevanceChecker.clarification_needed analysis = false
  <-> (0.5 <= DomainRelevanceChecker.relevance_score analysis)%Q
      /\ length (DomainRelevanceChecker.detected_providers analysis) = 1
      /\ DomainRelevanceChecker.detected_services analysis <> []
      /\ (py_contains "error" (py_lower query)
          && py_contains "not working" (py_lower query)
          && (length (py_split (py_lower query)) <? 5)%nat) = false.
Proof.
  intros analysis. subst analysis.
  destruct (analysis_fields query) as (-> & _ & -> & -> & -> & _).
  unfold DomainRelevanceChecker._assess_clarification_needs, float_lt.
  generalize (DomainRelevanceChecker._calculate_relevance_score
                (py_lower query)) as relevance.
  generalize (DomainRelevanceChecker._detect_services (py_lower query))
    as services.
  generalize (DomainRelevanceChecker._detect_providers (py_lower query))
    as providers.
  intros providers services relevance.
  destruct (py_contains "error" (py_lower query)
            && py_contains "not working" (py_lower query)
            && (length (py_split (py_lower query)) <? 5)%nat).
  - split; [|intros (_ & _ & _ & H); discriminate H].
    cbn [fst]. intros H. exfalso. revert H.
    repeat match goal with
           | |- context [if ?c then _ else _] => destruct c
           end; rewrite ?length_app; simpl; intros H;
      apply Nat.ltb_ge in H; lia.
  - cbn [fst].
    destruct (Qlt_le_dec relevance 0.5) as [Hlow|Hhigh].
    + split; [|intros (H & _); lra].
      intros H. exfalso. revert H.
      repeat match goal with
             | |- context [if ?c then _ else _] => destruct c
             end; rewrite ?length_app; simpl; intros H;
        apply Nat.ltb_ge in H; lia.
    + destruct (Qlt_le_dec 0.3 relevance) as [_|Hle]; [|lra].
      destruct providers as [|p1 [|p2 providers]],
               services as [|s1 services]; simpl;
        rewrite ?length_app; simpl; split;
        try discriminate;
        try (intros (_ & H & _); discriminate H);
        try (intros (_ & _ & H & _); now destruct H);
        try (intros _; repeat split; (assumption || discriminate)).
Qed.

(** X27.  A query that is out of scope (relevance below 0.3) always needs
    clarification: the first question asks whether it is about cloud
    services, and the questions for the provider and for the service are
    never among the others. *)
Theorem out_of_scope_needs_clarification (query : string) :
  let scope := DomainRelevanceChecker.validate_query_scope query in
  DomainRelevanceChecker.in_scope scope = false ->
  DomainRelevanceChecker.needs_clarification scope = true
  /\ head (DomainRelevanceChecker.clarification_questions scope)
     = Some "Are you asking about cloud services (AWS, Azure, Google Cloud)?"
  /\ ~ In "Which cloud provider are you using (AWS, Azure, Google Cloud)?"
         (DomainRelevanceChecker.clarification_questions scope)
  /\ ~ In "Which specific cloud service are you asking about?"
         (DomainRelevanceChecker.clarification_questions scope).
Proof.
  intros scope. subst scope.
  unfold DomainRelevanceChecker.validate_query_scope.
  cbn [DomainRelevanceChecker.in_scope
       DomainRelevanceChecker.needs_clarification
       DomainRelevanceChecker.clarification_questions].
  destruct (analysis_fields query) as (-> & _ & _ & _ & -> & ->).
  unfold DomainRelevanceChecker._assess_clarification_needs, float_lt,
    float_le.
  generalize (DomainRelevanceChecker._calculate_relevance_score
                (py_lower query)) as relevance.
  intros relevance.
  destruct (Qlt_le_dec relevance 0.3) as [Hlow|]; [intros _|discriminate].
  destruct (Qlt_le_dec relevance 0.5) as [_|]; [|lra].
  destruct (Qlt_le_dec 0.3 relevance) as [|_]; [lra|].
  rewrite !andb_false_r. cbn [fst snd app].
  repeat match goal with
         | |- context [if ?c then _ else _] => destruct c
         end; simpl; repeat split; try reflexivity;
    intros H; repeat (destruct H as [H|H]; [discriminate H|]); exact H.
Qed.

Lemma out_of_scope_needs_clarification_witness :
  let scope :=
    DomainRelevanceChecker.validate_query_scope
      "What is the weather in Colombo?" in
  DomainRelevanceChecker.needs_clarification scope = true
  /\ head (DomainRelevanceChecker.clarification_questions scope)
     = Some "Are you asking about cloud services (AWS, Azure, Google Cloud)?"
  /\ ~ In "Which cloud provider are you using (AWS, Azure, Google Cloud)?"
         (DomainRelevanceChecker.clarification_questions scope)
  /\ ~ In "Which specific cloud service are you asking about?"
         (DomainRelevanceChecker.clarification_questions scope).
Proof.
  apply (out_of_scope_needs_clarification "What is the weather in Colombo?").
  vm_compute. reflexivity.
Defined.

(** ** The translation cache *)

(** X28.  The cache key holds only the first 100 characters of the text.
    Once a text has been translated to English (or found in the cache), a
    second text of the same language with the same first 100 characters
    gets the translation of the first one, whatever follows those
    characters, and the cache stays as the first call left it; only when
    the first translation fails is nothing cached. *)
Theorem translation_reused_for_same_prefix
    (sinhala_to_english : Text -> Outcome Text)
    (translator_translate : Text -> Text -> Text -> Outcome Text)
    (cache : gmap Text Text) (text1 text2 source_language : Text) :
  source_language <> text_of "en" ->
  firstn 100 text1 = firstn 100 text2 ->
  let first :=
    LanguageProcessor.translate_to_english sinhala_to_english
      translator_translate cache text1 source_language in
  let second :=
    LanguageProcessor.translate_to_english sinhala_to_english
      translator_translate (fst first) text2 source_language in
  (second = first
   /\ fst first !! (source_language ++ text_of ":" ++ firstn 100 text1)
      = Some (snd first))
  \/ (first = (cache, text1)
      /\ cache !! (source_language ++ text_of ":" ++ firstn 100 text1)
         = None
      /\ exists e,
           (if bool_decide (source_language = text_of "si")
            then sinhala_to_english text1
            else translator_translate text1 source_language
                   (text_of "en"))
           = Raised e).
Proof.
  intros Hlang Hprefix first second. subst first second.
  unfold LanguageProcessor.translate_to_english.
  rewrite (bool_decide_eq_false_2 _ Hlang), <- Hprefix.
  set (key := source_language ++ text_of ":" ++ firstn 100 text1).
  destruct (cache !! key) as [cached|] eqn:Hcache.
  - left. cbn [fst snd]. now rewrite Hcache.
  - destruct (if bool_decide (source_language = text_of "si")
              then _ else _) as [translated|e] eqn:Hcall.
    + left. cbn [fst snd]. now rewrite lookup_insert_eq.
    + right. repeat split. now exists e.
Qed.

Lemma translation_reused_for_same_prefix_witness :
  let first :=
    LanguageProcessor.translate_to_english marking_translator
      (fun text _ _ => Returned text) ∅ sample_text_slow (text_of "si") in
  let second :=
    LanguageProcessor.translate_to_english marking_translator
      (fun text _ _ => Returned text) (fst first) sample_text_down
      (text_of "si") in
  (second = first
   /\ fst first
      !! (text_of "si" ++ text_of ":" ++ firstn 100 sample_text_slow)
      = Some (snd first))
  \/ (first = (∅, sample_text_slow)
      /\ (∅ : gmap Text Text)
         !! (text_of "si" ++ text_of ":" ++ firstn 100 sample_text_slow)
         = None
      /\ exists e,
           (if bool_decide (text_of "si" = text_of "si")
            then marking_translator sample_text_slow
            else Returned sample_text_slow) = Raised e).
Proof.
  apply (translation_reused_for_same_prefix marking_translator
           (fun text _ _ => Returned text) ∅ sample_text_slow
           sample_text_down (text_of "si")).
  - discriminate.
  - vm_compute. reflexivity.
Defined.

(** X29.  Neither direction of translation ever changes or removes an
    entry of the cache: what a key holds after a call is what it held
    before, if it held anything. *)
Theorem translation_cache_entries_kept
    (sinhala_to_english english_to_sinhala : Text -> Outcome Text)
    (translator_translate : Text -> Text -> Text -> Outcome Text)
    (cache : gmap Text Text) (text language key cached : Text) :
  cache !! key = Some cached ->
  fst (LanguageProcessor.translate_to_english sinhala_to_english
         translator_translate cache text language) !! key = Some cached
  /\ fst (LanguageProcessor.translate_from_english english_to_sinhala
            translator_translate cache text language) !! key = Some cached.
Proof.
  intros Hkey.
  unfold LanguageProcessor.translate_to_english,
    LanguageProcessor.translate_from_english.
  destruct (bool_decide (language = text_of "en")); [now split|].
  split.
  - generalize (language ++ text_of ":" ++ firstn 100 text) as k.
    intros k.
    destruct (cache !! k) as [c|] eqn:Hk; [exact Hkey|].
    destruct (if bool_decide (language = text_of "si") then _ else _);
      cbn [fst]; [|exact Hkey].
    rewrite lookup_insert_ne; [exact Hkey|].
    intros E. rewrite <- E in Hkey.
    assert (H0 : Some cached = None)
      by (etransitivity; [symmetry; exact Hkey|exact Hk]).
    discriminate H0.
  - generalize
      (text_of "en:" ++ language ++ text_of ":" ++ firstn 100 text) as k.
    intros k.
    destruct (cache !! k) as [c|] eqn:Hk; [exact Hkey|].
    destruct (if bool_decide (language = text_of "si") then _ else _);
      cbn [fst]; [|exact Hkey].
    rewrite lookup_insert_ne; [exact Hkey|].
    intros E. rewrite <- E in Hkey.
    assert (H0 : Some cached = None)
      by (etransitivity; [symmetry; exact Hkey|exact Hk]).
    discriminate H0.
Qed.

Lemma translation_cache_entries_kept_witness :
  fst (LanguageProcessor.translate_to_english marking_translator
         (fun text _ _ => Returned text)
         {[text_of "si:s3" := text_of "s3 bucket"]} sample_text_slow
         (text_of "si")) !! text_of "si:s3"
  = Some (text_of "s3 bucket")
  /\ fst (LanguageProcessor.translate_from_english marking_translator
            (fun text _ _ => Returned text)
            {[text_of "si:s3" := text_of "s3 bucket"]} sample_text_slow
            (text_of "si")) !! text_of "si:s3"
     = Some (text_of "s3 bucket").
Proof.
  apply (translation_cache_entries_kept marking_translator
           marking_translator (fun text _ _ => Returned text)
           {[text_of "si:s3" := text_of "s3 bucket"]} sample_text_slow
           (text_of "si") (text_of "si:s3") (text_of "s3 bucket")).
  apply lookup_singleton_eq.
Defined.
